(** * payoutd: the request router, the poll loop and the daemon shell

    A shallow embedding of [payoutd.c].  The daemon is single threaded: every
    callback runs to completion on one record of state, so the C functions
    become functions in a state monad over [World].  Everything that lies
    outside the repository (the vendor library libitlssp, jansson, hiredis,
    libuuid, libevent) is either logged as an observable effect or read from
    an input supplied by the environment:

    - each call into libitlssp is appended to [wire] together with the
      response code it produced; the device's answers are read, in order,
      from [answers];
    - each [PUBLISH] is appended to [published];
    - the uuid of a response and the result of [json_loads] are inputs of
      [cbOnRequestMessage];
    - [exit] is the outcome [Died rc].

    [syslog] output and [hardwareWaitTime] (a sleep) have no effect on this
    state and are left out. *)

From Stdlib Require Import ZArith List String Ascii Bool Lia DecimalString.
Import ListNotations.

#[local] Set Warnings "-register-all".
#[local] Open Scope string_scope.
#[local] Open Scope Z_scope.

(** ** C integer conversions *)

Module CInt.

Definition to_uchar (z : Z) : Z := z mod 256.

Definition to_uint (z : Z) : Z := z mod 2 ^ 32.

(** Conversion to [int]: wrap-around to 32 bits, two's complement. *)
Definition to_int (z : Z) : Z := (z + 2 ^ 31) mod 2 ^ 32 - 2 ^ 31.

Definition INT_MAX : Z := 2 ^ 31 - 1.

(** [x |= 1 << k] on an [unsigned char]. *)
Definition set_bit (x k : Z) : Z := to_uchar (Z.lor x (Z.shiftl 1 k)).

(** [x &= ~(1 << k)] on an [unsigned char]. *)
Definition clear_bit (x k : Z) : Z :=
  to_uchar (Z.land x (Z.lnot (Z.shiftl 1 k))).

End CInt.

(** ** C strings *)

(** [strstr haystack needle != NULL]. *)
Fixpoint strstr (haystack needle : string) : bool :=
  String.prefix needle haystack ||
  match haystack with
  | EmptyString => false
  | String _ rest => strstr rest needle
  end.

(** What [printf] writes for [%d] and [%ld]. *)
Definition decimal (z : Z) : string := NilZero.string_of_int (Z.to_int z).

Definition hex_digit (n : Z) : string :=
  String.substring (Z.to_nat n) 1 "0123456789ABCDEF".

(** What [printf] writes for [%02X] given an [unsigned char]. *)
Definition hex02 (b : Z) : string :=
  hex_digit (Z.shiftr (b mod 256) 4) ++ hex_digit (Z.land (b mod 256) 15).

(** A [char] buffer read by [%s]: the bytes up to the first NUL. *)
Fixpoint c_string (bytes : list Z) : string :=
  match bytes with
  | [] => EmptyString
  | b :: rest =>
      if b =? 0 then EmptyString
      else String (ascii_of_nat (Z.to_nat b)) (c_string rest)
  end.

(** The bytes of a C string, [s[0]], [s[1]], ... *)
Fixpoint c_bytes (s : string) : list Z :=
  match s with
  | EmptyString => []
  | String c rest => Z.of_nat (nat_of_ascii c) :: c_bytes rest
  end.

(** ** jansson values *)

Module Json.

Inductive json_t : Type :=
| json_null
| json_true
| json_false
| json_integer (v : Z)
| json_real (text : string)
| json_string (s : string)
| json_array (items : list json_t)
| json_object (members : list (string * json_t)).

Record json_error_t : Type := { text : string; line : Z }.

Fixpoint lookup (members : list (string * json_t)) (key : string)
  : option json_t :=
  match members with
  | [] => None
  | (k, v) :: rest => if String.eqb k key then Some v else lookup rest key
  end.

(** [json_object_get]: NULL unless the value is an object with that key. *)
Definition json_object_get (j : json_t) (key : string) : option json_t :=
  match j with
  | json_object members => lookup members key
  | _ => None
  end.

Definition json_is_string (j : option json_t) : bool :=
  match j with Some (json_string _) => true | _ => false end.

Definition json_is_integer (j : option json_t) : bool :=
  match j with Some (json_integer _) => true | _ => false end.

Definition json_string_value (j : option json_t) : option string :=
  match j with Some (json_string s) => Some s | _ => None end.

Definition json_integer_value (j : option json_t) : Z :=
  match j with Some (json_integer v) => v | _ => 0 end.

End Json.
Import Json.

(** ** Messages on the bus

    Every message the daemon publishes is a flat JSON object written by one
    [printf] format; a message is the list of its members in the order of the
    format string.  [FStr] is a ["%s"] slot inside quotes, [FNum] a [%d] or
    [%ld] slot, [FRaw] pre-formatted JSON spliced in with [%s]. *)

Inductive field : Type :=
| FStr (s : string)
| FNum (z : Z)
| FRaw (s : string).

Definition message : Type := list (string * field).

Definition dq : string := String (ascii_of_nat 34) EmptyString.

Definition render_field (f : field) : string :=
  match f with
  | FStr s => dq ++ s ++ dq
  | FNum z => decimal z
  | FRaw s => s
  end.

Fixpoint render_members (m : message) : string :=
  match m with
  | [] => EmptyString
  | [(k, v)] => dq ++ k ++ dq ++ ":" ++ render_field v
  | (k, v) :: rest =>
      dq ++ k ++ dq ++ ":" ++ render_field v ++ "," ++ render_members rest
  end.

(** The text that goes to redis. *)
Definition render (m : message) : string := "{" ++ render_members m ++ "}".



(** ** The vendor library: response codes, poll events, setup data *)

(** Modelled from the spec: [SSP_RESPONSE_ENUM] is declared in libitlssp,
    which is not part of the sources.  Its members here are the names that
    [payoutd.c] tests for: OK and the codes of the spec's error surface
    (Timeout, KeyNotSet, UnknownCommand, IncorrectParameters,
    InvalidParameter, CommandNotProcessed, SoftwareError, ChecksumError,
    Failure, HeaderFailure).  Any other byte a device sends is
    [SSP_RESPONSE_other]. *)
Inductive SSP_RESPONSE_ENUM : Type :=
| SSP_RESPONSE_OK
| SSP_RESPONSE_UNKNOWN_COMMAND
| SSP_RESPONSE_INCORRECT_PARAMETERS
| SSP_RESPONSE_INVALID_PARAMETER
| SSP_RESPONSE_COMMAND_NOT_PROCESSED
| SSP_RESPONSE_SOFTWARE_ERROR
| SSP_RESPONSE_CHECKSUM_ERROR
| SSP_RESPONSE_FAILURE
| SSP_RESPONSE_HEADER_FAILURE
| SSP_RESPONSE_KEY_NOT_SET
| SSP_RESPONSE_TIMEOUT
| SSP_RESPONSE_other (code : Z).

Definition is_OK (r : SSP_RESPONSE_ENUM) : bool :=
  match r with SSP_RESPONSE_OK => true | _ => false end.

(** Modelled from the spec: the event opcodes of [SSP_POLL_DATA6] are
    declared in libitlssp, which is not part of the sources.  The members
    are the names that the two event handlers of [payoutd.c] switch on; an
    opcode without a name is [SSP_POLL_other]. *)
Inductive SSP_POLL_EVENT : Type :=
| SSP_POLL_RESET
| SSP_POLL_READ
| SSP_POLL_CREDIT
| SSP_POLL_REJECTING
| SSP_POLL_REJECTED
| SSP_POLL_STACKING
| SSP_POLL_STORED
| SSP_POLL_STACKED
| SSP_POLL_SAFE_JAM
| SSP_POLL_UNSAFE_JAM
| SSP_POLL_DISABLED
| SSP_POLL_FRAUD_ATTEMPT
| SSP_POLL_STACKER_FULL
| SSP_POLL_CASH_BOX_REMOVED
| SSP_POLL_CASH_BOX_REPLACED
| SSP_POLL_CLEARED_FROM_FRONT
| SSP_POLL_CLEARED_INTO_CASHBOX
| SSP_POLL_CALIBRATION_FAIL
| SSP_POLL_TIMEOUT
| SSP_POLL_DISPENSING
| SSP_POLL_DISPENSED
| SSP_POLL_FLOATING
| SSP_POLL_FLOATED
| SSP_POLL_CASHBOX_PAID
| SSP_POLL_JAMMED
| SSP_POLL_COIN_CREDIT
| SSP_POLL_EMPTY
| SSP_POLL_EMPTYING
| SSP_POLL_SMART_EMPTYING
| SSP_POLL_SMART_EMPTIED
| SSP_POLL_INCOMPLETE_PAYOUT
| SSP_POLL_INCOMPLETE_FLOAT
| SSP_POLL_other (opcode : Z).

(** One entry of [poll->events]: an opcode and, per the spec's event decode
    table, up to two data fields and a currency code. *)
Record poll_event : Type := {
  event : SSP_POLL_EVENT;
  data1 : Z;
  data2 : Z;
  cc : string
}.

(** Modelled from the spec: [SSP6_CHANNEL_DATA] and [SSP6_SETUP_REQUEST_DATA]
    are declared in libitlssp, which is not part of the sources.  The spec
    has a channel table, an ordered sequence of channels 1..N, each carrying
    a denomination value and a 3-ASCII currency code, and a unit type byte.
    [ChannelData] holds the N channels that [SETUP_REQUEST] filled in. *)
Record SSP6_CHANNEL_DATA : Type := {
  value : Z;
  channel_cc : string
}.

Record SSP6_SETUP_REQUEST_DATA : Type := {
  UnitType : Z;
  NumberOfChannels : Z;
  ChannelData : list SSP6_CHANNEL_DATA
}.

Inductive channel_state : Type := DISABLED | ENABLED.

Inductive encryption_status : Type := NO_ENCRYPTION | ENCRYPTION_SET.

(** [sspC->ResponseData]: byte 0 is the response code, the rest is data. *)
Record response_data : Type := {
  code : SSP_RESPONSE_ENUM;
  body : list Z
}.

(** [ResponseData[i]] for [i >= 1]. *)
Definition ResponseData_at (r : response_data) (i : nat) : Z :=
  nth (Nat.pred i) (body r) 0.

(** The constants that [payoutd.c] takes from [libitlssp/ssp_commands.h].
    The header is not part of the sources, so the numbers stay abstract. *)
Class ssp_commands_h : Type := {
  SSP_CMD_EMPTY : Z;
  SSP_CMD_FLOAT : Z;
  SSP_CMD_CHANNEL_SECURITY : Z;
  SSP6_OPTION_BYTE_DO : Z;
  SSP6_OPTION_BYTE_TEST : Z;
  NO_FAILUE : Z;
  SENSOR_FLAP : Z;
  SENSOR_EXIT : Z;
  SENSOR_COIL1 : Z;
  SENSOR_COIL2 : Z;
  NOT_INITIALISED : Z;
  CHECKSUM_ERROR : Z;
  COMMAND_RECAL : Z;
  SSP_POLL_opcode : SSP_POLL_EVENT -> Z
}.

(** The two devices of [m_metacash]; [cmd->device] points at one of them. *)
Inductive device_ref : Type := the_hopper | the_validator.

(** A call into libitlssp as it is seen on the serial link:
    [send_ssp_command] with the bytes of [CommandData], or one of the
    [ssp6_*] functions with its arguments. *)
Inductive ssp_call : Type :=
| SEND (CommandData : list Z)
| POLL
| SETUP_ENCRYPTION (key : Z)
| HOST_PROTOCOL_VERSION (version : Z)
| SYNC
| SETUP_REQUEST
| ENABLE
| DISABLE
| SET_INHIBITS (lowchannels highchannels : Z)
| PAYOUT (amount : Z) (currency : string) (option : Z)
| SET_ROUTE (amount : Z) (currency : string) (route : Z)
| SET_COINMECH_INHIBITS (amount : Z) (currency : string)
    (state : channel_state)
| ENABLE_PAYOUT (unit_type : Z)
| RUN_CALIBRATION.

(** One exchange: whose [sspC] it was made on, the address in that [sspC],
    the call, the response code returned to the caller. *)
Record exchange : Type := {
  peer : device_ref;
  address : Z;
  call : ssp_call;
  returned : SSP_RESPONSE_ENUM
}.

(** What the peer does with one exchange.  [sent = false] is the case where
    no valid response frame arrives within the retries. *)
Record answer : Type := {
  sent : bool;
  response : response_data;
  events : list poll_event;
  setup_data : SSP6_SETUP_REQUEST_DATA
}.

Definition no_response : response_data :=
  {| code := SSP_RESPONSE_TIMEOUT; body := [] |}.

Definition no_setup : SSP6_SETUP_REQUEST_DATA :=
  {| UnitType := 0; NumberOfChannels := 0; ChannelData := [] |}.

Definition silence : answer :=
  {| sent := false; response := no_response; events := [];
     setup_data := no_setup |}.

(** An answer that carries only a response code. *)
Definition reply_code (c : SSP_RESPONSE_ENUM) : answer :=
  {| sent := true; response := {| code := c; body := [] |}; events := [];
     setup_data := no_setup |}.

(** Modelled from the spec: the [ssp6_*] functions of libitlssp are not part
    of the sources.  Per the spec's command session, one [exec] yields a
    response code, and [Timeout] when no response arrives. *)
Definition lib_return (a : answer) : SSP_RESPONSE_ENUM :=
  if sent a then code (response a) else SSP_RESPONSE_TIMEOUT.

(** ** The daemon's records *)

Record SSP_COMMAND : Type := {
  SSPAddress : Z;
  Timeout : Z;
  EncryptionStatus : encryption_status;
  RetryLevel : Z;
  BaudRate : Z;
  CommandData : list Z;
  ResponseData : response_data
}.

Inductive event_handler : Type := hopperEventHandler_fn | validatorEventHandler_fn.

Record m_device : Type := {
  id : Z;
  name : string;
  sspDeviceAvailable : bool;
  key : Z;
  channelInhibits : Z;
  sspC : SSP_COMMAND;
  sspSetupReq : SSP6_SETUP_REQUEST_DATA;
  eventHandlerFn : event_handler
}.

Record m_metacash : Type := {
  sspAvailable : bool;
  serialDevice : string;
  acceptCoins : bool;
  logSyslogStderr : bool;
  redisPort : Z;
  redisHost : string;
  evPoll : bool;
  evCheckQuit : bool;
  hopper : m_device;
  validator : m_device
}.

Record m_command : Type := {
  jsonMessage : json_t;
  command : option string;
  correlId : option string;
  msgId : option string;
  responseTopic : string;
  device : device_ref
}.

(** ** The state of the process *)

Record World : Type := {
  metacash : m_metacash;
  receivedSignal : Z;
  loopexit : bool;
  wire : list exchange;
  published : list (string * message);
  answers : list answer
}.

Inductive Result (A : Type) : Type :=
| Done (a : A) (w : World)
| Died (rc : Z) (w : World)
| Undefined (w : World).

Arguments Done {A} a w.
Arguments Died {A} rc w.
Arguments Undefined {A} w.

Definition M (A : Type) : Type := World -> Result A.

Definition ret {A} (a : A) : M A := fun w => Done a w.

Definition bind {A B} (c : M A) (k : A -> M B) : M B :=
  fun w =>
    match c w with
    | Done a w' => k a w'
    | Died rc w' => Died rc w'
    | Undefined w' => Undefined w'
    end.

Notation "x <- c ;; k" := (bind c (fun x => k))
  (at level 61, c at next level, right associativity).
Notation "' pat <- c ;; k" :=
  (bind c (fun x => match x with pat => k end))
  (at level 61, pat pattern, c at next level, right associativity).
Notation "c ;;; k" := (bind c (fun _ => k))
  (at level 61, right associativity).

Definition world_of {A} (r : Result A) : World :=
  match r with Done _ w | Died _ w | Undefined w => w end.

(** [exit(rc)]. *)
Definition die (reason : string) (rc : Z) : M unit := fun w => Died rc w.

(** Reading outside an array. *)
Definition undefined {A} : M A := fun w => Undefined w.

Definition device_of (m : m_metacash) (r : device_ref) : m_device :=
  match r with
  | the_hopper => hopper m
  | the_validator => validator m
  end.

Definition get_device (r : device_ref) : M m_device :=
  fun w => Done (device_of (metacash w) r) w.

Definition with_device (m : m_metacash) (r : device_ref) (d : m_device)
  : m_metacash :=
  match r with
  | the_hopper =>
      {| sspAvailable := sspAvailable m; serialDevice := serialDevice m;
         acceptCoins := acceptCoins m; logSyslogStderr := logSyslogStderr m;
         redisPort := redisPort m; redisHost := redisHost m;
         evPoll := evPoll m; evCheckQuit := evCheckQuit m;
         hopper := d; validator := validator m |}
  | the_validator =>
      {| sspAvailable := sspAvailable m; serialDevice := serialDevice m;
         acceptCoins := acceptCoins m; logSyslogStderr := logSyslogStderr m;
         redisPort := redisPort m; redisHost := redisHost m;
         evPoll := evPoll m; evCheckQuit := evCheckQuit m;
         hopper := hopper m; validator := d |}
  end.

Definition with_metacash (w : World) (m : m_metacash) : World :=
  {| metacash := m; receivedSignal := receivedSignal w;
     loopexit := loopexit w; wire := wire w; published := published w;
     answers := answers w |}.

Definition put_device (r : device_ref) (d : m_device) : M unit :=
  fun w => Done tt (with_metacash w (with_device (metacash w) r d)).

Definition get_metacash : M m_metacash := fun w => Done (metacash w) w.

Definition put_metacash (m : m_metacash) : M unit :=
  fun w => Done tt (with_metacash w m).

Definition set_receivedSignal (s : Z) : M unit :=
  fun w =>
    Done tt {| metacash := metacash w; receivedSignal := s;
               loopexit := loopexit w; wire := wire w;
               published := published w; answers := answers w |}.

Definition get_receivedSignal : M Z := fun w => Done (receivedSignal w) w.

(** [event_base_loopexit]. *)
Definition event_base_loopexit : M unit :=
  fun w =>
    Done tt {| metacash := metacash w; receivedSignal := receivedSignal w;
               loopexit := true; wire := wire w;
               published := published w; answers := answers w |}.

(** [redisAsyncCommand(redisPublishCtx, ..., "PUBLISH %s %s", topic, reply)]. *)
Definition publish (topic : string) (m : message) : M unit :=
  fun w =>
    Done tt {| metacash := metacash w; receivedSignal := receivedSignal w;
               loopexit := loopexit w; wire := wire w;
               published := published w ++ [(topic, m)];
               answers := answers w |}.

(** The peer's answer to the next exchange; a peer that has nothing more to
    say stays silent. *)
Definition next_answer : M answer :=
  fun w =>
    match answers w with
    | [] => Done silence w
    | a :: rest =>
        Done a {| metacash := metacash w; receivedSignal := receivedSignal w;
                  loopexit := loopexit w; wire := wire w;
                  published := published w; answers := rest |}
    end.

Definition log_exchange (x : exchange) : M unit :=
  fun w =>
    Done tt {| metacash := metacash w; receivedSignal := receivedSignal w;
               loopexit := loopexit w; wire := wire w ++ [x];
               published := published w; answers := answers w |}.

(** ** Field updates *)

Definition with_sspC (d : m_device) (s : SSP_COMMAND) : m_device :=
  {| id := id d; name := name d; sspDeviceAvailable := sspDeviceAvailable d;
     key := key d; channelInhibits := channelInhibits d; sspC := s;
     sspSetupReq := sspSetupReq d; eventHandlerFn := eventHandlerFn d |}.

Definition with_channelInhibits (d : m_device) (v : Z) : m_device :=
  {| id := id d; name := name d; sspDeviceAvailable := sspDeviceAvailable d;
     key := key d; channelInhibits := v; sspC := sspC d;
     sspSetupReq := sspSetupReq d; eventHandlerFn := eventHandlerFn d |}.

Definition with_sspDeviceAvailable (d : m_device) (b : bool) : m_device :=
  {| id := id d; name := name d; sspDeviceAvailable := b;
     key := key d; channelInhibits := channelInhibits d; sspC := sspC d;
     sspSetupReq := sspSetupReq d; eventHandlerFn := eventHandlerFn d |}.

Definition with_sspSetupReq (d : m_device) (s : SSP6_SETUP_REQUEST_DATA)
  : m_device :=
  {| id := id d; name := name d; sspDeviceAvailable := sspDeviceAvailable d;
     key := key d; channelInhibits := channelInhibits d; sspC := sspC d;
     sspSetupReq := s; eventHandlerFn := eventHandlerFn d |}.

Definition with_CommandData (s : SSP_COMMAND) (data : list Z) : SSP_COMMAND :=
  {| SSPAddress := SSPAddress s; Timeout := Timeout s;
     EncryptionStatus := EncryptionStatus s; RetryLevel := RetryLevel s;
     BaudRate := BaudRate s; CommandData := data;
     ResponseData := ResponseData s |}.

Definition with_ResponseData (s : SSP_COMMAND) (r : response_data)
  : SSP_COMMAND :=
  {| SSPAddress := SSPAddress s; Timeout := Timeout s;
     EncryptionStatus := EncryptionStatus s; RetryLevel := RetryLevel s;
     BaudRate := BaudRate s; CommandData := CommandData s;
     ResponseData := r |}.

Definition with_EncryptionStatus (s : SSP_COMMAND) (e : encryption_status)
  : SSP_COMMAND :=
  {| SSPAddress := SSPAddress s; Timeout := Timeout s;
     EncryptionStatus := e; RetryLevel := RetryLevel s;
     BaudRate := BaudRate s; CommandData := CommandData s;
     ResponseData := ResponseData s |}.

Definition with_sspAvailable (m : m_metacash) (b : bool) : m_metacash :=
  {| sspAvailable := b; serialDevice := serialDevice m;
     acceptCoins := acceptCoins m; logSyslogStderr := logSyslogStderr m;
     redisPort := redisPort m; redisHost := redisHost m;
     evPoll := evPoll m; evCheckQuit := evCheckQuit m;
     hopper := hopper m; validator := validator m |}.

(** Assignments through [cmd->device] or [&metacash->validator]. *)

Definition set_CommandData (r : device_ref) (data : list Z) : M unit :=
  d <- get_device r ;;
  put_device r (with_sspC d (with_CommandData (sspC d) data)).

Definition set_ResponseData (r : device_ref) (rd : response_data) : M unit :=
  d <- get_device r ;;
  put_device r (with_sspC d (with_ResponseData (sspC d) rd)).

Definition set_channelInhibits (r : device_ref) (v : Z) : M unit :=
  d <- get_device r ;; put_device r (with_channelInhibits d v).

Definition set_sspSetupReq (r : device_ref) (s : SSP6_SETUP_REQUEST_DATA)
  : M unit :=
  d <- get_device r ;; put_device r (with_sspSetupReq d s).

Definition set_sspDeviceAvailable (r : device_ref) (b : bool) : M unit :=
  d <- get_device r ;; put_device r (with_sspDeviceAvailable d b).

Definition set_EncryptionStatus (r : device_ref) (e : encryption_status)
  : M unit :=
  d <- get_device r ;;
  put_device r (with_sspC d (with_EncryptionStatus (sspC d) e)).

(** ** Exchanges with a device *)

(** The response buffer of [sspC] is overwritten when a response arrives. *)
Definition store_response (r : device_ref) (a : answer) : M unit :=
  if sent a then set_ResponseData r (response a) else ret tt.

(** [send_ssp_command(sspC)]: sends [CommandData]; 0 when it failed. *)
Definition send_ssp_command (r : device_ref) : M bool :=
  d <- get_device r ;;
  a <- next_answer ;;
  log_exchange {| peer := r; address := SSPAddress (sspC d);
                  call := SEND (CommandData (sspC d));
                  returned := lib_return a |} ;;;
  store_response r a ;;;
  ret (sent a).

(** A call of one of the [ssp6_*] functions on [sspC]. *)
Definition ssp6 (r : device_ref) (c : ssp_call) : M answer :=
  d <- get_device r ;;
  a <- next_answer ;;
  log_exchange {| peer := r; address := SSPAddress (sspC d); call := c;
                  returned := lib_return a |} ;;;
  store_response r a ;;;
  ret a.

Definition ssp6_poll (r : device_ref)
  : M (SSP_RESPONSE_ENUM * list poll_event) :=
  a <- ssp6 r POLL ;; ret (lib_return a, events a).

(** [ssp6_setup_encryption(sspC, key)], the key negotiation.  Modelled from
    the spec: a session key exists exactly when the commands that follow
    use encrypted packets, so a negotiation that succeeds leaves [sspC]
    with [EncryptionStatus] set; [mcSspSetupCommand] is what clears it. *)
Definition ssp6_setup_encryption (r : device_ref) (k : Z)
  : M SSP_RESPONSE_ENUM :=
  a <- ssp6 r (SETUP_ENCRYPTION k) ;;
  (if is_OK (lib_return a) then set_EncryptionStatus r ENCRYPTION_SET
   else ret tt) ;;;
  ret (lib_return a).

Definition ssp6_host_protocol (r : device_ref) (version : Z)
  : M SSP_RESPONSE_ENUM :=
  a <- ssp6 r (HOST_PROTOCOL_VERSION version) ;; ret (lib_return a).

Definition ssp6_sync (r : device_ref) : M SSP_RESPONSE_ENUM :=
  a <- ssp6 r SYNC ;; ret (lib_return a).

(** [ssp6_setup_request(sspC, sspSetupReq)] fills in the device's
    [sspSetupReq]. *)
Definition ssp6_setup_request (r : device_ref) : M SSP_RESPONSE_ENUM :=
  a <- ssp6 r SETUP_REQUEST ;;
  (if is_OK (lib_return a) then set_sspSetupReq r (setup_data a)
   else ret tt) ;;;
  ret (lib_return a).

Definition ssp6_enable (r : device_ref) : M SSP_RESPONSE_ENUM :=
  a <- ssp6 r ENABLE ;; ret (lib_return a).

Definition ssp6_disable (r : device_ref) : M SSP_RESPONSE_ENUM :=
  a <- ssp6 r DISABLE ;; ret (lib_return a).

Definition ssp6_set_inhibits (r : device_ref) (lowchannels highchannels : Z)
  : M SSP_RESPONSE_ENUM :=
  a <- ssp6 r (SET_INHIBITS lowchannels highchannels) ;; ret (lib_return a).

Definition ssp6_payout (r : device_ref) (amount : Z) (currency : string)
  (option : Z) : M SSP_RESPONSE_ENUM :=
  a <- ssp6 r (PAYOUT amount currency option) ;; ret (lib_return a).

Definition ssp6_set_route (r : device_ref) (amount : Z) (currency : string)
  (route : Z) : M SSP_RESPONSE_ENUM :=
  a <- ssp6 r (SET_ROUTE amount currency route) ;; ret (lib_return a).

Definition ssp6_set_coinmech_inhibits (r : device_ref) (amount : Z)
  (currency : string) (state : channel_state) : M SSP_RESPONSE_ENUM :=
  a <- ssp6 r (SET_COINMECH_INHIBITS amount currency state) ;;
  ret (lib_return a).

Definition ssp6_enable_payout (r : device_ref) (unit_type : Z)
  : M SSP_RESPONSE_ENUM :=
  a <- ssp6 r (ENABLE_PAYOUT unit_type) ;; ret (lib_return a).

Definition ssp6_run_calibration (r : device_ref) : M SSP_RESPONSE_ENUM :=
  a <- ssp6 r RUN_CALIBRATION ;; ret (lib_return a).

(** ** Constants of [payoutd.c] *)

Definition SSP_CMD_GET_FIRMWARE_VERSION : Z := 0x20.
Definition SSP_CMD_GET_DATASET_VERSION : Z := 0x21.
Definition SSP_CMD_GET_ALL_LEVELS : Z := 0x22.
Definition SSP_CMD_SET_DENOMINATION_LEVEL : Z := 0x34.
Definition SSP_CMD_SET_CASHBOX_PAYOUT_LIMIT : Z := 0x4E.
Definition SSP_CMD_LAST_REJECT_NOTE : Z := 0x17.
Definition SSP_CMD_CONFIGURE_BEZEL : Z := 0x54.
Definition SSP_CMD_SMART_EMPTY : Z := 0x52.
Definition SSP_CMD_CASHBOX_PAYOUT_OPERATION_DATA : Z := 0x53.
Definition SSP_CMD_SET_REFILL_MODE : Z := 0x30.
Definition SSP_CMD_DISPLAY_OFF : Z := 0x4.
Definition SSP_CMD_DISPLAY_ON : Z := 0x3.

Definition SSP_OPTION_ROUTE_CASHBOX : Z := 0x01.
Definition SSP_OPTION_ROUTE_STORAGE : Z := 0x00.
Definition SSP_OPTION_VOLATILE : Z := 0x00.
Definition SSP_OPTION_NON_VOLATILE : Z := 0x01.

Definition DEFAULT_KEY : Z := 0x123456701234567.

Definition CURRENCY : string := "EUR".

(** ** The commands the daemon formats itself *)

(** [CommandData[++j] = x >> (i * 8)] for [i = 0 .. n-1]. *)
Definition le_bytes (x : Z) (n : nat) : list Z :=
  map (fun i => CInt.to_uchar (Z.shiftr x (Z.of_nat i * 8))) (seq 0 n).

(** [cc[0]], [cc[1]], [cc[2]]; past the end of the string sits the NUL. *)
Definition cc_bytes (currency : string) : list Z :=
  map (fun i => nth i (c_bytes currency) 0) (seq 0 3).

(** The common shape of the [mc_ssp_*] functions: fill [CommandData], send,
    return [SSP_RESPONSE_TIMEOUT] or [ResponseData[0]]. *)
Definition mc_ssp_command (r : device_ref) (data : list Z)
  : M SSP_RESPONSE_ENUM :=
  set_CommandData r data ;;;
  ok <- send_ssp_command r ;;
  if negb ok then ret SSP_RESPONSE_TIMEOUT
  else d' <- get_device r ;; ret (code (ResponseData (sspC d'))).

(** [ResponseData[++i]] accumulated little-endian into an [int]. *)
Definition read_le (rd : response_data) (i : nat) (n : nat) : Z :=
  fold_left
    (fun acc k =>
       CInt.to_int
         (acc + Z.shiftl (ResponseData_at rd (i + 1 + k)) (8 * Z.of_nat k)))
    (seq 0 n) 0.

(** The loop over the counters of [GET ALL LEVELS]; [i] is the index of the
    last byte consumed. *)
Fixpoint counters (rd : response_data) (i : nat) (numCounters : nat)
  : list string :=
  match numCounters with
  | O => []
  | S n =>
      let level := read_le rd i 2 in
      let value := read_le rd (i + 2) 4 in
      let cc := c_string [ResponseData_at rd (i + 7);
                          ResponseData_at rd (i + 8);
                          ResponseData_at rd (i + 9)] in
      render [("value", FNum value); ("level", FNum level); ("cc", FStr cc)]
      :: counters rd (i + 9) n
  end.

Section Daemon.

Context `{hdr : ssp_commands_h}.

Definition mc_ssp_last_reject_note (r : device_ref)
  : M (SSP_RESPONSE_ENUM * option Z) :=
  set_CommandData r [SSP_CMD_LAST_REJECT_NOTE] ;;;
  ok <- send_ssp_command r ;;
  if negb ok then ret (SSP_RESPONSE_TIMEOUT, None)
  else
    d' <- get_device r ;;
    ret (code (ResponseData (sspC d')),
         Some (ResponseData_at (ResponseData (sspC d')) 1)).

Definition mc_ssp_display_on (r : device_ref) : M SSP_RESPONSE_ENUM :=
  mc_ssp_command r [SSP_CMD_DISPLAY_ON].

Definition mc_ssp_display_off (r : device_ref) : M SSP_RESPONSE_ENUM :=
  mc_ssp_command r [SSP_CMD_DISPLAY_OFF].

Definition mc_ssp_set_refill_mode (r : device_ref) : M SSP_RESPONSE_ENUM :=
  mc_ssp_command r
    [SSP_CMD_SET_REFILL_MODE; 0x05; 0x81; 0x10; 0x11; 0x01; 0x01; 0x52; 0xF5].

Definition mc_ssp_empty (r : device_ref) : M SSP_RESPONSE_ENUM :=
  mc_ssp_command r [SSP_CMD_EMPTY].

Definition mc_ssp_smart_empty (r : device_ref) : M SSP_RESPONSE_ENUM :=
  mc_ssp_command r [SSP_CMD_SMART_EMPTY].

Definition mc_ssp_configure_bezel (r : device_ref)
  (red green blue volatileOption bezelTypeOption : Z) : M SSP_RESPONSE_ENUM :=
  mc_ssp_command r
    [SSP_CMD_CONFIGURE_BEZEL; red; green; blue; volatileOption;
     bezelTypeOption].

(** The ten bytes of [SET DENOMINATION LEVEL]: command, level (2), amount
    (4), country code (3). *)
Definition denomination_level_data (amount level : Z) (currency : string)
  : list Z :=
  SSP_CMD_SET_DENOMINATION_LEVEL
  :: le_bytes level 2 ++ le_bytes amount 4 ++ cc_bytes currency.

Definition mc_ssp_set_denomination_level (r : device_ref) (amount level : Z)
  (currency : string) : M SSP_RESPONSE_ENUM :=
  mc_ssp_command r (denomination_level_data amount level currency).

Definition mc_ssp_set_cashbox_payout_limit (r : device_ref)
  (limit denomination : Z) (currency : string) : M SSP_RESPONSE_ENUM :=
  mc_ssp_command r
    (SSP_CMD_SET_CASHBOX_PAYOUT_LIMIT :: 1
     :: le_bytes limit 2 ++ le_bytes denomination 4 ++ cc_bytes currency).

Definition mc_ssp_float (r : device_ref) (amount : Z) (currency : string)
  (option : Z) : M SSP_RESPONSE_ENUM :=
  mc_ssp_command r
    (SSP_CMD_FLOAT
     :: le_bytes 100 2 ++ le_bytes amount 4 ++ cc_bytes currency
     ++ [CInt.to_uchar option]).

(** Returns the response and the text written to [*json]. *)
Definition mc_ssp_get_all_levels (r : device_ref)
  : M (SSP_RESPONSE_ENUM * option string) :=
  set_CommandData r [SSP_CMD_GET_ALL_LEVELS] ;;;
  ok <- send_ssp_command r ;;
  if negb ok then ret (SSP_RESPONSE_TIMEOUT, None)
  else
    d' <- get_device r ;;
    let rd := ResponseData (sspC d') in
    let numCounters := Z.to_nat (ResponseData_at rd 1) in
    ret (code rd, Some (String.concat "," (counters rd 1 numCounters))).

Definition mc_ssp_cashbox_payout_operation_data (r : device_ref)
  : M (SSP_RESPONSE_ENUM * option string) :=
  set_CommandData r [SSP_CMD_CASHBOX_PAYOUT_OPERATION_DATA] ;;;
  ok <- send_ssp_command r ;;
  if negb ok then ret (SSP_RESPONSE_TIMEOUT, None)
  else
    d' <- get_device r ;;
    let rd := ResponseData (sspC d') in
    if negb (is_OK (code rd)) then ret (code rd, None)
    else
      let numCounters := Z.to_nat (ResponseData_at rd 1) in
      let qtyUnknown := read_le rd (1 + 9 * numCounters) 3 in
      ret (code rd,
           Some (String.concat "," (counters rd 1 numCounters)
                 ++ "," ++ render [("value", FNum 0);
                                   ("level", FNum qtyUnknown)])).

Definition response_string (rd : response_data) (n : nat) : string :=
  c_string (map (fun i => ResponseData_at rd (1 + i)) (seq 0 n)).

Definition mc_ssp_get_firmware_version (r : device_ref)
  : M (SSP_RESPONSE_ENUM * string) :=
  resp <- mc_ssp_command r [SSP_CMD_GET_FIRMWARE_VERSION] ;;
  d <- get_device r ;;
  if is_OK resp then ret (resp, response_string (ResponseData (sspC d)) 16)
  else ret (resp, EmptyString).

Definition mc_ssp_get_dataset_version (r : device_ref)
  : M (SSP_RESPONSE_ENUM * string) :=
  resp <- mc_ssp_command r [SSP_CMD_GET_DATASET_VERSION] ;;
  d <- get_device r ;;
  if is_OK resp then ret (resp, response_string (ResponseData (sspC d)) 8)
  else ret (resp, EmptyString).

(** The channel list goes to the debug log only. *)
Definition mc_ssp_channel_security_data (r : device_ref)
  : M SSP_RESPONSE_ENUM :=
  mc_ssp_command r [SSP_CMD_CHANNEL_SECURITY].

(** ** Replies *)

(** A [char *] printed with [%s]. *)
Definition str (s : option string) : string :=
  match s with Some x => x | None => "(null)" end.

Definition isCommand (cmd : m_command) (c : string) : bool :=
  match command cmd with
  | Some x => String.eqb x c
  | None => false
  end.

Definition publishPayoutEvent (m : message) : M unit :=
  publish "payout-event" m.

Definition publishHopperEvent (m : message) : M unit :=
  publish "hopper-event" m.

Definition publishValidatorEvent (m : message) : M unit :=
  publish "validator-event" m.

Definition replyWith (topic : string) (m : message) : M unit :=
  publish topic m.

Definition replyWithPropertyError (cmd : m_command) (name : string)
  : M unit :=
  let msgId' := match msgId cmd with Some x => x | None => "unknown" end in
  let correlId' :=
    match correlId cmd with Some x => x | None => "unknown" end in
  replyWith (responseTopic cmd)
    [("msgId", FStr msgId'); ("correlId", FStr correlId');
     ("error", FStr ("Property '" ++ name ++ "' missing or of wrong type"))].

Definition replyWithSspResponse (cmd : m_command)
  (response : SSP_RESPONSE_ENUM) : M unit :=
  match response with
  | SSP_RESPONSE_OK =>
      replyWith (responseTopic cmd)
        [("msgId", FStr (str (msgId cmd)));
         ("correlId", FStr (str (correlId cmd)));
         ("result", FStr "ok")]
  | _ =>
      let errorMsg :=
        match response with
        | SSP_RESPONSE_UNKNOWN_COMMAND => "unknown command"
        | SSP_RESPONSE_INCORRECT_PARAMETERS => "incorrect parameters"
        | SSP_RESPONSE_INVALID_PARAMETER => "invalid parameter"
        | SSP_RESPONSE_COMMAND_NOT_PROCESSED => "command not processed"
        | SSP_RESPONSE_SOFTWARE_ERROR => "software error"
        | SSP_RESPONSE_CHECKSUM_ERROR => "checksum error"
        | SSP_RESPONSE_FAILURE => "failure"
        | SSP_RESPONSE_HEADER_FAILURE => "header failure"
        | SSP_RESPONSE_KEY_NOT_SET => "key not set"
        | SSP_RESPONSE_TIMEOUT => "timeout"
        | _ => "unknown"
        end in
      replyWith (responseTopic cmd)
        [("msgId", FStr (str (msgId cmd)));
         ("correlId", FStr (str (correlId cmd)));
         ("sspError", FStr errorMsg)]
  end.

(** ** Command handlers *)

Definition handleQuit (cmd : m_command) : M unit :=
  set_receivedSignal 1 ;;;
  replyWithSspResponse cmd SSP_RESPONSE_OK.

Definition handleEmpty (cmd : m_command) : M unit :=
  resp <- mc_ssp_empty (device cmd) ;; replyWithSspResponse cmd resp.

Definition handleSmartEmpty (cmd : m_command) : M unit :=
  resp <- mc_ssp_smart_empty (device cmd) ;; replyWithSspResponse cmd resp.

(** The reason byte that comes with [COMMAND_NOT_PROCESSED]. *)
Definition payout_error (reason : Z) : string :=
  if reason =? 0x01 then "not enough value in smart payout"
  else if reason =? 0x02 then "can't pay exact amount"
  else if reason =? 0x03 then "smart payout busy"
  else if reason =? 0x04 then "smart payout disabled"
  else "unknown".

Definition handlePayout (cmd : m_command) : M unit :=
  let payoutOption :=
    if isCommand cmd "do-payout" then SSP6_OPTION_BYTE_DO
    else SSP6_OPTION_BYTE_TEST in
  let jAmount := json_object_get (jsonMessage cmd) "amount" in
  if negb (json_is_integer jAmount) then replyWithPropertyError cmd "amount"
  else
    let amount := CInt.to_int (json_integer_value jAmount) in
    resp <- ssp6_payout (device cmd) amount CURRENCY payoutOption ;;
    match resp with
    | SSP_RESPONSE_COMMAND_NOT_PROCESSED =>
        d <- get_device (device cmd) ;;
        let error := payout_error (ResponseData_at (ResponseData (sspC d)) 1) in
        replyWith (responseTopic cmd)
          [("correlId", FStr (str (correlId cmd))); ("error", FStr error)]
    | _ => replyWithSspResponse cmd resp
    end.

Definition handleFloat (cmd : m_command) : M unit :=
  let payoutOption :=
    if isCommand cmd "do-float" then SSP6_OPTION_BYTE_DO
    else SSP6_OPTION_BYTE_TEST in
  let jAmount := json_object_get (jsonMessage cmd) "amount" in
  if negb (json_is_integer jAmount) then replyWithPropertyError cmd "amount"
  else
    let amount := CInt.to_int (json_integer_value jAmount) in
    resp <- mc_ssp_float (device cmd) amount CURRENCY payoutOption ;;
    match resp with
    | SSP_RESPONSE_COMMAND_NOT_PROCESSED =>
        d <- get_device (device cmd) ;;
        let error := payout_error (ResponseData_at (ResponseData (sspC d)) 1) in
        replyWith (responseTopic cmd)
          [("correlId", FStr (str (correlId cmd))); ("error", FStr error)]
    | _ => replyWithSspResponse cmd resp
    end.

(** The eight tests of [enable-channels]: bit [k] is set when the digit
    [k+1] occurs in [channels]. *)
Definition enable_bits (channels : string) (inhibits : Z) : Z :=
  let c := inhibits in
  let c := if strstr channels "1" then CInt.set_bit c 0 else c in
  let c := if strstr channels "2" then CInt.set_bit c 1 else c in
  let c := if strstr channels "3" then CInt.set_bit c 2 else c in
  let c := if strstr channels "4" then CInt.set_bit c 3 else c in
  let c := if strstr channels "5" then CInt.set_bit c 4 else c in
  let c := if strstr channels "6" then CInt.set_bit c 5 else c in
  let c := if strstr channels "7" then CInt.set_bit c 6 else c in
  let c := if strstr channels "8" then CInt.set_bit c 7 else c in
  c.

(** The eight tests of [disable-channels] and [inhibit-channels]. *)
Definition disable_bits (channels : string) (inhibits : Z) : Z :=
  let c := inhibits in
  let c := if strstr channels "1" then CInt.clear_bit c 0 else c in
  let c := if strstr channels "2" then CInt.clear_bit c 1 else c in
  let c := if strstr channels "3" then CInt.clear_bit c 2 else c in
  let c := if strstr channels "4" then CInt.clear_bit c 3 else c in
  let c := if strstr channels "5" then CInt.clear_bit c 4 else c in
  let c := if strstr channels "6" then CInt.clear_bit c 5 else c in
  let c := if strstr channels "7" then CInt.clear_bit c 6 else c in
  let c := if strstr channels "8" then CInt.clear_bit c 7 else c in
  c.

Definition handleEnableChannels (cmd : m_command) : M unit :=
  let jChannels := json_object_get (jsonMessage cmd) "channels" in
  match json_string_value jChannels with
  | None => replyWithPropertyError cmd "channels"
  | Some channels =>
      d <- get_device (device cmd) ;;
      let currentChannelInhibits := enable_bits channels (channelInhibits d) in
      let highChannels := 0xFF in
      resp <- ssp6_set_inhibits (device cmd) currentChannelInhibits
                highChannels ;;
      (if is_OK resp then
         set_channelInhibits (device cmd) currentChannelInhibits
       else ret tt) ;;;
      replyWithSspResponse cmd resp
  end.

Definition handleDisableChannels (cmd : m_command) : M unit :=
  let jChannels := json_object_get (jsonMessage cmd) "channels" in
  match json_string_value jChannels with
  | None => replyWithPropertyError cmd "channels"
  | Some channels =>
      d <- get_device (device cmd) ;;
      let currentChannelInhibits :=
        disable_bits channels (channelInhibits d) in
      let highChannels := 0xFF in
      resp <- ssp6_set_inhibits (device cmd) currentChannelInhibits
                highChannels ;;
      (if is_OK resp then
         set_channelInhibits (device cmd) currentChannelInhibits
       else ret tt) ;;;
      replyWithSspResponse cmd resp
  end.

Definition handleInhibitChannels (cmd : m_command) : M unit :=
  let jChannels := json_object_get (jsonMessage cmd) "channels" in
  match json_string_value jChannels with
  | None => replyWithPropertyError cmd "channels"
  | Some channels =>
      let lowChannels := disable_bits channels 0xFF in
      let highChannels := 0xFF in
      resp <- ssp6_set_inhibits (device cmd) lowChannels highChannels ;;
      replyWithSspResponse cmd resp
  end.

Definition handleEnable (cmd : m_command) : M unit :=
  resp <- ssp6_enable (device cmd) ;; replyWithSspResponse cmd resp.

Definition handleDisable (cmd : m_command) : M unit :=
  resp <- ssp6_disable (device cmd) ;; replyWithSspResponse cmd resp.

Definition handleSetDenominationLevels (cmd : m_command) : M unit :=
  let jLevel := json_object_get (jsonMessage cmd) "level" in
  if negb (json_is_integer jLevel) then replyWithPropertyError cmd "level"
  else
    let jAmount := json_object_get (jsonMessage cmd) "amount" in
    if negb (json_is_integer jAmount) then replyWithPropertyError cmd "amount"
    else
      let level := CInt.to_int (json_integer_value jLevel) in
      let amount := CInt.to_int (json_integer_value jAmount) in
      (if level >? 0 then
         _ <- mc_ssp_set_denomination_level (device cmd) amount 0 CURRENCY ;;
         ret tt
       else ret tt) ;;;
      resp <- mc_ssp_set_denomination_level (device cmd) amount level
                CURRENCY ;;
      replyWithSspResponse cmd resp.

Definition handleSetCashboxPayoutLimit (cmd : m_command) : M unit :=
  let jLevel := json_object_get (jsonMessage cmd) "level" in
  if negb (json_is_integer jLevel) then replyWithPropertyError cmd "level"
  else
    let jAmount := json_object_get (jsonMessage cmd) "amount" in
    if negb (json_is_integer jAmount) then replyWithPropertyError cmd "amount"
    else
      let level := CInt.to_int (json_integer_value jLevel) in
      let amount := CInt.to_int (json_integer_value jAmount) in
      resp <- mc_ssp_set_cashbox_payout_limit (device cmd)
                (CInt.to_uint level) amount CURRENCY ;;
      replyWithSspResponse cmd resp.

Definition handleGetAllLevels (cmd : m_command) : M unit :=
  '(resp, json) <- mc_ssp_get_all_levels (device cmd) ;;
  match resp with
  | SSP_RESPONSE_OK =>
      replyWith (responseTopic cmd)
        [("correlId", FStr (str (correlId cmd)));
         ("levels", FRaw ("[" ++ str json ++ "]"))]
  | _ => replyWithSspResponse cmd resp
  end.

Definition handleCashboxPayoutOperationData (cmd : m_command) : M unit :=
  '(resp, json) <- mc_ssp_cashbox_payout_operation_data (device cmd) ;;
  match resp with
  | SSP_RESPONSE_OK =>
      replyWith (responseTopic cmd)
        [("correlId", FStr (str (correlId cmd)));
         ("levels", FRaw ("[" ++ str json ++ "]"))]
  | _ => replyWithSspResponse cmd resp
  end.

Definition handleGetFirmwareVersion (cmd : m_command) : M unit :=
  '(resp, firmwareVersion) <- mc_ssp_get_firmware_version (device cmd) ;;
  match resp with
  | SSP_RESPONSE_OK =>
      replyWith (responseTopic cmd)
        [("correlId", FStr (str (correlId cmd)));
         ("version", FStr firmwareVersion)]
  | _ => replyWithSspResponse cmd resp
  end.

Definition handleGetDatasetVersion (cmd : m_command) : M unit :=
  '(resp, datasetVersion) <- mc_ssp_get_dataset_version (device cmd) ;;
  match resp with
  | SSP_RESPONSE_OK =>
      replyWith (responseTopic cmd)
        [("correlId", FStr (str (correlId cmd)));
         ("version", FStr datasetVersion)]
  | _ => replyWithSspResponse cmd resp
  end.

Definition reject_reasons : list string :=
  ["note accepted"; "note length incorrect";
   "internal validation failure: average fail";
   "internal validation failure: coastline fail";
   "internal validation failure: graph fail";
   "internal validation failure: buried fail";
   "channel inhibited"; "second note inserted"; "reject by host";
   "note recognised in more than one channel"; "rear sensor error";
   "note too long"; "disabled by host"; "mechanism slow/stalled";
   "strimming attempt detected"; "fraud channel reject";
   "no notes inserted"; "peak detect fail"; "twisted note detected";
   "escrow time-out"; "bar code scan fail"; "rear sensor 2 fail";
   "slot fail 1"; "slot fail 2"; "lens over-sample"; "width detect fail";
   "short note detected"; "note payout"; "unable to stack note"].

(** The [switch] over the reason code [0x00 .. 0x1C]. *)
Definition reject_reason (reasonCode : Z) : string :=
  if reasonCode <? 0 then "undefined in API"
  else nth (Z.to_nat reasonCode) reject_reasons "undefined in API".

Definition handleLastRejectNote (cmd : m_command) : M unit :=
  '(resp, reasonCode) <- mc_ssp_last_reject_note (device cmd) ;;
  match resp with
  | SSP_RESPONSE_OK =>
      let code := match reasonCode with Some c => c | None => 0 end in
      replyWith (responseTopic cmd)
        [("correlId", FStr (str (correlId cmd)));
         ("reason", FStr (reject_reason code));
         ("code", FNum code)]
  | _ => replyWithSspResponse cmd resp
  end.

(** Sends the command; nothing is published. *)
Definition handleChannelSecurityData (cmd : m_command) : M unit :=
  _ <- mc_ssp_channel_security_data (device cmd) ;; ret tt.

Definition handleTest (cmd : m_command) : M unit :=
  replyWithSspResponse cmd SSP_RESPONSE_OK.

Definition handleConfigureBezel (cmd : m_command) : M unit :=
  let jR := json_object_get (jsonMessage cmd) "r" in
  if negb (json_is_integer jR) then replyWithPropertyError cmd "r"
  else
    let r := CInt.to_uchar (json_integer_value jR) in
    let jG := json_object_get (jsonMessage cmd) "g" in
    if negb (json_is_integer jG) then replyWithPropertyError cmd "g"
    else
      let g := CInt.to_uchar (json_integer_value jG) in
      let jB := json_object_get (jsonMessage cmd) "b" in
      if negb (json_is_integer jB) then replyWithPropertyError cmd "b"
      else
        let b := CInt.to_uchar (json_integer_value jB) in
        let jType := json_object_get (jsonMessage cmd) "type" in
        if negb (json_is_integer jType) then replyWithPropertyError cmd "type"
        else
          let type := CInt.to_uchar (json_integer_value jType) in
          resp <- mc_ssp_configure_bezel (device cmd) r g b
                    SSP_OPTION_NON_VOLATILE type ;;
          replyWithSspResponse cmd resp.

(** ** The request router *)

Inductive redis_reply_type : Type := REDIS_REPLY_ARRAY | REDIS_REPLY_other.

Record redisReply : Type := {
  type : redis_reply_type;
  element : list string
}.

(** [cbOnRequestMessage(c, r, privdata)].  [uuid] is the text of the id that
    [uuid_generate_time_safe] and [uuid_unparse_lower] produce; [loaded] is
    the result of [json_loads] on the message. *)
Definition cbOnRequestMessage (r : option redisReply) (uuid : string)
  (loaded : json_t + json_error_t) : M unit :=
  match r with
  | None => ret tt
  | Some reply =>
      match type reply, element reply with
      | REDIS_REPLY_ARRAY, [kind; topic; _] =>
          if String.eqb kind "subscribe" then ret tt
          else
            let route :=
              if String.eqb topic "validator-request"
              then Some (the_validator, "validator-response")
              else if String.eqb topic "hopper-request"
              then Some (the_hopper, "hopper-response")
              else None in
            match route with
            | None => ret tt
            | Some (dev, responseTopic') =>
                match loaded with
                | inr error =>
                    replyWith responseTopic'
                      [("error", FStr "could not parse json");
                       ("reason", FStr (text error));
                       ("line", FNum (line error))]
                | inl json =>
                    let cmd0 :=
                      {| jsonMessage := json; command := None;
                         correlId := None; msgId := Some uuid;
                         responseTopic := responseTopic'; device := dev |} in
                    let jMsgId := json_object_get json "msgId" in
                    if negb (json_is_string jMsgId)
                    then replyWithPropertyError cmd0 "msgId"
                    else
                      let cmd1 :=
                        {| jsonMessage := json; command := None;
                           correlId := json_string_value jMsgId;
                           msgId := Some uuid;
                           responseTopic := responseTopic'; device := dev |} in
                      let jCmd := json_object_get json "cmd" in
                      if negb (json_is_string jCmd)
                      then replyWithPropertyError cmd1 "cmd"
                      else
                        let cmd :=
                          {| jsonMessage := json;
                             command := json_string_value jCmd;
                             correlId := json_string_value jMsgId;
                             msgId := Some uuid;
                             responseTopic := responseTopic';
                             device := dev |} in
                        if isCommand cmd "quit" then handleQuit cmd
                        else if isCommand cmd "test" then handleTest cmd
                        else
                          m <- get_metacash ;;
                          if negb (sspAvailable m) then
                            replyWith responseTopic'
                              [("correlId", FStr (str (correlId cmd)));
                               ("error", FStr "hardware unavailable")]
                          else if isCommand cmd "configure-bezel"
                          then handleConfigureBezel cmd
                          else if isCommand cmd "empty"
                          then handleEmpty cmd
                          else if isCommand cmd "smart-empty"
                          then handleSmartEmpty cmd
                          else if isCommand cmd "cashbox-payout-operation-data"
                          then handleCashboxPayoutOperationData cmd
                          else if isCommand cmd "set-cashbox-payout-limit"
                          then handleSetCashboxPayoutLimit cmd
                          else if isCommand cmd "enable"
                          then handleEnable cmd
                          else if isCommand cmd "disable"
                          then handleDisable cmd
                          else if isCommand cmd "enable-channels"
                          then handleEnableChannels cmd
                          else if isCommand cmd "disable-channels"
                          then handleDisableChannels cmd
                          else if isCommand cmd "inhibit-channels"
                          then handleInhibitChannels cmd
                          else if isCommand cmd "test-float"
                                  || isCommand cmd "do-float"
                          then handleFloat cmd
                          else if isCommand cmd "test-payout"
                                  || isCommand cmd "do-payout"
                          then handlePayout cmd
                          else if isCommand cmd "get-firmware-version"
                          then handleGetFirmwareVersion cmd
                          else if isCommand cmd "get-dataset-version"
                          then handleGetDatasetVersion cmd
                          else if isCommand cmd "channel-security-data"
                          then handleChannelSecurityData cmd
                          else if isCommand cmd "get-all-levels"
                          then handleGetAllLevels cmd
                          else if isCommand cmd "set-denomination-level"
                          then handleSetDenominationLevels cmd
                          else if isCommand cmd "last-reject-note"
                          then handleLastRejectNote cmd
                          else
                            replyWith responseTopic'
                              [("correlId", FStr (str (correlId cmd)));
                               ("error", FStr "unknown command");
                               ("cmd", FStr (str (command cmd)))]
                end
            end
      | _, _ => ret tt
      end
  end.

(** ** Poll events *)

Fixpoint for_each {A} (l : list A) (f : A -> M unit) : M unit :=
  match l with
  | [] => ret tt
  | x :: rest => f x ;;; for_each rest f
  end.

(** The byte of an event opcode. *)
Definition opcode_of (e : SSP_POLL_EVENT) : Z :=
  match e with
  | SSP_POLL_other c => c
  | _ => SSP_POLL_opcode e
  end.

(** [device->sspSetupReq.ChannelData[index]]. *)
Definition ChannelData_at (dev : device_ref) (index : Z)
  : M SSP6_CHANNEL_DATA :=
  d <- get_device dev ;;
  if index <? 0 then undefined
  else
    match nth_error (ChannelData (sspSetupReq d)) (Z.to_nat index) with
    | Some c => ret c
    | None => undefined
    end.

(** The inner [switch] of [SSP_POLL_CALIBRATION_FAIL], the same in both
    handlers but for the topic. *)
Definition calibration_fail (publishEvent : message -> M unit)
  (dev : device_ref) (error : Z) : M unit :=
  if error =? NO_FAILUE then
    publishEvent [("event", FStr "calibration fail");
                  ("error", FStr "no error")]
  else if error =? SENSOR_FLAP then
    publishEvent [("event", FStr "calibration fail");
                  ("error", FStr "sensor flap")]
  else if error =? SENSOR_EXIT then
    publishEvent [("event", FStr "calibration fail");
                  ("error", FStr "sensor exit")]
  else if error =? SENSOR_COIL1 then
    publishEvent [("event", FStr "calibration fail");
                  ("error", FStr "sensor coil 1")]
  else if error =? SENSOR_COIL2 then
    publishEvent [("event", FStr "calibration fail");
                  ("error", FStr "sensor coil 2")]
  else if error =? NOT_INITIALISED then
    publishEvent [("event", FStr "calibration fail");
                  ("error", FStr "not initialized")]
  else if error =? CHECKSUM_ERROR then
    publishEvent [("event", FStr "calibration fail");
                  ("error", FStr "checksum error")]
  else if error =? COMMAND_RECAL then
    publishEvent [("event", FStr "recalibrating")] ;;;
    _ <- ssp6_run_calibration dev ;; ret tt
  else ret tt.

(** The body of the loop of [hopperEventHandler]. *)
Definition hopperEvent (dev : device_ref) (e : poll_event) : M unit :=
  let amount_cc name :=
    publishHopperEvent [("event", FStr name); ("amount", FNum (data1 e));
                        ("cc", FStr (cc e))] in
  match event e with
  | SSP_POLL_RESET =>
      publishHopperEvent [("event", FStr "unit reset")] ;;;
      resp <- ssp6_host_protocol dev 0x06 ;;
      if negb (is_OK resp)
      then die "hopperEventHandler: SSP Host Protocol Failed" 3
      else ret tt
  | SSP_POLL_READ =>
      if data1 e >? 0 then
        publishHopperEvent [("event", FStr "read");
                            ("channel", FNum (data1 e))]
      else publishHopperEvent [("event", FStr "reading")]
  | SSP_POLL_TIMEOUT => amount_cc "timeout"
  | SSP_POLL_DISPENSING =>
      publishHopperEvent [("event", FStr "dispensing");
                          ("amount", FNum (data1 e))]
  | SSP_POLL_DISPENSED =>
      publishHopperEvent [("event", FStr "dispensed");
                          ("amount", FNum (data1 e))]
  | SSP_POLL_FLOATING => amount_cc "floating"
  | SSP_POLL_FLOATED => amount_cc "floated"
  | SSP_POLL_CASHBOX_PAID => amount_cc "cashbox paid"
  | SSP_POLL_JAMMED => publishHopperEvent [("event", FStr "jammed")]
  | SSP_POLL_FRAUD_ATTEMPT =>
      publishHopperEvent [("event", FStr "fraud attempt")]
  | SSP_POLL_COIN_CREDIT => amount_cc "coin credit"
  | SSP_POLL_EMPTY => publishHopperEvent [("event", FStr "empty")]
  | SSP_POLL_EMPTYING => publishHopperEvent [("event", FStr "emptying")]
  | SSP_POLL_SMART_EMPTYING => amount_cc "smart emptying"
  | SSP_POLL_SMART_EMPTIED => amount_cc "smart emptied"
  | SSP_POLL_CREDIT =>
      publishHopperEvent [("event", FStr "credit");
                          ("channel", FNum (data1 e)); ("cc", FStr (cc e))]
  | SSP_POLL_INCOMPLETE_PAYOUT =>
      publishHopperEvent [("event", FStr "incomplete payout");
                          ("dispensed", FNum (data1 e));
                          ("requested", FNum (data2 e)); ("cc", FStr (cc e))]
  | SSP_POLL_INCOMPLETE_FLOAT =>
      publishHopperEvent [("event", FStr "incomplete float");
                          ("dispensed", FNum (data1 e));
                          ("requested", FNum (data2 e)); ("cc", FStr (cc e))]
  | SSP_POLL_DISABLED => publishHopperEvent [("event", FStr "disabled")]
  | SSP_POLL_CALIBRATION_FAIL =>
      calibration_fail publishHopperEvent dev (data1 e)
  | other =>
      publishHopperEvent [("event", FStr "unknown");
                          ("id", FStr ("0x" ++ hex02 (opcode_of other)))]
  end.

Definition hopperEventHandler (dev : device_ref) (poll : list poll_event)
  : M unit :=
  for_each poll (hopperEvent dev).

(** The body of the loop of [validatorEventHandler].  The [value] of a
    channel is an [int] (payoutd.c prints it with [%d]), so the product
    with 100 is an [int] as well; it goes through [unsigned long] to
    [%ld], which prints the number that the [int] holds. *)
Definition validatorEvent (dev : device_ref) (e : poll_event) : M unit :=
  let only name := publishValidatorEvent [("event", FStr name)] in
  match event e with
  | SSP_POLL_RESET =>
      publishValidatorEvent [("event", FStr "unit reset")] ;;;
      resp <- ssp6_host_protocol dev 0x06 ;;
      if negb (is_OK resp)
      then die "validatorEventHandler: SSP Host Protocol Failed" 3
      else ret tt
  | SSP_POLL_READ =>
      if data1 e >? 0 then
        ch <- ChannelData_at dev (data1 e - 1) ;;
        let amount := CInt.to_int (value ch * 100) in
        publishValidatorEvent [("event", FStr "read");
                               ("amount", FNum amount);
                               ("channel", FNum (data1 e))]
      else only "reading"
  | SSP_POLL_EMPTY => only "empty"
  | SSP_POLL_EMPTYING => only "emptying"
  | SSP_POLL_SMART_EMPTYING => only "smart emptying"
  | SSP_POLL_TIMEOUT =>
      publishValidatorEvent [("event", FStr "timeout");
                             ("amount", FNum (data1 e)); ("cc", FStr (cc e))]
  | SSP_POLL_CREDIT =>
      ch <- ChannelData_at dev (data1 e - 1) ;;
      let amount := CInt.to_int (value ch * 100) in
      publishValidatorEvent [("event", FStr "credit");
                             ("amount", FNum amount);
                             ("channel", FNum (data1 e))]
  | SSP_POLL_INCOMPLETE_PAYOUT =>
      publishValidatorEvent [("event", FStr "incomplete payout");
                             ("dispensed", FNum (data1 e));
                             ("requested", FNum (data2 e));
                             ("cc", FStr (cc e))]
  | SSP_POLL_INCOMPLETE_FLOAT =>
      publishValidatorEvent [("event", FStr "incomplete float");
                             ("dispensed", FNum (data1 e));
                             ("requested", FNum (data2 e));
                             ("cc", FStr (cc e))]
  | SSP_POLL_REJECTING => only "rejecting"
  | SSP_POLL_REJECTED => only "rejected"
  | SSP_POLL_STACKING => only "stacking"
  | SSP_POLL_STORED => only "stored"
  | SSP_POLL_STACKED => only "stacked"
  | SSP_POLL_SAFE_JAM => only "safe jam"
  | SSP_POLL_UNSAFE_JAM => only "unsafe jam"
  | SSP_POLL_DISABLED => only "disabled"
  | SSP_POLL_FRAUD_ATTEMPT =>
      publishValidatorEvent [("event", FStr "fraud attempt");
                             ("dispensed", FNum (data1 e))]
  | SSP_POLL_STACKER_FULL => only "stacker full"
  | SSP_POLL_CASH_BOX_REMOVED => only "cashbox removed"
  | SSP_POLL_CASH_BOX_REPLACED => only "cashbox replaced"
  | SSP_POLL_CLEARED_FROM_FRONT => only "cleared from front"
  | SSP_POLL_CLEARED_INTO_CASHBOX => only "cleared into cashbox"
  | SSP_POLL_CALIBRATION_FAIL =>
      calibration_fail publishValidatorEvent dev (data1 e)
  | other =>
      publishValidatorEvent [("event", FStr "unknown");
                             ("id", FStr ("0x" ++ hex02 (opcode_of other)))]
  end.

Definition validatorEventHandler (dev : device_ref) (poll : list poll_event)
  : M unit :=
  for_each poll (validatorEvent dev).

Definition mcSspPollDevice (dev : device_ref) : M unit :=
  '(resp, poll) <- ssp6_poll dev ;;
  match resp with
  | SSP_RESPONSE_OK =>
      match poll with
      | [] => ret tt
      | _ =>
          d <- get_device dev ;;
          match eventHandlerFn d with
          | hopperEventHandler_fn => hopperEventHandler dev poll
          | validatorEventHandler_fn => validatorEventHandler dev poll
          end
      end
  | SSP_RESPONSE_TIMEOUT => ret tt
  | SSP_RESPONSE_KEY_NOT_SET =>
      d <- get_device dev ;;
      _ <- ssp6_setup_encryption dev (key d) ;;
      ret tt
  | _ => ret tt
  end.

Definition cbOnPollEvent : M unit :=
  m <- get_metacash ;;
  if negb (sspAvailable m) then ret tt
  else
    (if sspDeviceAvailable (hopper m) then mcSspPollDevice the_hopper
     else ret tt) ;;;
    m' <- get_metacash ;;
    if sspDeviceAvailable (validator m') then mcSspPollDevice the_validator
    else ret tt.

Definition cbOnCheckQuitEvent : M unit :=
  s <- get_receivedSignal ;;
  if negb (s =? 0) then event_base_loopexit ;;; set_receivedSignal 0
  else ret tt.

Definition signalHandler (signal : Z) : M unit := set_receivedSignal signal.

(** ** Setup *)

Definition mcSspSetupCommand (dev : device_ref) (deviceId : Z) : M unit :=
  d <- get_device dev ;;
  put_device dev
    (with_sspC d
       {| SSPAddress := deviceId; Timeout := 1000;
          EncryptionStatus := NO_ENCRYPTION; RetryLevel := 3;
          BaudRate := 9600; CommandData := CommandData (sspC d);
          ResponseData := ResponseData (sspC d) |}).

Definition mcSspInitializeDevice (dev : device_ref) (key' : Z) : M unit :=
  resp <- ssp6_sync dev ;;
  if negb (is_OK resp) then ret tt
  else
    resp <- ssp6_setup_encryption dev key' ;;
    if negb (is_OK resp) then ret tt
    else
      resp <- ssp6_host_protocol dev 0x06 ;;
      if negb (is_OK resp) then ret tt
      else
        resp <- ssp6_setup_request dev ;;
        if negb (is_OK resp) then ret tt
        else
          d <- get_device dev ;;
          for_each (seq 0 (Z.to_nat (NumberOfChannels (sspSetupReq d))))
            (fun i => _ <- ChannelData_at dev (Z.of_nat i) ;; ret tt) ;;;
          _ <- mc_ssp_get_firmware_version dev ;;
          _ <- mc_ssp_get_dataset_version dev ;;
          resp <- ssp6_enable dev ;;
          if negb (is_OK resp) then ret tt
          else set_sspDeviceAvailable dev true.

(** What [redisAsyncConnect] can hand back. *)
Inductive redis_context : Type :=
| context_NULL
| context_err
| context_connected.

Definition is_NULL (c : redis_context) : bool :=
  match c with context_NULL => true | _ => false end.

Definition set_evCheckQuit : M unit :=
  m <- get_metacash ;;
  put_metacash
    {| sspAvailable := sspAvailable m; serialDevice := serialDevice m;
       acceptCoins := acceptCoins m; logSyslogStderr := logSyslogStderr m;
       redisPort := redisPort m; redisHost := redisHost m;
       evPoll := evPoll m; evCheckQuit := true;
       hopper := hopper m; validator := validator m |}.

Definition set_evPoll : M unit :=
  m <- get_metacash ;;
  put_metacash
    {| sspAvailable := sspAvailable m; serialDevice := serialDevice m;
       acceptCoins := acceptCoins m; logSyslogStderr := logSyslogStderr m;
       redisPort := redisPort m; redisHost := redisHost m;
       evPoll := true; evCheckQuit := evCheckQuit m;
       hopper := hopper m; validator := validator m |}.

(** The hopper part of [setup]. *)
Definition setup_hopper : M unit :=
  m <- get_metacash ;;
  let desiredChannelState := if acceptCoins m then ENABLED else DISABLED in
  for_each (seq 0 (Z.to_nat (NumberOfChannels (sspSetupReq (hopper m)))))
    (fun i =>
       ch <- ChannelData_at the_hopper (Z.of_nat i) ;;
       _ <- ssp6_set_coinmech_inhibits the_hopper (value ch) (channel_cc ch)
              desiredChannelState ;;
       ret tt).

(** The validator part of [setup]; [false] when [setup] returns from inside
    it. *)
Definition setup_validator : M bool :=
  _ <- mc_ssp_set_refill_mode the_validator ;;
  _ <- ssp6_set_route the_validator 500 CURRENCY SSP_OPTION_ROUTE_CASHBOX ;;
  _ <- ssp6_set_route the_validator 1000 CURRENCY SSP_OPTION_ROUTE_CASHBOX ;;
  _ <- ssp6_set_route the_validator 2000 CURRENCY SSP_OPTION_ROUTE_CASHBOX ;;
  _ <- ssp6_set_route the_validator 5000 CURRENCY SSP_OPTION_ROUTE_STORAGE ;;
  _ <- ssp6_set_route the_validator 10000 CURRENCY SSP_OPTION_ROUTE_STORAGE ;;
  _ <- ssp6_set_route the_validator 20000 CURRENCY SSP_OPTION_ROUTE_STORAGE ;;
  _ <- ssp6_set_route the_validator 50000 CURRENCY SSP_OPTION_ROUTE_STORAGE ;;
  set_channelInhibits the_validator 0x0 ;;;
  d' <- get_device the_validator ;;
  resp <- ssp6_set_inhibits the_validator (channelInhibits d') 0x0 ;;
  if negb (is_OK resp) then ret false
  else
    d'' <- get_device the_validator ;;
    resp <- ssp6_enable_payout the_validator (UnitType (sspSetupReq d'')) ;;
    if negb (is_OK resp) then ret false else ret true.

Definition setup (redisPublishCtx redisSubscribeCtx : redis_context)
  : M unit :=
  (if negb (is_NULL redisPublishCtx) && negb (is_NULL redisSubscribeCtx)
   then ret tt
   else die "could not establish connection to redis" 1) ;;;
  set_evCheckQuit ;;;
  m <- get_metacash ;;
  finished <-
    (if sspAvailable m then
       mcSspSetupCommand the_validator (id (validator m)) ;;;
       mcSspSetupCommand the_hopper (id (hopper m)) ;;;
       mcSspInitializeDevice the_validator (key (validator m)) ;;;
       mcSspInitializeDevice the_hopper (key (hopper m)) ;;;
       m' <- get_metacash ;;
       (if sspDeviceAvailable (hopper m') then setup_hopper else ret tt) ;;;
       m'' <- get_metacash ;;
       if sspDeviceAvailable (validator m'') then setup_validator
       else ret true
     else ret true) ;;
  if finished : bool then set_evPoll else ret tt.

(** ** The command line *)

Definition is_space (c : ascii) : bool :=
  let n := nat_of_ascii c in
  (Nat.eqb n 32 || (Nat.leb 9 n && Nat.leb n 13))%bool.

Fixpoint digits (s : string) (acc : Z) : Z :=
  match s with
  | String c rest =>
      let n := Z.of_nat (nat_of_ascii c) in
      if (48 <=? n) && (n <=? 57) then digits rest (10 * acc + (n - 48))
      else acc
  | EmptyString => acc
  end.

Fixpoint skip_spaces (s : string) : string :=
  match s with
  | String c rest => if is_space c then skip_spaces rest else s
  | EmptyString => s
  end.

Definition LONG_MAX : Z := 2 ^ 63 - 1.

Definition LONG_MIN : Z := - 2 ^ 63.

(** [strtol(s, NULL, 10)] with a [long] of 64 bits: blanks, a sign, the
    digits; a value that does not fit a [long] reads [LONG_MAX] or
    [LONG_MIN]. *)
Definition strtol (s : string) : Z :=
  match skip_spaces s with
  | String "-" rest => Z.max LONG_MIN (- digits rest 0)
  | String "+" rest => Z.min LONG_MAX (digits rest 0)
  | s' => Z.min LONG_MAX (digits s' 0)
  end.

(** [atoi] is the C library's; glibc has [(int) strtol(s, NULL, 10)]. *)
Definition atoi (s : string) : Z := CInt.to_int (strtol s).

(** One return of [getopt(argc, argv, "ech:p:d:")] other than -1. *)
Record getopt_return : Type := {
  optc : ascii;
  optarg : string
}.

Definition parse_option (m : m_metacash) (o : getopt_return)
  : m_metacash + Z :=
  let update host port dev coins err :=
    {| sspAvailable := sspAvailable m; serialDevice := dev;
       acceptCoins := coins; logSyslogStderr := err;
       redisPort := port; redisHost := host;
       evPoll := evPoll m; evCheckQuit := evCheckQuit m;
       hopper := hopper m; validator := validator m |} in
  match optc o with
  | "h"%char =>
      inl (update (optarg o) (redisPort m) (serialDevice m) (acceptCoins m)
             (logSyslogStderr m))
  | "p"%char =>
      inl (update (redisHost m) (atoi (optarg o)) (serialDevice m)
             (acceptCoins m) (logSyslogStderr m))
  | "d"%char =>
      inl (update (redisHost m) (redisPort m) (optarg o) (acceptCoins m)
             (logSyslogStderr m))
  | "c"%char =>
      inl (update (redisHost m) (redisPort m) (serialDevice m) true
             (logSyslogStderr m))
  | "e"%char =>
      inl (update (redisHost m) (redisPort m) (serialDevice m)
             (acceptCoins m) true)
  | "?"%char => inr 1
  | _ => inr 1
  end.

(** [parseCmdLine]: the loop over the returns of [getopt]. *)
Fixpoint parseCmdLine (options : list getopt_return) : M Z :=
  match options with
  | [] => ret 0
  | o :: rest =>
      m <- get_metacash ;;
      match parse_option m o with
      | inl m' => put_metacash m' ;;; parseCmdLine rest
      | inr rc => ret rc
      end
  end.

(** ** The daemon shell *)

(** What [mcSspOpenSerialDevice] finds at the path of the serial device. *)
Inductive serial_device : Type :=
| cannot_open
| not_a_device
| port_does_not_open
| port_opens.

Definition mcSspOpenSerialDevice (dev : serial_device) : Z :=
  match dev with
  | cannot_open => 1
  | not_a_device => 1
  | port_does_not_open => 1
  | port_opens => 0
  end.

(** What libevent can deliver while [event_base_dispatch] runs. *)
Inductive loop_event : Type :=
| signal (number : Z)
| poll_timer
| check_quit_timer
| request_message (r : option redisReply) (uuid : string)
    (loaded : json_t + json_error_t).

Definition deliver (e : loop_event) : M unit :=
  match e with
  | signal number => signalHandler number
  | poll_timer =>
      m <- get_metacash ;; if evPoll m then cbOnPollEvent else ret tt
  | check_quit_timer =>
      m <- get_metacash ;;
      if evCheckQuit m then cbOnCheckQuitEvent else ret tt
  | request_message r uuid loaded => cbOnRequestMessage r uuid loaded
  end.

(** [event_base_dispatch]: [true] once the loop has been told to exit,
    [false] while it still waits for events. *)
Fixpoint event_base_dispatch (es : list loop_event) : M bool :=
  match es with
  | [] => ret false
  | e :: rest =>
      deliver e ;;;
      fun w => if loopexit w then Done true w else event_base_dispatch rest w
  end.

(** Everything [main] reads from outside. *)
Record environment : Type := {
  stack : m_metacash;
  options : list getopt_return;
  serial : serial_device;
  redisPublishCtx : redis_context;
  redisSubscribeCtx : redis_context;
  loop_events : list loop_event;
  peers : list answer
}.

(** [main] up to the fields it assigns before [parseCmdLine]; what it leaves
    unassigned keeps the value found on the stack. *)
Definition initial_metacash (st : m_metacash) : m_metacash :=
  {| sspAvailable := false; serialDevice := "/dev/ttyACM0";
     acceptCoins := false; logSyslogStderr := false;
     redisPort := 6379; redisHost := "127.0.0.1";
     evPoll := false; evCheckQuit := false;
     hopper :=
       {| id := 0x10; name := "Mr. Coin"; sspDeviceAvailable := false;
          key := DEFAULT_KEY; channelInhibits := channelInhibits (hopper st);
          sspC := sspC (hopper st); sspSetupReq := sspSetupReq (hopper st);
          eventHandlerFn := hopperEventHandler_fn |};
     validator :=
       {| id := 0x00; name := "Ms. Note"; sspDeviceAvailable := false;
          key := DEFAULT_KEY;
          channelInhibits := channelInhibits (validator st);
          sspC := sspC (validator st);
          sspSetupReq := sspSetupReq (validator st);
          eventHandlerFn := validatorEventHandler_fn |} |}.

Definition initial_world (env : environment) : World :=
  {| metacash := initial_metacash (stack env); receivedSignal := 0;
     loopexit := false; wire := []; published := [];
     answers := peers env |}.

(** [main] from [parseCmdLine] to the publication of the started event. *)
Definition startup (env : environment) : M unit :=
  rc <- parseCmdLine (options env) ;;
  (if negb (rc =? 0) then die "invalid command line" 1 else ret tt) ;;;
  (if mcSspOpenSerialDevice (serial env) =? 0 then
     m <- get_metacash ;; put_metacash (with_sspAvailable m true)
   else ret tt) ;;;
  setup (redisPublishCtx env) (redisSubscribeCtx env) ;;;
  (* the literal of the source has blanks inside the braces *)
  publishPayoutEvent [("event", FStr "started")].

(** The body of [main]; [Some rc] when it returns [rc], [None] while the
    event loop waits. *)
Definition main_body (env : environment) : M (option Z) :=
  startup env ;;;
  exited <- event_base_dispatch (loop_events env) ;;
  if exited : bool then
    publishPayoutEvent [("event", FStr "exiting")] ;;;
    ret (Some 0)
  else ret None.

(** How the process ends. *)
Inductive termination : Type :=
| exit_code (rc : Z)
| still_running
| undefined_behaviour.

Definition main (env : environment) : termination :=
  match main_body env (initial_world env) with
  | Done (Some rc) _ => exit_code rc
  | Done None _ => still_running
  | Died rc _ => exit_code rc
  | Undefined _ => undefined_behaviour
  end.

End Daemon.

(** * Properties *)

#[local] Open Scope list_scope.

(** ** Digits in the [channels] string *)

(** The character [d] occurs in [channels]. *)
Definition present (d : ascii) (channels : string) : bool :=
  existsb (Ascii.eqb d) (list_ascii_of_string channels).

(** The digit that names channel [n], for [1 <= n <= 9]. *)
Definition channel_digit (n : Z) : ascii := ascii_of_nat (48 + Z.to_nat n).


(** ** Worlds after an exchange *)

(** The answer the peer gives to the next exchange. *)
Definition upcoming (w : World) : answer := hd silence (answers w).

(** The world after one exchange [c] with the device [r]: the exchange is on
    the wire, the answer is consumed, the response buffer holds the response
    if one arrived. *)
Definition exchanged (w : World) (r : device_ref) (c : ssp_call) : World :=
  let a := upcoming w in
  let d := device_of (metacash w) r in
  {| metacash :=
       if sent a
       then with_device (metacash w) r
              (with_sspC d (with_ResponseData (sspC d) (response a)))
       else metacash w;
     receivedSignal := receivedSignal w;
     loopexit := loopexit w;
     wire := wire w ++ [{| peer := r; address := SSPAddress (sspC d);
                           call := c; returned := lib_return a |}];
     published := published w;
     answers := tl (answers w) |}.

(** The world after [CommandData] of the device [r] has been filled in. *)
Definition commanded (w : World) (r : device_ref) (data : list Z) : World :=
  let d := device_of (metacash w) r in
  with_metacash w
    (with_device (metacash w) r
       (with_sspC d (with_CommandData (sspC d) data))).

(** The world after [EncryptionStatus] of the device [r] has been set. *)
Definition encrypted (w : World) (r : device_ref) : World :=
  let d := device_of (metacash w) r in
  with_metacash w
    (with_device (metacash w) r
       (with_sspC d (with_EncryptionStatus (sspC d) ENCRYPTION_SET))).

(** The world after a key negotiation with the device [r]: the exchange,
    and [EncryptionStatus] set if the device has answered it with OK. *)
Definition negotiated (w : World) (r : device_ref) (k : Z) : World :=
  if is_OK (lib_return (upcoming w))
  then encrypted (exchanged w r (SETUP_ENCRYPTION k)) r
  else exchanged w r (SETUP_ENCRYPTION k).

(** The world after a message has been published. *)
Definition told (w : World) (topic : string) (m : message) : World :=
  {| metacash := metacash w; receivedSignal := receivedSignal w;
     loopexit := loopexit w; wire := wire w;
     published := published w ++ [(topic, m)]; answers := answers w |}.

(** The world after [channelInhibits] of the device [r] has been assigned. *)
Definition inhibited (w : World) (r : device_ref) (v : Z) : World :=
  with_metacash w
    (with_device (metacash w) r
       (with_channelInhibits (device_of (metacash w) r) v)).

(** ** Requests *)

(** A message on a request topic, as hiredis hands it to the callback. *)
Definition incoming (topic payload : string) : option redisReply :=
  Some {| type := REDIS_REPLY_ARRAY;
          element := ["message"; topic; payload] |}.

(** The request object with the members [msgId], [cmd] and [more]. *)
Definition request (m c : string) (more : list (string * json_t)) : json_t :=
  json_object (("msgId", json_string m) :: ("cmd", json_string c) :: more).

(** The two request topics and what they are routed to. *)
Definition routed (topic : string) (r : device_ref) (responseTopic' : string)
  : Prop :=
  (topic = "validator-request" /\ r = the_validator
   /\ responseTopic' = "validator-response")
  \/ (topic = "hopper-request" /\ r = the_hopper
      /\ responseTopic' = "hopper-response").

(** ** A laboratory

    Concrete inputs to run the daemon on: a header with the numbers of the
    ITL SSP manual, a validator with three note channels, no hopper on the
    bus. *)

Definition manual_poll_opcode (e : SSP_POLL_EVENT) : Z :=
  match e with
  | SSP_POLL_RESET => 0xF1
  | SSP_POLL_READ => 0xEF
  | SSP_POLL_CREDIT => 0xEE
  | SSP_POLL_REJECTING => 0xED
  | SSP_POLL_REJECTED => 0xEC
  | SSP_POLL_STACKING => 0xCC
  | SSP_POLL_STORED => 0xDB
  | SSP_POLL_STACKED => 0xEB
  | SSP_POLL_SAFE_JAM => 0xEA
  | SSP_POLL_UNSAFE_JAM => 0xE9
  | SSP_POLL_DISABLED => 0xE8
  | SSP_POLL_FRAUD_ATTEMPT => 0xE6
  | SSP_POLL_STACKER_FULL => 0xE7
  | SSP_POLL_CASH_BOX_REMOVED => 0xE3
  | SSP_POLL_CASH_BOX_REPLACED => 0xE4
  | SSP_POLL_CLEARED_FROM_FRONT => 0xE1
  | SSP_POLL_CLEARED_INTO_CASHBOX => 0xE2
  | SSP_POLL_CALIBRATION_FAIL => 0x83
  | SSP_POLL_TIMEOUT => 0xD9
  | SSP_POLL_DISPENSING => 0xDA
  | SSP_POLL_DISPENSED => 0xD2
  | SSP_POLL_FLOATING => 0xD7
  | SSP_POLL_FLOATED => 0xD8
  | SSP_POLL_CASHBOX_PAID => 0xDE
  | SSP_POLL_JAMMED => 0xD5
  | SSP_POLL_COIN_CREDIT => 0xDF
  | SSP_POLL_EMPTY => 0xC3
  | SSP_POLL_EMPTYING => 0xC2
  | SSP_POLL_SMART_EMPTYING => 0xB3
  | SSP_POLL_SMART_EMPTIED => 0xB4
  | SSP_POLL_INCOMPLETE_PAYOUT => 0xDC
  | SSP_POLL_INCOMPLETE_FLOAT => 0xDD
  | SSP_POLL_other opcode => opcode
  end.

Definition manual_header : ssp_commands_h :=
  {| SSP_CMD_EMPTY := 0x3F;
     SSP_CMD_FLOAT := 0x3D;
     SSP_CMD_CHANNEL_SECURITY := 0x0F;
     SSP6_OPTION_BYTE_DO := 0x58;
     SSP6_OPTION_BYTE_TEST := 0x19;
     NO_FAILUE := 0;
     SENSOR_FLAP := 1;
     SENSOR_EXIT := 2;
     SENSOR_COIL1 := 3;
     SENSOR_COIL2 := 4;
     NOT_INITIALISED := 5;
     CHECKSUM_ERROR := 6;
     COMMAND_RECAL := 7;
     SSP_POLL_opcode := manual_poll_opcode |}.

Definition blank_device : m_device :=
  {| id := 0; name := EmptyString; sspDeviceAvailable := false; key := 0;
     channelInhibits := 0;
     sspC := {| SSPAddress := 0; Timeout := 0;
                EncryptionStatus := NO_ENCRYPTION; RetryLevel := 0;
                BaudRate := 0; CommandData := [];
                ResponseData := no_response |};
     sspSetupReq := no_setup; eventHandlerFn := hopperEventHandler_fn |}.

Definition blank_stack : m_metacash :=
  {| sspAvailable := false; serialDevice := EmptyString;
     acceptCoins := false; logSyslogStderr := false; redisPort := 0;
     redisHost := EmptyString; evPoll := false; evCheckQuit := false;
     hopper := blank_device; validator := blank_device |}.

Definition ok : answer := reply_code SSP_RESPONSE_OK.

(** Three note channels: 5, 10 and 20 euro. *)
Definition euro_notes : SSP6_SETUP_REQUEST_DATA :=
  {| UnitType := 0x06; NumberOfChannels := 3;
     ChannelData := [{| value := 5; channel_cc := "EUR" |};
                     {| value := 10; channel_cc := "EUR" |};
                     {| value := 20; channel_cc := "EUR" |}] |}.

Definition setup_ok : answer :=
  {| sent := true;
     response := {| code := SSP_RESPONSE_OK; body := [] |};
     events := []; setup_data := euro_notes |}.

(** The answers during [setup]: the validator answers every exchange of its
    initialisation (7) with OK, the hopper does not answer the SYNC, the
    validator answers the 10 exchanges of its configuration with OK. *)
Definition setup_answers : list answer :=
  [ok; ok; ok; setup_ok; ok; ok; ok] ++ [silence] ++ repeat ok 10.

(** No options, the serial port opens, redis is there. *)
Definition lab (loop : list loop_event) (later : list answer)
  : environment :=
  {| stack := blank_stack; options := []; serial := port_opens;
     redisPublishCtx := context_connected;
     redisSubscribeCtx := context_connected;
     loop_events := loop; peers := setup_answers ++ later |}.

(** An answer to a POLL that carries events. *)
Definition polled (es : list poll_event) : answer :=
  {| sent := true;
     response := {| code := SSP_RESPONSE_OK; body := [] |};
     events := es; setup_data := no_setup |}.

Definition note_event (e : SSP_POLL_EVENT) (channel : Z) : poll_event :=
  {| event := e; data1 := channel; data2 := 0; cc := EmptyString |}.

(** The laboratory when [startup] has finished and the peers still have
    [later] to say. *)
Definition lab_world (later : list answer) : World :=
  world_of (startup (lab [] later)
              (initial_world (lab [] later))).

(** A command as the router hands it to a handler. *)
Definition lab_command (c : string) (more : list (string * json_t))
  : m_command :=
  {| jsonMessage := request "req-1" c more; command := Some c;
     correlId := Some "req-1";
     msgId := Some "1b4e28ba-2fa1-11d2-883f-0016d3cca427";
     responseTopic := "validator-response"; device := the_validator |}.

(** ** What a computation is confined to

    [confined P Q D R c]: whatever the world, [c] puts only calls that
    satisfy [P] on the wire, publishes only messages that satisfy [Q], ends
    the process only with an exit code that satisfies [D], and changes the
    daemon's records only within [R]. *)

Section Confined.

Variable P : ssp_call -> Prop.
Variable Q : string * message -> Prop.
Variable D : Z -> Prop.
Variable R : m_metacash -> m_metacash -> Prop.

Definition within {A} (w : World) (r : Result A) : Prop :=
  (exists l, wire (world_of r) = wire w ++ l
             /\ Forall (fun x => P (call x)) l) /\
  (exists l, published (world_of r) = published w ++ l /\ Forall Q l) /\
  R (metacash w) (metacash (world_of r)) /\
  match r with Died rc _ => D rc | _ => True end.

Definition confined {A} (c : M A) : Prop := forall w, within w (c w).

End Confined.

(** The relations [R] that can be used: preorders that do not look at the
    command and response buffers. *)
Class tolerant (R : m_metacash -> m_metacash -> Prop) : Prop := {
  tolerant_refl : forall m, R m m;
  tolerant_trans : forall m1 m2 m3, R m1 m2 -> R m2 m3 -> R m1 m3;
  tolerant_sspC :
    forall m r s, R m (with_device m r (with_sspC (device_of m r) s))
}.

Definition anything {A} : A -> Prop := fun _ => True.

Definition any_change : m_metacash -> m_metacash -> Prop := fun _ _ => True.

(** Both devices keep their [channelInhibits]. *)
Definition same_inhibits (m m' : m_metacash) : Prop :=
  forall dev,
    channelInhibits (device_of m' dev) = channelInhibits (device_of m dev).

(** [triple Pre c Post]: from a world in [Pre], if [c] returns, it returns
    in a world in [Post]. *)
Definition triple {A} (Pre : World -> Prop) (c : M A) (Post : World -> Prop)
  : Prop :=
  forall w, Pre w -> match c w with Done _ w' => Post w' | _ => True end.

(** ** The inhibit mask and the wire *)

Definition same_device (a b : device_ref) : bool :=
  match a, b with
  | the_hopper, the_hopper => true
  | the_validator, the_validator => true
  | _, _ => false
  end.

Definition is_set_inhibits (c : ssp_call) : bool :=
  match c with SET_INHIBITS _ _ => true | _ => false end.

Definition is_setup_encryption (c : ssp_call) : bool :=
  match c with SETUP_ENCRYPTION _ => true | _ => false end.





(** A request whose [cmd] is the string [c]. *)
Definition is_request_for (c : string) (e : loop_event) : bool :=
  match e with
  | request_message _ _ (inl json) =>
      match json_string_value (json_object_get json "cmd") with
      | Some x => String.eqb x c
      | None => false
      end
  | _ => false
  end.


(** ** Replies *)




(** ** The command line *)

(** The option characters that [parseCmdLine] accepts. *)
Definition known_option (o : getopt_return) : bool :=
  match optc o with
  | "h"%char | "p"%char | "d"%char | "c"%char | "e"%char => true
  | _ => false
  end.

Definition allocation_failed (env : environment) : bool :=
  is_NULL (redisPublishCtx env) || is_NULL (redisSubscribeCtx env).

(** Requests and answers for the laboratory. *)

Definition key_not_set : answer := reply_code SSP_RESPONSE_KEY_NOT_SET.


(** The laboratory after one request on [validator-request]. *)
Definition lab_after (json : json_t + json_error_t) (later : list answer)
  : World :=
  world_of (cbOnRequestMessage (hdr := manual_header)
              (incoming "validator-request" EmptyString) "uuid-1" json
              (lab_world later)).

(** What a computation added to the bus and to the wire of the
    laboratory. *)
Definition new_messages (w : World) : list (string * message) :=
  skipn (List.length (published (lab_world []))) (published w).

Definition new_calls (w : World) : list ssp_call :=
  List.map call (skipn (List.length (wire (lab_world []))) (wire w)).

(** A validator that reports a reset and then does not answer. *)
Definition reset_then_silence : environment :=
  lab [poll_timer] [polled [note_event SSP_POLL_RESET 0]].

(** An option that [getopt] does not know is reported as ['?']. *)
Definition unknown_option : environment :=
  {| stack := blank_stack;
     options := [{| optc := "?"%char; optarg := EmptyString |}];
     serial := port_opens; redisPublishCtx := context_connected;
     redisSubscribeCtx := context_connected; loop_events := [];
     peers := [] |}.

(** ** Notes in escrow *)



(** ** KEY_NOT_SET *)

(** The reply [{msgId, correlId, sspError: key not set}]. *)
Definition key_not_set_reply (uuid m : string) : message :=
  [("msgId", FStr uuid); ("correlId", FStr m);
   ("sspError", FStr "key not set")].

(** The commands whose handler reports the response of the device: all but
    [quit] and [test], which do not talk to it, and
    [channel-security-data], which does not reply. *)
Definition reporting_commands : list string :=
  ["configure-bezel"; "empty"; "smart-empty";
   "cashbox-payout-operation-data"; "set-cashbox-payout-limit"; "enable";
   "disable"; "enable-channels"; "disable-channels"; "inhibit-channels";
   "test-float"; "do-float"; "test-payout"; "do-payout";
   "get-firmware-version"; "get-dataset-version"; "get-all-levels";
   "set-denomination-level"; "last-reject-note"].

(** [c] makes one exchange with the device of [cmd], which is not a key
    negotiation and is answered with KEY_NOT_SET, and replies with
    [sspError: key not set]; then it returns. *)
Definition refused (cmd : m_command) (w : World) (c : M unit) : Prop :=
  exists w' x,
    c w = Done tt w' /\
    wire w' = wire w ++ [x] /\
    peer x = device cmd /\
    returned x = SSP_RESPONSE_KEY_NOT_SET /\
    is_setup_encryption (call x) = false /\
    published w'
    = published w
      ++ [(responseTopic cmd,
           key_not_set_reply (str (msgId cmd)) (str (correlId cmd)))].

(** ** Steps

    [steps total T c]: whatever the world [w], [c] ends in a world that [T]
    relates to [w]; when [total] is set, [c] also returns, that is, it
    neither exits nor reads outside an array. *)

Definition returns {A} (r : Result A) : bool :=
  match r with Done _ _ => true | _ => false end.

Definition steps (total : bool) (T : World -> World -> Prop) {A} (c : M A)
  : Prop :=
  forall w, T w (world_of (c w)) /\ (total = true -> returns (c w) = true).

(** The relations [T] that can be used. *)
Class preorder (T : World -> World -> Prop) : Prop := {
  preorder_refl : forall w, T w w;
  preorder_trans : forall w1 w2 w3, T w1 w2 -> T w2 w3 -> T w1 w3
}.

(** The observation [f] of the world stays what it was. *)
Definition keeps {X} (f : World -> X) : World -> World -> Prop :=
  fun w w' => f w' = f w.

(** The log [log] gets entries that satisfy [P], and loses none. *)
Definition grows {X} (log : World -> list X) (P : X -> Prop)
  : World -> World -> Prop :=
  fun w w' => exists l, log w' = log w ++ l /\ Forall P l.

Definition both (T1 T2 : World -> World -> Prop) : World -> World -> Prop :=
  fun w w' => T1 w w' /\ T2 w w'.

(** [c] returns after it has published exactly one message, which
    satisfies [Q]. *)
Definition answered (Q : string * message -> Prop) (w : World) {A}
  (r : Result A) : Prop :=
  exists a w' tm,
    r = Done a w' /\ published w' = published w ++ [tm] /\ Q tm.

Definition once (Q : string * message -> Prop) {A} (c : M A) : Prop :=
  forall w, answered Q w (c w).

(** ** Requests *)

(** A message of three elements, as hiredis delivers a publication. *)
Definition delivery (kind topic payload : string) : option redisReply :=
  Some {| type := REDIS_REPLY_ARRAY; element := [kind; topic; payload] |}.

(** The string value of the member [key] of a parsed request. *)
Definition member_string (loaded : json_t + json_error_t) (key : string)
  : option string :=
  match loaded with
  | inl json => json_string_value (json_object_get json key)
  | inr _ => None
  end.

(** The request is one that [cbOnRequestMessage] hands to
    [handleChannelSecurityData]. *)
Definition unanswered (loaded : json_t + json_error_t) (w : World) : bool :=
  match member_string loaded "msgId", member_string loaded "cmd" with
  | Some _, Some c =>
      String.eqb c "channel-security-data" && sspAvailable (metacash w)
  | _, _ => false
  end.

Definition other_device (r : device_ref) : device_ref :=
  match r with
  | the_hopper => the_validator
  | the_validator => the_hopper
  end.

(** The two topics on which requests arrive. *)
Definition request_topic (topic : string) : bool :=
  String.eqb topic "validator-request" || String.eqb topic "hopper-request".

(** The replies of hiredis that [cbOnRequestMessage] takes for a request. *)
Definition accepted (r : option redisReply) : bool :=
  match r with
  | Some reply =>
      match type reply, element reply with
      | REDIS_REPLY_ARRAY, [kind; topic; _] =>
          negb (String.eqb kind "subscribe") && request_topic topic
      | _, _ => false
      end
  | None => false
  end.

(** The world after [receivedSignal] has been assigned. *)
Definition signalled (w : World) (s : Z) : World :=
  {| metacash := metacash w; receivedSignal := s; loopexit := loopexit w;
     wire := wire w; published := published w; answers := answers w |}.

(** The reply [{msgId, correlId, result: ok}]. *)
Definition ok_reply (uuid m : string) : message :=
  [("msgId", FStr uuid); ("correlId", FStr m); ("result", FStr "ok")].

(** The reply to a request that lacks the property [name]. *)
Definition property_error (uuid m name : string) : message :=
  [("msgId", FStr uuid); ("correlId", FStr m);
   ("error", FStr ("Property '" ++ name ++ "' missing or of wrong type"))].

(** The commands that [cbOnRequestMessage] has a handler for. *)
Definition commands : list string :=
  ["quit"; "test"; "configure-bezel"; "empty"; "smart-empty";
   "cashbox-payout-operation-data"; "set-cashbox-payout-limit"; "enable";
   "disable"; "enable-channels"; "disable-channels"; "inhibit-channels";
   "test-float"; "do-float"; "test-payout"; "do-payout";
   "get-firmware-version"; "get-dataset-version"; "channel-security-data";
   "get-all-levels"; "set-denomination-level"; "last-reject-note"].

(** The type a handler tests a property for. *)
Inductive property_type : Type := a_string | an_integer.

(** The properties that the handler of the command [c] tests for, in the
    order in which it tests them. *)
Definition required (c : string) : list (string * property_type) :=
  if String.eqb c "configure-bezel" then
    [("r", an_integer); ("g", an_integer); ("b", an_integer);
     ("type", an_integer)]
  else if String.eqb c "set-cashbox-payout-limit"
          || String.eqb c "set-denomination-level" then
    [("level", an_integer); ("amount", an_integer)]
  else if String.eqb c "enable-channels" || String.eqb c "disable-channels"
          || String.eqb c "inhibit-channels" then
    [("channels", a_string)]
  else if String.eqb c "test-float" || String.eqb c "do-float"
          || String.eqb c "test-payout" || String.eqb c "do-payout" then
    [("amount", an_integer)]
  else [].

Definition has_property (json : json_t) (p : string * property_type) : bool :=
  match snd p with
  | a_string => json_is_string (json_object_get json (fst p))
  | an_integer => json_is_integer (json_object_get json (fst p))
  end.

(** The first of the properties [ps] that [json] does not have. *)
Fixpoint first_missing (json : json_t) (ps : list (string * property_type))
  : option string :=
  match ps with
  | [] => None
  | p :: rest =>
      if has_property json p then first_missing json rest else Some (fst p)
  end.

(** ** What is settled at startup *)

(** The fields of a device that the daemon settles at startup.  Left out
    are [channelInhibits], the command and response buffers, and
    [EncryptionStatus], which a key negotiation sets. *)
Definition settled (d : m_device)
  : Z * string * bool * Z * SSP6_SETUP_REQUEST_DATA * event_handler
    * (Z * Z * Z * Z) :=
  (id d, name d, sspDeviceAvailable d, key d, sspSetupReq d,
   eventHandlerFn d,
   (SSPAddress (sspC d), Timeout (sspC d), RetryLevel (sspC d),
    BaudRate (sspC d))).

(** The options, the timers, and what is settled of the two devices. *)
Definition configuration (w : World) :=
  let m := metacash w in
  (sspAvailable m, serialDevice m, acceptCoins m, logSyslogStderr m,
   redisPort m, redisHost m, evPoll m, evCheckQuit m,
   settled (hopper m), settled (validator m)).

(** ** Shutdown *)

(** The events that can make the daemon leave its loop: a signal, and a
    request to [quit]. *)
Definition stops (e : loop_event) : bool :=
  match e with
  | signal number => negb (number =? 0)
  | request_message _ _ _ => is_request_for "quit" e
  | _ => false
  end.

(** While no signal is pending, none becomes pending and the loop is not
    told to exit. *)
Definition stays_running (w w' : World) : Prop :=
  receivedSignal w = 0 ->
  receivedSignal w' = 0 /\ loopexit w' = loopexit w.

Definition started_event : string * message :=
  ("payout-event", [("event", FStr "started")]).

Definition exiting_event : string * message :=
  ("payout-event", [("event", FStr "exiting")]).

(** While the serial port is not open, it stays so and nothing goes over
    the wire. *)
Definition stays_offline (w w' : World) : Prop :=
  sspAvailable (metacash w) = false ->
  sspAvailable (metacash w') = false /\ wire w' = wire w.

(** Once the timer of [cbOnCheckQuitEvent] exists, it stays. *)
Definition keeps_check_quit (w w' : World) : Prop :=
  evCheckQuit (metacash w) = true -> evCheckQuit (metacash w') = true.

(** A computation that returns has published [x] and nothing else; one that
    exits has published nothing. *)
Definition announces (x : string * message) (w : World) {A} (r : Result A)
  : Prop :=
  match r with
  | Done _ w' => published w' = published w ++ [x]
  | Died _ w' => published w' = published w
  | Undefined _ => True
  end.

(** ** Polls *)

Definition is_poll (c : ssp_call) : bool :=
  match c with POLL => true | _ => false end.

(** The devices that were polled between the world [w] and the later world
    [w'], in the order of the polls. *)
Definition polled_between (w w' : World) : list device_ref :=
  map peer
    (filter (fun x => is_poll (call x))
       (skipn (List.length (wire w)) (wire w'))).

(** The devices that a tick of the poll timer polls in the world [w]. *)
Definition due (w : World) : list device_ref :=
  filter (fun dev => sspDeviceAvailable (device_of (metacash w) dev))
    [the_hopper; the_validator].

(** A message on [topic] whose first member is [event]. *)
Definition event_message (topic : string) (tm : string * message) : Prop :=
  fst tm = topic /\
  exists name rest, snd tm = ("event", FStr name) :: rest.

(** ** Bytes *)

(** The number that the bytes [bytes] spell, least significant byte
    first. *)
Definition le_value (bytes : list Z) : Z :=
  fold_right (fun b acc => b + 256 * acc) 0 bytes.

Definition is_byte (b : Z) : Prop := 0 <= b < 256.

(** ** Counters *)

(** One counter of a hopper: how many coins ([level]) of which denomination
    ([value], with its currency). *)
Record counter : Type := {
  counter_level : Z;
  counter_value : Z;
  counter_cc : string
}.

(** The nine bytes of a counter in the layout that
    [mc_ssp_set_denomination_level] writes: level (2), value (4), currency
    (3). *)
Definition counter_bytes (c : counter) : list Z :=
  le_bytes (counter_level c) 2 ++ le_bytes (counter_value c) 4
  ++ cc_bytes (counter_cc c).

(** The element of [levels] that reports a counter. *)
Definition counter_json (c : counter) : string :=
  render [("value", FNum (counter_value c));
          ("level", FNum (counter_level c));
          ("cc", FStr (counter_cc c))].

(** A string of three characters, none of them NUL. *)
Definition three_letters (s : string) : bool :=
  match s with
  | String a (String b (String c EmptyString)) =>
      negb (Nat.eqb (nat_of_ascii a) 0) && negb (Nat.eqb (nat_of_ascii b) 0)
      && negb (Nat.eqb (nat_of_ascii c) 0)
  | _ => false
  end.

(** A counter whose level fits 16 bits and whose value fits an [int]. *)
Definition counter_fits (c : counter) : Prop :=
  0 <= counter_level c < 2 ^ 16 /\ 0 <= counter_value c < 2 ^ 31 /\
  three_letters (counter_cc c) = true.

(** The device answers the next command with the response code [c] and the
    data bytes [data]. *)
Definition answers_with (w : World) (c : SSP_RESPONSE_ENUM) (data : list Z)
  : Prop :=
  sent (upcoming w) = true /\
  response (upcoming w) = {| code := c; body := data |}.

(** The world after the command [data] has been sent to the device [r]. *)
Definition sent_command (w : World) (r : device_ref) (data : list Z) : World :=
  exchanged (commanded w r data) r (SEND data).

(** No character of [s] is NUL. *)
Definition no_nul (s : string) : bool :=
  forallb (fun c => negb (Nat.eqb (nat_of_ascii c) 0))
    (list_ascii_of_string s).

(** ** The command line *)

(** The argument of the last option [c] among [options]. *)
Fixpoint last_option (c : ascii) (options : list getopt_return)
  (found : option string) : option string :=
  match options with
  | [] => found
  | o :: rest =>
      last_option c rest
        (if Ascii.eqb (optc o) c then Some (optarg o) else found)
  end.

Definition given (c : ascii) (options : list getopt_return) : bool :=
  existsb (fun o => Ascii.eqb (optc o) c) options.

(** The options that [parseCmdLine] gets to: those before the first one
    that it rejects. *)
Fixpoint accepted_options (options : list getopt_return)
  : list getopt_return :=
  match options with
  | [] => []
  | o :: rest => if known_option o then o :: accepted_options rest else []
  end.

(** ** Setup *)

(** The exchanges by which [mcSspInitializeDevice] finds a device. *)
Definition handshake (key : Z) : list ssp_call :=
  [SYNC; SETUP_ENCRYPTION key; HOST_PROTOCOL_VERSION 0x06; SETUP_REQUEST;
   SEND [SSP_CMD_GET_FIRMWARE_VERSION]; SEND [SSP_CMD_GET_DATASET_VERSION];
   ENABLE].

Definition is_send (c : ssp_call) : bool :=
  match c with SEND _ => true | _ => false end.

(** The world after [sspSetupReq] of the device [r] has been filled in. *)
Definition informed (w : World) (r : device_ref)
  (s : SSP6_SETUP_REQUEST_DATA) : World :=
  with_metacash w
    (with_device (metacash w) r
       (with_sspSetupReq (device_of (metacash w) r) s)).

(** The two exchanges of [setup] whose failure makes it return at once. *)
Definition last_step (c : ssp_call) : bool :=
  match c with
  | SET_INHIBITS _ _ => true
  | ENABLE_PAYOUT _ => true
  | _ => false
  end.

(** An exchange at which [setup] gives up. *)
Definition gives_up (x : exchange) : bool :=
  last_step (call x) && negb (is_OK (returned x)).

(** When [c] returns [finished], it has given up at one of its exchanges
    exactly when [finished] is [false], and the timer of [cbOnPollEvent] is
    as it was. *)
Definition finishes (c : M bool) : Prop :=
  forall w,
    match c w with
    | Done finished w' =>
        exists l, wire w' = wire w ++ l /\
                  existsb gives_up l = negb finished /\
                  evPoll (metacash w') = evPoll (metacash w)
    | _ => True
    end.

(** What [setup] tells the hopper about the coins of one channel. *)
Definition coin_inhibit (accept : bool) (ch : SSP6_CHANNEL_DATA) : ssp_call :=
  SET_COINMECH_INHIBITS (value ch) (channel_cc ch)
    (if accept then ENABLED else DISABLED).

(** ** Addresses *)

(** The address on the bus that [main] gives to each device. *)
Definition device_address (r : device_ref) : Z :=
  match r with
  | the_hopper => 0x10
  | the_validator => 0x00
  end.

(** An exchange that went to the address of its device. *)
Definition addressed (x : exchange) : Prop :=
  address x = device_address (peer x).

(** The [sspC] of each device carries the device's address, and so did every
    exchange so far. *)
Definition pinned (w : World) : Prop :=
  (forall r, SSPAddress (sspC (device_of (metacash w) r)) = device_address r)
  /\ Forall addressed (wire w).

Definition stays_pinned (w w' : World) : Prop := pinned w -> pinned w'.

(** The devices have their ids and nothing has been exchanged yet. *)
Definition unused (w : World) : Prop :=
  (forall r, id (device_of (metacash w) r) = device_address r)
  /\ wire w = [].

Definition stays_unused (w w' : World) : Prop := unused w -> unused w'.

(** From a world in [Pre], [c] returns in a world in [Post]; when it does
    not return, it stops in a world in [Stop]. *)
Definition ends (Pre : World -> Prop) {A} (c : M A)
  (Post Stop : World -> Prop) : Prop :=
  forall w, Pre w ->
    match c w with
    | Done _ w' => Post w'
    | Died _ w' => Stop w'
    | Undefined w' => Stop w'
    end.
(** ** Bytes and bits *)

Module CIntFacts.

Lemma to_uchar_range (z : Z) : 0 <= CInt.to_uchar z < 256.
Proof. unfold CInt.to_uchar. apply Z.mod_pos_bound. lia. Qed.

Lemma uchar_testbit_high (x k : Z) :
  0 <= x < 256 -> 8 <= k -> Z.testbit x k = false.
Proof.
  intros Hx Hk.
  rewrite <- (Z.mod_small x (2 ^ 8)) by (change (2 ^ 8) with 256; lia).
  apply Z.mod_pow2_bits_high. lia.
Qed.

Lemma to_uchar_testbit (z k : Z) :
  0 <= k ->
  Z.testbit (CInt.to_uchar z) k = (k <? 8) && Z.testbit z k.
Proof.
  intros Hk. unfold CInt.to_uchar. change 256 with (2 ^ 8).
  destruct (Z.ltb_spec k 8).
  - now rewrite Z.mod_pow2_bits_low by lia.
  - now rewrite Z.mod_pow2_bits_high by lia.
Qed.

Lemma set_bit_spec (x j k : Z) :
  0 <= j < 8 -> 0 <= x < 256 -> 0 <= k ->
  Z.testbit (CInt.set_bit x j) k = Z.testbit x k || (k =? j).
Proof.
  intros Hj Hx Hk. unfold CInt.set_bit.
  rewrite to_uchar_testbit, Z.lor_spec, Z.shiftl_1_l by lia.
  rewrite Z.pow2_bits_eqb by lia. rewrite (Z.eqb_sym j k).
  destruct (Z.ltb_spec k 8); [reflexivity|].
  rewrite (uchar_testbit_high x k) by lia.
  destruct (Z.eqb_spec k j); [lia | reflexivity].
Qed.

Lemma clear_bit_spec (x j k : Z) :
  0 <= j < 8 -> 0 <= x < 256 -> 0 <= k ->
  Z.testbit (CInt.clear_bit x j) k = Z.testbit x k && negb (k =? j).
Proof.
  intros Hj Hx Hk. unfold CInt.clear_bit.
  rewrite to_uchar_testbit, Z.land_spec, Z.lnot_spec, Z.shiftl_1_l by lia.
  rewrite Z.pow2_bits_eqb by lia. rewrite (Z.eqb_sym j k).
  destruct (Z.ltb_spec k 8); [reflexivity|].
  rewrite (uchar_testbit_high x k) by lia. reflexivity.
Qed.

Lemma set_bit_range (x j : Z) : 0 <= CInt.set_bit x j < 256.
Proof. apply to_uchar_range. Qed.

Lemma clear_bit_range (x j : Z) : 0 <= CInt.clear_bit x j < 256.
Proof. apply to_uchar_range. Qed.

(** An [int] that is in range is not changed by the conversion. *)
Lemma to_int_small (z : Z) :
  - 2 ^ 31 <= z <= CInt.INT_MAX -> CInt.to_int z = z.
Proof.
  unfold CInt.to_int, CInt.INT_MAX. intros H.
  rewrite Z.mod_small; lia.
Qed.

End CIntFacts.

Lemma strstr_char (channels : string) (d : ascii) :
  strstr channels (String d EmptyString) = present d channels.
Proof.
  unfold present.
  induction channels as [|a rest IH]; [reflexivity|].
  cbn [strstr String.prefix list_ascii_of_string existsb].
  rewrite IH. destruct (ascii_dec d a) as [->|Hne].
  - rewrite Ascii.eqb_refl. now destruct rest.
  - apply Ascii.eqb_neq in Hne. now rewrite Hne.
Qed.

Section ChannelBits.

Variable channels : string.

Lemma set_step (b : bool) (x j : Z) :
  0 <= j < 8 -> 0 <= x < 256 ->
  0 <= (if b then CInt.set_bit x j else x) < 256 /\
  forall k, 0 <= k ->
    Z.testbit (if b then CInt.set_bit x j else x) k
    = Z.testbit x k || (b && (k =? j)).
Proof.
  intros Hj Hx. destruct b.
  - split; [apply CIntFacts.set_bit_range|].
    intros k Hk. now rewrite CIntFacts.set_bit_spec.
  - split; [assumption|]. intros. now rewrite orb_false_r.
Qed.

Lemma clear_step (b : bool) (x j : Z) :
  0 <= j < 8 -> 0 <= x < 256 ->
  0 <= (if b then CInt.clear_bit x j else x) < 256 /\
  forall k, 0 <= k ->
    Z.testbit (if b then CInt.clear_bit x j else x) k
    = Z.testbit x k && negb (b && (k =? j)).
Proof.
  intros Hj Hx. destruct b.
  - split; [apply CIntFacts.clear_bit_range|].
    intros k Hk. now rewrite CIntFacts.clear_bit_spec.
  - split; [assumption|]. intros. now rewrite andb_true_r.
Qed.

Lemma enable_bits_range (x : Z) :
  0 <= x < 256 -> 0 <= enable_bits channels x < 256.
Proof.
  intros Hx. unfold enable_bits.
  repeat match goal with
  | |- context [if ?b then CInt.set_bit ?y ?j else ?y] =>
      let H := fresh in
      assert (H : 0 <= (if b then CInt.set_bit y j else y) < 256)
        by (apply set_step; [lia | assumption]);
      generalize dependent (if b then CInt.set_bit y j else y); intros
  end.
  assumption.
Qed.

Lemma disable_bits_range (x : Z) :
  0 <= x < 256 -> 0 <= disable_bits channels x < 256.
Proof.
  intros Hx. unfold disable_bits.
  repeat match goal with
  | |- context [if ?b then CInt.clear_bit ?y ?j else ?y] =>
      let H := fresh in
      assert (H : 0 <= (if b then CInt.clear_bit y j else y) < 256)
        by (apply clear_step; [lia | assumption]);
      generalize dependent (if b then CInt.clear_bit y j else y); intros
  end.
  assumption.
Qed.

Ltac chain_steps step :=
  repeat match goal with
  | Hx : 0 <= ?y < 256 |- context [if ?b then ?f ?y ?j else ?y] =>
      let Hr := fresh "Hr" in
      let Hb := fresh "Hb" in
      destruct (step b y j ltac:(lia) Hx) as [Hr Hb];
      let y' := fresh "y" in
      let E := fresh "E" in
      remember (if b then f y j else y) as y' eqn:E; clear E Hx
  end.

Ltac unchain k Hk :=
  repeat match goal with
  | H : forall k, 0 <= k -> Z.testbit ?y k = _ |- context [Z.testbit ?y _] =>
      rewrite (H k Hk); clear H
  end.

Ltac bit_cases k :=
  let H := fresh in
  assert (H : k = 0 \/ k = 1 \/ k = 2 \/ k = 3 \/ k = 4 \/ k = 5 \/ k = 6
              \/ k = 7 \/ 8 <= k) by lia;
  repeat (destruct H as [H|H]); try subst k;
  try (cbn; rewrite ?andb_false_r, ?andb_true_r, ?orb_false_r; reflexivity);
  replace (k <? 8) with false by (symmetry; apply Z.ltb_ge; lia);
  repeat match goal with
  | |- context [k =? ?j] =>
      replace (k =? j) with false by (symmetry; apply Z.eqb_neq; lia)
  end.

(** Bit [k] of the mask written by [enable-channels]: the stored bit, or the
    digit [k+1] named in the request. *)
Lemma enable_bits_spec (x k : Z) :
  0 <= x < 256 -> 0 <= k ->
  Z.testbit (enable_bits channels x) k
  = Z.testbit x k || ((k <? 8) && present (channel_digit (k + 1)) channels).
Proof.
  intros Hx Hk. unfold enable_bits. rewrite !strstr_char.
  chain_steps set_step. unchain k Hk. bit_cases k.
  now rewrite !andb_false_r, !orb_false_r.
Qed.

(** Bit [k] of the mask written by [disable-channels]: the stored bit,
    unless the digit [k+1] is named in the request. *)
Lemma disable_bits_spec (x k : Z) :
  0 <= x < 256 -> 0 <= k ->
  Z.testbit (disable_bits channels x) k
  = Z.testbit x k
    && negb ((k <? 8) && present (channel_digit (k + 1)) channels).
Proof.
  intros Hx Hk. unfold disable_bits. rewrite !strstr_char.
  chain_steps clear_step. unchain k Hk. bit_cases k.
  now rewrite !andb_false_r, !andb_true_r.
Qed.

End ChannelBits.

(** ** Running the primitives *)

Lemma bind_Done {A B} (c : M A) (k : A -> M B) (w w' : World) (a : A) :
  c w = Done a w' -> bind c k w = k a w'.
Proof. unfold bind. now intros ->. Qed.

Lemma bind_Died {A B} (c : M A) (k : A -> M B) (w w' : World) (rc : Z) :
  c w = Died rc w' -> bind c k w = Died rc w'.
Proof. unfold bind. now intros ->. Qed.

Lemma next_answer_eq (w : World) :
  next_answer w
  = Done (upcoming w)
      {| metacash := metacash w; receivedSignal := receivedSignal w;
         loopexit := loopexit w; wire := wire w; published := published w;
         answers := tl (answers w) |}.
Proof.
  destruct w as [m s l wi p an]. unfold next_answer, upcoming. cbn.
  now destruct an.
Qed.

Lemma ssp6_eq (r : device_ref) (c : ssp_call) (w : World) :
  ssp6 r c w = Done (upcoming w) (exchanged w r c).
Proof.
  unfold ssp6, bind, get_device. rewrite next_answer_eq.
  unfold log_exchange, store_response, exchanged.
  destruct (sent (upcoming w)) eqn:E; cbn; rewrite ?E; reflexivity.
Qed.

Lemma send_ssp_command_eq (r : device_ref) (w : World) :
  send_ssp_command r w
  = Done (sent (upcoming w))
      (exchanged w r (SEND (CommandData (sspC (device_of (metacash w) r))))).
Proof.
  unfold send_ssp_command, bind, get_device. rewrite next_answer_eq.
  unfold log_exchange, store_response, exchanged.
  destruct (sent (upcoming w)) eqn:E; cbn; rewrite ?E; reflexivity.
Qed.

Lemma set_CommandData_eq (r : device_ref) (data : list Z) (w : World) :
  set_CommandData r data w = Done tt (commanded w r data).
Proof. reflexivity. Qed.

Lemma set_channelInhibits_eq (r : device_ref) (v : Z) (w : World) :
  set_channelInhibits r v w = Done tt (inhibited w r v).
Proof. reflexivity. Qed.

Lemma publish_eq (topic : string) (m : message) (w : World) :
  publish topic m w = Done tt (told w topic m).
Proof. reflexivity. Qed.

Lemma device_of_with_device (m : m_metacash) (r : device_ref) (d : m_device) :
  device_of (with_device m r d) r = d.
Proof. now destruct r. Qed.

Lemma device_of_with_device_other (m : m_metacash) (r r' : device_ref)
  (d : m_device) :
  r <> r' -> device_of (with_device m r d) r' = device_of m r'.
Proof. destruct r, r'; intros H; try reflexivity; now elim H. Qed.

Lemma upcoming_commanded (w : World) (r : device_ref) (data : list Z) :
  upcoming (commanded w r data) = upcoming w.
Proof. reflexivity. Qed.

(** The response code an [mc_ssp_*] function returns is the one the library
    would return for the same answer. *)
Lemma mc_ssp_command_eq (r : device_ref) (data : list Z) (w : World) :
  mc_ssp_command r data w
  = Done (lib_return (upcoming w))
      (exchanged (commanded w r data) r (SEND data)).
Proof.
  unfold mc_ssp_command, bind. rewrite set_CommandData_eq.
  rewrite send_ssp_command_eq, upcoming_commanded.
  unfold commanded at 2. cbn [metacash with_metacash].
  rewrite device_of_with_device. cbn [sspC with_sspC CommandData
                                       with_CommandData].
  unfold lib_return, get_device, exchanged, ret.
  rewrite upcoming_commanded.
  destruct (sent (upcoming w)); cbn; [|reflexivity].
  now rewrite device_of_with_device.
Qed.

(** What an exchange leaves alone. *)
Lemma exchanged_channelInhibits (w : World) (r r' : device_ref)
  (c : ssp_call) :
  channelInhibits (device_of (metacash (exchanged w r c)) r')
  = channelInhibits (device_of (metacash w) r').
Proof. unfold exchanged. cbn. now destruct (sent _), r, r'. Qed.

Lemma exchanged_SSPAddress (w : World) (r r' : device_ref) (c : ssp_call) :
  SSPAddress (sspC (device_of (metacash (exchanged w r c)) r'))
  = SSPAddress (sspC (device_of (metacash w) r')).
Proof. unfold exchanged. cbn. now destruct (sent _), r, r'. Qed.

Lemma exchanged_sspSetupReq (w : World) (r r' : device_ref) (c : ssp_call) :
  sspSetupReq (device_of (metacash (exchanged w r c)) r')
  = sspSetupReq (device_of (metacash w) r').
Proof. unfold exchanged. cbn. now destruct (sent _), r, r'. Qed.

Lemma exchanged_key (w : World) (r r' : device_ref) (c : ssp_call) :
  key (device_of (metacash (exchanged w r c)) r')
  = key (device_of (metacash w) r').
Proof. unfold exchanged. cbn. now destruct (sent _), r, r'. Qed.

Lemma exchanged_sspAvailable (w : World) (r : device_ref) (c : ssp_call) :
  sspAvailable (metacash (exchanged w r c)) = sspAvailable (metacash w).
Proof. unfold exchanged. cbn. now destruct (sent _), r. Qed.

Lemma commanded_channelInhibits (w : World) (r r' : device_ref)
  (data : list Z) :
  channelInhibits (device_of (metacash (commanded w r data)) r')
  = channelInhibits (device_of (metacash w) r').
Proof. now destruct r, r'. Qed.

Lemma commanded_SSPAddress (w : World) (r r' : device_ref) (data : list Z) :
  SSPAddress (sspC (device_of (metacash (commanded w r data)) r'))
  = SSPAddress (sspC (device_of (metacash w) r')).
Proof. now destruct r, r'. Qed.

(** ** The channel handlers *)

Ltac exec :=
  repeat first
    [ rewrite ssp6_eq
    | rewrite mc_ssp_command_eq
    | rewrite send_ssp_command_eq
    | rewrite set_CommandData_eq
    | rewrite set_channelInhibits_eq
    | rewrite publish_eq
    | progress cbv beta iota delta
        [bind ret get_device get_metacash replyWith replyWithSspResponse
         replyWithPropertyError publishValidatorEvent publishHopperEvent
         publishPayoutEvent ssp6_set_inhibits ssp6_host_protocol ssp6_poll
         ssp6_setup_encryption ssp6_enable ssp6_disable ssp6_payout
         ssp6_run_calibration mc_ssp_set_denomination_level
         mc_ssp_channel_security_data mc_ssp_empty die undefined] ].

Section Handlers.

Context `{hdr : ssp_commands_h}.

Lemma handleEnableChannels_eq (cmd : m_command) (channels : string)
  (w : World) :
  json_object_get (jsonMessage cmd) "channels" = Some (json_string channels) ->
  let r := device cmd in
  let newLow :=
    enable_bits channels (channelInhibits (device_of (metacash w) r)) in
  let w1 := exchanged w r (SET_INHIBITS newLow 0xFF) in
  exists reply,
    handleEnableChannels cmd w
    = Done tt (told (if is_OK (lib_return (upcoming w))
                     then inhibited w1 r newLow else w1)
                 (responseTopic cmd) reply).
Proof.
  intros H r newLow w1. unfold handleEnableChannels. rewrite H.
  cbn [json_string_value]. exec. fold r newLow w1.
  destruct (lib_return (upcoming w)); cbn [is_OK]; exec;
    eexists; reflexivity.
Qed.

Lemma handleDisableChannels_eq (cmd : m_command) (channels : string)
  (w : World) :
  json_object_get (jsonMessage cmd) "channels" = Some (json_string channels) ->
  let r := device cmd in
  let newLow :=
    disable_bits channels (channelInhibits (device_of (metacash w) r)) in
  let w1 := exchanged w r (SET_INHIBITS newLow 0xFF) in
  exists reply,
    handleDisableChannels cmd w
    = Done tt (told (if is_OK (lib_return (upcoming w))
                     then inhibited w1 r newLow else w1)
                 (responseTopic cmd) reply).
Proof.
  intros H r newLow w1. unfold handleDisableChannels. rewrite H.
  cbn [json_string_value]. exec. fold r newLow w1.
  destruct (lib_return (upcoming w)); cbn [is_OK]; exec;
    eexists; reflexivity.
Qed.

Lemma handleInhibitChannels_eq (cmd : m_command) (channels : string)
  (w : World) :
  json_object_get (jsonMessage cmd) "channels" = Some (json_string channels) ->
  exists reply,
    handleInhibitChannels cmd w
    = Done tt (told (exchanged w (device cmd)
                       (SET_INHIBITS (disable_bits channels 0xFF) 0xFF))
                 (responseTopic cmd) reply).
Proof.
  intros H. unfold handleInhibitChannels. rewrite H.
  cbn [json_string_value]. exec.
  destruct (lib_return (upcoming w)); exec; eexists; reflexivity.
Qed.

Lemma inhibited_channelInhibits (w : World) (r : device_ref) (v : Z) :
  channelInhibits (device_of (metacash (inhibited w r v)) r) = v.
Proof. now destruct r. Qed.


Lemma inhibited_SSPAddress (w : World) (r r' : device_ref) (v : Z) :
  SSPAddress (sspC (device_of (metacash (inhibited w r v)) r'))
  = SSPAddress (sspC (device_of (metacash w) r')).
Proof. now destruct r, r'. Qed.

(** C2.  For a request with a string [channels], enable-channels and
    disable-channels compute the new low mask from the stored
    [channelInhibits] by setting, respectively clearing, bit [d-1] for each
    digit [d] of 1..8 that occurs in the string; they issue
    [SET_INHIBITS(newLow, 0xFF)] and nothing else; the stored mask becomes
    [newLow] when the response is OK and stays as it was on any other
    response. *)
Theorem channels_mask_written_and_kept (cmd : m_command) (channels : string)
  (w : World) :
  json_object_get (jsonMessage cmd) "channels" = Some (json_string channels) ->
  let r := device cmd in
  let d := device_of (metacash w) r in
  let stored := channelInhibits d in
  let resp := lib_return (upcoming w) in
  0 <= stored < 256 ->
  (exists newLow w',
      handleEnableChannels cmd w = Done tt w' /\
      (forall k, 0 <= k ->
         Z.testbit newLow k
         = Z.testbit stored k
           || ((k <? 8) && present (channel_digit (k + 1)) channels)) /\
      wire w' = wire w ++ [{| peer := r; address := SSPAddress (sspC d);
                              call := SET_INHIBITS newLow 0xFF;
                              returned := resp |}] /\
      (resp = SSP_RESPONSE_OK ->
       channelInhibits (device_of (metacash w') r) = newLow) /\
      (resp <> SSP_RESPONSE_OK ->
       channelInhibits (device_of (metacash w') r) = stored))
  /\
  (exists newLow w',
      handleDisableChannels cmd w = Done tt w' /\
      (forall k, 0 <= k ->
         Z.testbit newLow k
         = Z.testbit stored k
           && negb ((k <? 8) && present (channel_digit (k + 1)) channels)) /\
      wire w' = wire w ++ [{| peer := r; address := SSPAddress (sspC d);
                              call := SET_INHIBITS newLow 0xFF;
                              returned := resp |}] /\
      (resp = SSP_RESPONSE_OK ->
       channelInhibits (device_of (metacash w') r) = newLow) /\
      (resp <> SSP_RESPONSE_OK ->
       channelInhibits (device_of (metacash w') r) = stored)).
Proof.
  intros H r d stored resp Hrange. subst resp. split.
  - destruct (handleEnableChannels_eq cmd channels w H) as [reply E].
    fold r d stored in E.
    exists (enable_bits channels stored). eexists.
    split; [exact E|].
    split; [intros k Hk; now apply enable_bits_spec|].
    split; [now destruct (is_OK (lib_return (upcoming w)))|].
    cbn [metacash told]. split; intros Hr.
    + rewrite Hr. apply inhibited_channelInhibits.
    + destruct (lib_return (upcoming w)); try (now elim Hr);
        apply exchanged_channelInhibits.
  - destruct (handleDisableChannels_eq cmd channels w H) as [reply E].
    fold r d stored in E.
    exists (disable_bits channels stored). eexists.
    split; [exact E|].
    split; [intros k Hk; now apply disable_bits_spec|].
    split; [now destruct (is_OK (lib_return (upcoming w)))|].
    cbn [metacash told]. split; intros Hr.
    + rewrite Hr. apply inhibited_channelInhibits.
    + destruct (lib_return (upcoming w)); try (now elim Hr);
        apply exchanged_channelInhibits.
Qed.

Lemma inhibited_sspAvailable (w : World) (r : device_ref) (v : Z) :
  sspAvailable (metacash (inhibited w r v)) = sspAvailable (metacash w).
Proof. now destruct r. Qed.

(** What the router does with a well-formed request for one of the two
    channel handlers. *)
Lemma route_enable_channels (topic payload uuid m channels rt : string)
  (r : device_ref) (w : World) :
  routed topic r rt -> sspAvailable (metacash w) = true ->
  cbOnRequestMessage (incoming topic payload) uuid
    (inl (request m "enable-channels" [("channels", json_string channels)])) w
  = handleEnableChannels
      {| jsonMessage :=
           request m "enable-channels" [("channels", json_string channels)];
         command := Some "enable-channels"; correlId := Some m;
         msgId := Some uuid; responseTopic := rt; device := r |} w.
Proof.
  intros [(-> & -> & ->)|(-> & -> & ->)] Hav;
    unfold cbOnRequestMessage, incoming, request;
    cbn -[handleEnableChannels]; now rewrite Hav.
Qed.

Lemma route_disable_channels (topic payload uuid m channels rt : string)
  (r : device_ref) (w : World) :
  routed topic r rt -> sspAvailable (metacash w) = true ->
  cbOnRequestMessage (incoming topic payload) uuid
    (inl (request m "disable-channels" [("channels", json_string channels)]))
    w
  = handleDisableChannels
      {| jsonMessage :=
           request m "disable-channels" [("channels", json_string channels)];
         command := Some "disable-channels"; correlId := Some m;
         msgId := Some uuid; responseTopic := rt; device := r |} w.
Proof.
  intros [(-> & -> & ->)|(-> & -> & ->)] Hav;
    unfold cbOnRequestMessage, incoming, request;
    cbn -[handleDisableChannels]; now rewrite Hav.
Qed.

(** C8, amended.  Starting from the all-disabled mask 0x00, a successful
    enable-channels("135") followed by a successful disable-channels("3")
    leaves [channelInhibits] at 0b00010001: bit 2 is set by the first request
    and cleared again by the second. *)
Theorem enable_135_then_disable_3 (topic rt p1 p2 uuid1 uuid2 m1 m2 : string)
  (r : device_ref) (w : World) (a1 a2 : answer) (rest : list answer) :
  routed topic r rt ->
  sspAvailable (metacash w) = true ->
  channelInhibits (device_of (metacash w) r) = 0x00 ->
  answers w = a1 :: a2 :: rest ->
  lib_return a1 = SSP_RESPONSE_OK ->
  lib_return a2 = SSP_RESPONSE_OK ->
  exists w1 w2,
    cbOnRequestMessage (incoming topic p1) uuid1
      (inl (request m1 "enable-channels" [("channels", json_string "135")]))
      w = Done tt w1 /\
    cbOnRequestMessage (incoming topic p2) uuid2
      (inl (request m2 "disable-channels" [("channels", json_string "3")]))
      w1 = Done tt w2 /\
    channelInhibits (device_of (metacash w2) r) = 0x11.
Proof.
  intros Hroute Hav Hzero Han H1 H2.
  rewrite (route_enable_channels _ _ _ _ _ _ _ _ Hroute Hav).
  match goal with
  | |- context [handleEnableChannels ?c w] =>
      destruct (handleEnableChannels_eq c "135" w eq_refl) as [reply1 E1]
  end.
  cbn [device] in E1. rewrite Hzero in E1.
  assert (Hup : upcoming w = a1) by (unfold upcoming; now rewrite Han).
  rewrite Hup, H1 in E1. cbn [is_OK] in E1.
  match type of E1 with _ = Done tt ?w1 => set (w1' := w1) in * end.
  exists w1'. rewrite E1.
  assert (Hav1 : sspAvailable (metacash w1') = true).
  { subst w1'. cbn [metacash told].
    now rewrite inhibited_sspAvailable, exchanged_sspAvailable. }
  rewrite (route_disable_channels _ _ _ _ _ _ _ _ Hroute Hav1).
  match goal with
  | |- context [handleDisableChannels ?c w1'] =>
      destruct (handleDisableChannels_eq c "3" w1' eq_refl) as [reply2 E2]
  end.
  cbn [device] in E2.
  assert (Hstored : channelInhibits (device_of (metacash w1') r) = 21).
  { subst w1'. cbn [metacash told]. now rewrite inhibited_channelInhibits. }
  assert (Hup1 : upcoming w1' = a2).
  { subst w1'. unfold upcoming. cbn. now rewrite Han. }
  rewrite Hstored, Hup1, H2 in E2. cbn [is_OK] in E2.
  eexists. split; [reflexivity|]. split; [exact E2|].
  cbn [metacash told]. now rewrite inhibited_channelInhibits.
Qed.

(** ** Requests without a usable msgId *)

(** C10.  A request that parses as JSON but whose [msgId] is missing or not
    a string is answered with the property error for [msgId]; in that reply
    [correlId] is the literal ["unknown"] and [msgId] is the id generated
    for the response. *)
Theorem missing_msgId_reply (kind topic payload uuid rt : string)
  (json : json_t) (r : device_ref) (w : World) :
  routed topic r rt ->
  kind <> "subscribe" ->
  json_is_string (json_object_get json "msgId") = false ->
  cbOnRequestMessage
    (Some {| type := REDIS_REPLY_ARRAY; element := [kind; topic; payload] |})
    uuid (inl json) w
  = Done tt
      (told w rt
         [("msgId", FStr uuid); ("correlId", FStr "unknown");
          ("error", FStr "Property 'msgId' missing or of wrong type")]).
Proof.
  intros Hroute Hkind Hmsg. apply String.eqb_neq in Hkind.
  destruct Hroute as [(-> & -> & ->)|(-> & -> & ->)];
    unfold cbOnRequestMessage; cbn [type element];
    rewrite Hkind; cbn -[json_object_get]; rewrite Hmsg; reflexivity.
Qed.

(** ** The handler that does not reply *)

(** C7, at the failing input.  A well-formed channel-security-data request,
    dispatched with the hardware available, sends its command and publishes
    nothing: no response message reaches the response topic. *)
Theorem channel_security_data_unanswered (topic payload uuid m rt : string)
  (r : device_ref) (w : World) :
  routed topic r rt ->
  sspAvailable (metacash w) = true ->
  exists w',
    cbOnRequestMessage (incoming topic payload) uuid
      (inl (request m "channel-security-data" [])) w = Done tt w' /\
    wire w' = wire w ++ [{| peer := r;
                            address := SSPAddress
                                         (sspC (device_of (metacash w) r));
                            call := SEND [SSP_CMD_CHANNEL_SECURITY];
                            returned := lib_return (upcoming w) |}] /\
    published w' = published w.
Proof.
  intros [(-> & -> & ->)|(-> & -> & ->)] Hav;
    unfold cbOnRequestMessage, incoming, request;
    cbn -[handleChannelSecurityData]; rewrite Hav; cbn [negb];
    unfold handleChannelSecurityData; exec; eexists;
    (split; [reflexivity|]); split; reflexivity.
Qed.

End Handlers.

(** ** Confinement of the primitives *)

#[local] Instance tolerant_any_change : tolerant any_change.
Proof. split; unfold any_change; trivial. Qed.

#[local] Instance tolerant_same_inhibits : tolerant same_inhibits.
Proof.
  split; unfold same_inhibits.
  - reflexivity.
  - intros m1 m2 m3 H12 H23 dev. now rewrite H23, H12.
  - intros m r s dev. now destruct r, dev.
Qed.

#[local] Set Warnings "-notation-for-abbreviation".

Section ConfinedFacts.

Context {P : ssp_call -> Prop} {Q : string * message -> Prop}
  {D : Z -> Prop} {R : m_metacash -> m_metacash -> Prop} `{!tolerant R}.

#[local] Notation cf := (confined P Q D R).
#[local] Notation wi := (within P Q D R).

Lemma within_same {A} (w w' : World) (r : Result A) :
  world_of r = w' -> wire w' = wire w -> published w' = published w ->
  R (metacash w) (metacash w') ->
  match r with Died rc _ => D rc | _ => True end ->
  wi w r.
Proof.
  intros E Hw Hp HR HD. unfold within. rewrite E.
  repeat split.
  - exists []. now rewrite app_nil_r.
  - exists []. now rewrite app_nil_r.
  - assumption.
  - assumption.
Qed.

Lemma within_trans {A B} (w w1 : World) (r1 : Result A) (r2 : Result B) :
  world_of r1 = w1 -> wi w r1 -> wi w1 r2 ->
  match r2 with Died rc _ => D rc | _ => True end ->
  wi w r2.
Proof.
  intros E ((l1 & Hw1 & Hl1) & (p1 & Hp1 & Hq1) & HR1 & _)
    ((l2 & Hw2 & Hl2) & (p2 & Hp2 & Hq2) & HR2 & _) HD.
  rewrite E in *. repeat split.
  - exists (l1 ++ l2). rewrite Hw2, Hw1, app_assoc. split; [reflexivity|].
    apply Forall_app. now split.
  - exists (p1 ++ p2). rewrite Hp2, Hp1, app_assoc. split; [reflexivity|].
    apply Forall_app. now split.
  - eapply tolerant_trans; eassumption.
  - assumption.
Qed.

Lemma confined_ret {A} (a : A) : cf (ret a).
Proof. intros w. now apply (within_same w w); try apply tolerant_refl. Qed.

Lemma confined_bind {A B} (c : M A) (k : A -> M B) :
  cf c -> (forall a, cf (k a)) -> cf (bind c k).
Proof.
  intros Hc Hk w. unfold bind. specialize (Hc w).
  destruct (c w) as [a w'|rc w'|w'] eqn:E.
  - specialize (Hk a w').
    apply (within_trans w w' (Done a w') (k a w')); try easy.
    apply Hk.
  - exact Hc.
  - exact Hc.
Qed.

Lemma confined_get_device (r : device_ref) : cf (get_device r).
Proof. intros w. now apply (within_same w w); try apply tolerant_refl. Qed.

Lemma confined_get_metacash : cf get_metacash.
Proof. intros w. now apply (within_same w w); try apply tolerant_refl. Qed.

Lemma confined_get_receivedSignal : cf get_receivedSignal.
Proof. intros w. now apply (within_same w w); try apply tolerant_refl. Qed.

Lemma confined_set_receivedSignal (s : Z) : cf (set_receivedSignal s).
Proof.
  intros w. eapply within_same; try reflexivity; try easy.
  apply tolerant_refl.
Qed.

Lemma confined_event_base_loopexit : cf event_base_loopexit.
Proof.
  intros w. eapply within_same; try reflexivity; try easy.
  apply tolerant_refl.
Qed.

Lemma confined_undefined {A} : cf (@undefined A).
Proof. intros w. now apply (within_same w w); try apply tolerant_refl. Qed.

Lemma confined_die (reason : string) (rc : Z) : D rc -> cf (die reason rc).
Proof.
  intros H w. now apply (within_same w w); try apply tolerant_refl.
Qed.

Lemma confined_publish (topic : string) (m : message) :
  Q (topic, m) -> cf (publish topic m).
Proof.
  intros H w. repeat split; cbn.
  - exists []. now rewrite app_nil_r.
  - exists [(topic, m)]. split; [reflexivity|]. now constructor.
  - apply tolerant_refl.
Qed.

Lemma within_exchanged (w : World) (r : device_ref) (c : ssp_call) {A}
  (a : A) :
  P c -> wi w (Done a (exchanged w r c)).
Proof.
  intros H. repeat split; cbn.
  - eexists. split; [reflexivity|]. now constructor.
  - exists []. now rewrite app_nil_r.
  - destruct (sent (upcoming w)); [apply tolerant_sspC | apply tolerant_refl].
Qed.

Lemma confined_ssp6 (r : device_ref) (c : ssp_call) :
  P c -> cf (ssp6 r c).
Proof. intros H w. rewrite ssp6_eq. now apply within_exchanged. Qed.

Lemma confined_send_ssp_command (r : device_ref) :
  (forall data, P (SEND data)) -> cf (send_ssp_command r).
Proof.
  intros H w. rewrite send_ssp_command_eq. now apply within_exchanged.
Qed.

Lemma confined_set_CommandData (r : device_ref) (data : list Z) :
  cf (set_CommandData r data).
Proof.
  intros w. eapply within_same; try reflexivity; try easy.
  apply tolerant_sspC.
Qed.

Lemma confined_set_EncryptionStatus (r : device_ref)
  (e : encryption_status) :
  cf (set_EncryptionStatus r e).
Proof.
  intros w. eapply within_same; try reflexivity; try easy.
  apply tolerant_sspC.
Qed.

Lemma confined_mcSspSetupCommand (r : device_ref) (deviceId : Z) :
  cf (mcSspSetupCommand r deviceId).
Proof.
  intros w. eapply within_same; try reflexivity; try easy.
  apply tolerant_sspC.
Qed.

(** An assignment to a field of a device. *)
Lemma confined_assign (r : device_ref) (f : m_device -> m_device) :
  (forall m, R m (with_device m r (f (device_of m r)))) ->
  cf (d <- get_device r ;; put_device r (f d)).
Proof.
  intros H w. eapply within_same; try reflexivity; try easy; apply H.
Qed.

(** An assignment to a field of [m_metacash]. *)
Lemma confined_configure (f : m_metacash -> m_metacash) :
  (forall m, R m (f m)) ->
  cf (m <- get_metacash ;; put_metacash (f m)).
Proof.
  intros H w. eapply within_same; try reflexivity; try easy; apply H.
Qed.

Lemma confined_for_each {A} (l : list A) (f : A -> M unit) :
  (forall x, cf (f x)) -> cf (for_each l f).
Proof.
  intros H. induction l as [|x l IH]; cbn [for_each].
  - apply confined_ret.
  - apply confined_bind; [apply H | intros _; exact IH].
Qed.

Lemma confined_parseCmdLine (options : list getopt_return) :
  (forall m o m', parse_option m o = inl m' -> R m m') ->
  cf (parseCmdLine options).
Proof.
  intros H. induction options as [|o rest IH]; cbn [parseCmdLine].
  - apply confined_ret.
  - intros w. unfold bind at 1. unfold get_metacash.
    destruct (parse_option (metacash w) o) as [m'|rc] eqn:E.
    + apply (within_trans w (with_metacash w m') (Done tt (with_metacash w m'))
               _ eq_refl).
      * eapply within_same; try reflexivity; try easy. cbn. eauto.
      * unfold bind, put_metacash. apply IH.
      * unfold bind, put_metacash.
        specialize (IH (with_metacash w m')).
        destruct (parseCmdLine rest (with_metacash w m')); try easy.
        apply IH.
    + now apply (within_same w w); try apply tolerant_refl.
Qed.

Lemma confined_put_metacash (m' : m_metacash) :
  (forall m, R m m') -> cf (put_metacash m').
Proof.
  intros H w. eapply within_same; try reflexivity; try easy; apply H.
Qed.

(** The test of the exit flag after each event of the loop. *)
Lemma confined_unless_loopexit {A} (a : A) (c : M A) :
  cf c -> cf (fun w => if loopexit w then Done a w else c w).
Proof.
  intros H w. destruct (loopexit w); [|apply H].
  now apply (within_same w w); try apply tolerant_refl.
Qed.

Lemma confined_set_channelInhibits (r : device_ref) (v : Z) :
  (forall m, R m (with_device m r (with_channelInhibits (device_of m r) v))) ->
  cf (set_channelInhibits r v).
Proof. apply (confined_assign r (fun d => with_channelInhibits d v)). Qed.

Lemma confined_set_sspSetupReq (r : device_ref)
  (s : SSP6_SETUP_REQUEST_DATA) :
  (forall m, R m (with_device m r (with_sspSetupReq (device_of m r) s))) ->
  cf (set_sspSetupReq r s).
Proof. apply (confined_assign r (fun d => with_sspSetupReq d s)). Qed.

Lemma confined_set_sspDeviceAvailable (r : device_ref) (b : bool) :
  (forall m,
      R m (with_device m r (with_sspDeviceAvailable (device_of m r) b))) ->
  cf (set_sspDeviceAvailable r b).
Proof. apply (confined_assign r (fun d => with_sspDeviceAvailable d b)). Qed.

Lemma confined_set_evCheckQuit :
  (forall m m', hopper m' = hopper m -> validator m' = validator m ->
                sspAvailable m' = sspAvailable m -> R m m') ->
  cf set_evCheckQuit.
Proof.
  intros H.
  apply (confined_configure
           (fun m =>
              {| sspAvailable := sspAvailable m;
                 serialDevice := serialDevice m;
                 acceptCoins := acceptCoins m;
                 logSyslogStderr := logSyslogStderr m;
                 redisPort := redisPort m; redisHost := redisHost m;
                 evPoll := evPoll m; evCheckQuit := true;
                 hopper := hopper m; validator := validator m |})).
  intros m. now apply H.
Qed.

Lemma confined_set_evPoll :
  (forall m m', hopper m' = hopper m -> validator m' = validator m ->
                sspAvailable m' = sspAvailable m -> R m m') ->
  cf set_evPoll.
Proof.
  intros H.
  apply (confined_configure
           (fun m =>
              {| sspAvailable := sspAvailable m;
                 serialDevice := serialDevice m;
                 acceptCoins := acceptCoins m;
                 logSyslogStderr := logSyslogStderr m;
                 redisPort := redisPort m; redisHost := redisHost m;
                 evPoll := true; evCheckQuit := evCheckQuit m;
                 hopper := hopper m; validator := validator m |})).
  intros m. now apply H.
Qed.

End ConfinedFacts.

Ltac head_of t :=
  lazymatch t with
  | ?f _ => head_of f
  | _ => t
  end.

(** Walks through a computation and leaves the calls, the messages, the
    exit codes and the assignments it meets to [leaf]. *)
Ltac confine_step leaf :=
  lazymatch goal with
  | |- confined _ _ _ _ (ret _) => apply confined_ret
  | |- confined _ _ _ _ (bind _ _) => apply confined_bind; [ | intros ]
  | |- confined _ _ _ _ (get_device _) => apply confined_get_device
  | |- confined _ _ _ _ get_metacash => apply confined_get_metacash
  | |- confined _ _ _ _ get_receivedSignal =>
      apply confined_get_receivedSignal
  | |- confined _ _ _ _ (set_receivedSignal _) =>
      apply confined_set_receivedSignal
  | |- confined _ _ _ _ event_base_loopexit =>
      apply confined_event_base_loopexit
  | |- confined _ _ _ _ undefined => apply confined_undefined
  | |- confined _ _ _ _ (set_CommandData _ _) =>
      apply confined_set_CommandData
  | |- confined _ _ _ _ (set_EncryptionStatus _ _) =>
      apply confined_set_EncryptionStatus
  | |- confined _ _ _ _ (mcSspSetupCommand _ _) =>
      apply confined_mcSspSetupCommand
  | |- confined _ _ _ _ (die _ _) => apply confined_die; leaf
  | |- confined _ _ _ _ (publish _ _) => apply confined_publish; leaf
  | |- confined _ _ _ _ (ssp6 _ _) => apply confined_ssp6; leaf
  | |- confined _ _ _ _ (send_ssp_command _) =>
      apply confined_send_ssp_command; leaf
  | |- confined _ _ _ _ (set_channelInhibits _ _) =>
      apply confined_set_channelInhibits; leaf
  | |- confined _ _ _ _ (set_sspSetupReq _ _) =>
      apply confined_set_sspSetupReq; leaf
  | |- confined _ _ _ _ (set_sspDeviceAvailable _ _) =>
      apply confined_set_sspDeviceAvailable; leaf
  | |- confined _ _ _ _ set_evCheckQuit =>
      apply confined_set_evCheckQuit; leaf
  | |- confined _ _ _ _ set_evPoll => apply confined_set_evPoll; leaf
  | |- confined _ _ _ _ (for_each _ _) => apply confined_for_each; intros
  | |- confined _ _ _ _ (parseCmdLine _) =>
      apply confined_parseCmdLine; leaf
  | |- confined _ _ _ _ (put_metacash _) => apply confined_put_metacash; leaf
  | |- confined _ _ _ _ (if ?b then _ else _) => destruct b
  | |- confined _ _ _ _ (match ?x with _ => _ end) => destruct x
  | |- confined _ _ _ _ (let _ := _ in _) => cbv zeta
  | |- confined _ _ _ _ ?c => let h := head_of c in unfold h; cbv beta
  end.

Ltac confine leaf := repeat confine_step leaf.

Lemma confined_weaken {P P' : ssp_call -> Prop}
  {Q Q' : string * message -> Prop} {D D' : Z -> Prop}
  {R R' : m_metacash -> m_metacash -> Prop} {A} (c : M A) :
  (forall x, P x -> P' x) -> (forall x, Q x -> Q' x) ->
  (forall x, D x -> D' x) -> (forall m m', R m m' -> R' m m') ->
  confined P Q D R c -> confined P' Q' D' R' c.
Proof.
  intros HP HQ HD HR H w.
  destruct (H w) as ((l & Hl & Fl) & (p & Hp & Fp) & Hr & Hd).
  repeat split.
  - exists l. split; [assumption|]. eapply Forall_impl; [|exact Fl].
    intros x. apply HP.
  - exists p. split; [assumption|]. eapply Forall_impl; [|exact Fp]. exact HQ.
  - now apply HR.
  - destruct (c w); try exact I. now apply HD.
Qed.

(** ** What the request router is confined to *)

Ltac trivial_leaf :=
  first [reflexivity | exact I | intros; reflexivity | intros; exact I].


Section Router.

Context `{hdr : ssp_commands_h}.

(** Handling a request never starts a key negotiation and never ends the
    process. *)
Lemma request_without_negotiation (r : option redisReply) (uuid : string)
  (loaded : json_t + json_error_t) :
  confined (fun c => is_setup_encryption c = false) anything
    (fun _ => False) any_change (cbOnRequestMessage r uuid loaded).
Proof. unfold cbOnRequestMessage. confine trivial_leaf. Qed.


Lemma mcSspPollDevice_key_not_set (dev : device_ref) (w : World) :
  lib_return (upcoming w) = SSP_RESPONSE_KEY_NOT_SET ->
  mcSspPollDevice dev w
  = Done tt
      (negotiated (exchanged w dev POLL) dev
         (key (device_of (metacash w) dev))).
Proof.
  intros H. unfold mcSspPollDevice. exec. rewrite H. exec.
  rewrite exchanged_key. unfold negotiated.
  now destruct (is_OK (lib_return (upcoming (exchanged w dev POLL)))).
Qed.


End Router.

(** ** Exit codes *)

Lemma parse_option_known (m : m_metacash) (o : getopt_return) :
  if known_option o
  then exists m', parse_option m o = inl m'
  else parse_option m o = inr 1.
Proof.
  unfold known_option, parse_option.
  destruct (optc o) as [[] [] [] [] [] [] [] []]; cbn;
    first [reflexivity | eexists; reflexivity].
Qed.

(** [parseCmdLine] returns 0 when every option is known and 1 otherwise. *)
Lemma parseCmdLine_returns (options : list getopt_return) (w : World) :
  exists w',
    parseCmdLine options w
    = Done (if forallb known_option options then 0 else 1) w' /\
    wire w' = wire w /\ published w' = published w /\
    answers w' = answers w.
Proof.
  revert w. induction options as [|o rest IH]; intros w; cbn.
  - now exists w.
  - unfold bind at 1. unfold get_metacash.
    pose proof (parse_option_known (metacash w) o) as H.
    destruct (known_option o); cbn.
    + destruct H as [m' ->]. unfold bind, put_metacash.
      destruct (IH (with_metacash w m')) as (w' & E & Hw & Hp & Ha).
      exists w'. now rewrite E.
    + rewrite H. now exists w.
Qed.

Lemma setup_without_redis (p s : redis_context) (w : World) :
  is_NULL p || is_NULL s = true -> setup p s w = Died 1 w.
Proof.
  intros H. unfold setup. apply bind_Died.
  destruct (is_NULL p), (is_NULL s); try discriminate; reflexivity.
Qed.

Lemma startup_with_unknown_option (env : environment) :
  forallb known_option (options env) = false ->
  exists w, startup env (initial_world env) = Died 1 w.
Proof.
  intros H. unfold startup.
  destruct (parseCmdLine_returns (options env) (initial_world env))
    as (w' & E & _).
  rewrite H in E. rewrite (bind_Done _ _ _ _ _ E). cbn [Z.eqb negb].
  exists w'. now apply bind_Died.
Qed.

Lemma startup_without_redis (env : environment) :
  forallb known_option (options env) = true ->
  allocation_failed env = true ->
  exists w, startup env (initial_world env) = Died 1 w.
Proof.
  intros H Hnull. unfold startup.
  destruct (parseCmdLine_returns (options env) (initial_world env))
    as (w' & E & _).
  rewrite H in E. rewrite (bind_Done _ _ _ _ _ E). cbn [Z.eqb negb].
  rewrite (bind_Done _ _ _ w' tt eq_refl).
  destruct (mcSspOpenSerialDevice (serial env) =? 0).
  - erewrite bind_Done by reflexivity. eexists. apply bind_Died.
    now apply setup_without_redis.
  - erewrite bind_Done by reflexivity. eexists. apply bind_Died.
    now apply setup_without_redis.
Qed.

Section Exit.

Context `{hdr : ssp_commands_h}.

Lemma poll_confined :
  confined (fun c => is_set_inhibits c = false) anything (fun rc => rc = 3)
    same_inhibits cbOnPollEvent.
Proof. confine trivial_leaf. Qed.

Lemma deliver_exit_codes (e : loop_event) :
  confined anything anything (fun rc => rc = 3) any_change (deliver e).
Proof.
  destruct e as [number| | |r uuid loaded]; cbn [deliver].
  - confine trivial_leaf.
  - apply confined_bind; [apply confined_get_metacash|]. intros m.
    destruct (evPoll m); [|apply confined_ret].
    eapply confined_weaken; [| | | |apply poll_confined]; easy.
  - confine trivial_leaf.
  - eapply confined_weaken; [| | | |apply request_without_negotiation];
      easy.
Qed.

Lemma event_base_dispatch_exit_codes (es : list loop_event) :
  confined anything anything (fun rc => rc = 3) any_change
    (event_base_dispatch es).
Proof.
  induction es as [|e rest IH]; cbn [event_base_dispatch].
  - apply confined_ret.
  - apply confined_bind; [apply deliver_exit_codes|]. intros _.
    now apply confined_unless_loopexit.
Qed.

Lemma startup_exit_codes (env : environment) :
  confined anything anything (fun rc => rc = 1) any_change (startup env).
Proof. unfold startup. confine trivial_leaf. Qed.

Lemma main_body_confined (env : environment) :
  confined anything anything (fun rc => rc = 1 \/ rc = 3) any_change
    (main_body env).
Proof.
  unfold main_body.
  apply confined_bind.
  - eapply confined_weaken; [| | | |apply startup_exit_codes]; try easy.
    intros rc ->. now left.
  - intros _. apply confined_bind.
    + eapply confined_weaken; [| | | |apply event_base_dispatch_exit_codes];
        try easy.
      intros rc ->. now right.
    + intros exited. confine trivial_leaf.
Qed.

Lemma main_body_returns (env : environment) (w w' : World) (v : option Z) :
  main_body env w = Done v w' -> v = Some 0 \/ v = None.
Proof.
  unfold main_body, bind.
  destruct (startup env w) as [[] w1| |]; try discriminate.
  destruct (event_base_dispatch (loop_events env) w1) as [[] w2| |];
    try discriminate; cbn; intros [= <- _]; auto.
Qed.

Lemma reset_is_fatal_without_protocol (dev : device_ref) (e : poll_event)
  (w : World) :
  event e = SSP_POLL_RESET ->
  lib_return (upcoming w) <> SSP_RESPONSE_OK ->
  validatorEvent dev e w
  = Died 3 (exchanged (told w "validator-event" [("event", FStr "unit reset")])
              dev (HOST_PROTOCOL_VERSION 6)) /\
  hopperEvent dev e w
  = Died 3 (exchanged (told w "hopper-event" [("event", FStr "unit reset")])
              dev (HOST_PROTOCOL_VERSION 6)).
Proof.
  intros He Hr. unfold validatorEvent, hopperEvent. rewrite He. exec.
  change (upcoming (told w "validator-event" [("event", FStr "unit reset")]))
    with (upcoming w).
  change (upcoming (told w "hopper-event" [("event", FStr "unit reset")]))
    with (upcoming w).
  destruct (lib_return (upcoming w)); try (now elim Hr); split; reflexivity.
Qed.

(** C9, amended.  The process exits with code 0 on normal shutdown (when
    [main] returns after the event loop has been told to exit), with code 1
    on an argument error or when a redis context cannot be allocated, and
    with code 3 when re-pinning protocol version 6 fails after a reset
    event; there is no other exit code. *)
Theorem exit_codes :
  (forall env,
      forallb known_option (options env) = false -> main env = exit_code 1)
  /\
  (forall env,
      forallb known_option (options env) = true ->
      allocation_failed env = true -> main env = exit_code 1)
  /\
  (forall dev e w,
      event e = SSP_POLL_RESET ->
      lib_return (upcoming w) <> SSP_RESPONSE_OK ->
      (exists w', validatorEvent dev e w = Died 3 w') /\
      (exists w', hopperEvent dev e w = Died 3 w'))
  /\
  (forall env rc, main env = exit_code rc -> rc = 0 \/ rc = 1 \/ rc = 3)
  /\
  (forall env,
      main env = exit_code 0 <->
      exists w, main_body env (initial_world env) = Done (Some 0) w).
Proof.
  split; [|split; [|split; [|split]]].
  - intros env H. unfold main, main_body.
    destruct (startup_with_unknown_option env H) as [w E].
    now rewrite (bind_Died _ _ _ _ _ E).
  - intros env H Hnull. unfold main, main_body.
    destruct (startup_without_redis env H Hnull) as [w E].
    now rewrite (bind_Died _ _ _ _ _ E).
  - intros dev e w He Hr.
    destruct (reset_is_fatal_without_protocol dev e w He Hr) as [-> ->].
    split; eexists; reflexivity.
  - intros env rc. unfold main.
    pose proof (main_body_confined env (initial_world env)) as (_ & _ & _ & H).
    destruct (main_body env (initial_world env)) as [[v|] w| |] eqn:E;
      try discriminate.
    + intros [= ->].
      destruct (main_body_returns _ _ _ _ E) as [[= ->]|]; [auto|discriminate].
    + intros [= ->]. destruct H; auto.
  - intros env. unfold main.
    pose proof (main_body_confined env (initial_world env)) as (_ & _ & _ & H).
    destruct (main_body env (initial_world env)) as [[v|] w| |] eqn:E.
    + split.
      * intros [= ->]. now exists w.
      * intros (w0 & [= -> _]). reflexivity.
    + split; [discriminate|]. intros (w0 & [=]).
    + split.
      * intros [= ->]. destruct H; discriminate.
      * intros (w0 & [=]).
    + split; [discriminate|]. intros (w0 & [=]).
Qed.

End Exit.

(** ** The stored inhibit mask *)






(** *** Rules for triples *)



Lemma triple_weaken {A} (Pre Pre' Post Post' : World -> Prop) (c : M A) :
  (forall w, Pre' w -> Pre w) -> (forall w, Post w -> Post' w) ->
  triple Pre c Post -> triple Pre' c Post'.
Proof.
  intros H1 H2 H w HPre. specialize (H w (H1 w HPre)).
  destruct (c w); auto.
Qed.



(** *** Writing the mask *)

Lemma same_device_refl (r : device_ref) : same_device r r = true.
Proof. now destruct r. Qed.







Section Inhibits.

Context `{hdr : ssp_commands_h}.



End Inhibits.


Section Recorded.

Context `{hdr : ssp_commands_h}.



End Recorded.

(** *** From the start of the process *)






Section Reachable.

Context `{hdr : ssp_commands_h}.





End Reachable.

(** * Further properties of the daemon *)

Lemma bind_Undefined {A B} (c : M A) (k : A -> M B) (w w' : World) :
  c w = Undefined w' -> bind c k w = Undefined w'.
Proof. unfold bind. now intros ->. Qed.

(** ** Rules for steps *)

#[local] Instance preorder_keeps {X} (f : World -> X) : preorder (keeps f).
Proof.
  split; unfold keeps.
  - reflexivity.
  - intros w1 w2 w3 H12 H23. now rewrite H23.
Qed.

#[local] Instance preorder_grows {X} (log : World -> list X) (P : X -> Prop) :
  preorder (grows log P).
Proof.
  split; unfold grows.
  - intros w. exists []. now rewrite app_nil_r.
  - intros w1 w2 w3 (l1 & H1 & F1) (l2 & H2 & F2).
    exists (l1 ++ l2). rewrite H2, H1, app_assoc. split; [reflexivity|].
    apply Forall_app. now split.
Qed.

#[local] Instance preorder_both (T1 T2 : World -> World -> Prop)
  `{!preorder T1} `{!preorder T2} : preorder (both T1 T2).
Proof.
  split; unfold both.
  - intros w. split; apply preorder_refl.
  - intros w1 w2 w3 [H1 H2] [H3 H4].
    split; eapply preorder_trans; eassumption.
Qed.

Lemma grows_same {X} (log : World -> list X) (P : X -> Prop) (w w' : World) :
  log w' = log w -> grows log P w w'.
Proof. intros H. exists []. now rewrite app_nil_r. Qed.

Lemma grows_one {X} (log : World -> list X) (P : X -> Prop) (w w' : World)
  (x : X) :
  log w' = log w ++ [x] -> P x -> grows log P w w'.
Proof. intros H Hx. exists [x]. split; [assumption|]. now constructor. Qed.

Section StepsFacts.

Context {total : bool} {T : World -> World -> Prop} `{!preorder T}.

Lemma steps_ret {A} (a : A) : steps total T (ret a).
Proof. intros w. split; [apply preorder_refl | reflexivity]. Qed.

Lemma steps_bind {A B} (c : M A) (k : A -> M B) :
  steps total T c -> (forall a, steps total T (k a)) ->
  steps total T (bind c k).
Proof.
  intros Hc Hk w. unfold bind. destruct (Hc w) as [HT Hr].
  destruct (c w) as [a w'|rc w'|w'].
  - destruct (Hk a w') as [HT' Hr']. split; [|assumption].
    eapply preorder_trans; eassumption.
  - now split.
  - now split.
Qed.

(** A computation that returns after it has changed the world by [f]. *)
Lemma steps_update {A} (c : M A) (a : World -> A) (f : World -> World) :
  (forall w, c w = Done (a w) (f w)) -> (forall w, T w (f w)) ->
  steps total T c.
Proof. intros E H w. rewrite E. split; [apply H | reflexivity]. Qed.

Lemma steps_get_device (r : device_ref) : steps total T (get_device r).
Proof. intros w. split; [apply preorder_refl | reflexivity]. Qed.

Lemma steps_get_metacash : steps total T get_metacash.
Proof. intros w. split; [apply preorder_refl | reflexivity]. Qed.

Lemma steps_get_receivedSignal : steps total T get_receivedSignal.
Proof. intros w. split; [apply preorder_refl | reflexivity]. Qed.

Lemma steps_publish (topic : string) (m : message) :
  (forall w, T w (told w topic m)) -> steps total T (publish topic m).
Proof. apply (steps_update _ (fun _ => tt)). reflexivity. Qed.

Lemma steps_ssp6 (r : device_ref) (c : ssp_call) :
  (forall w, T w (exchanged w r c)) -> steps total T (ssp6 r c).
Proof. apply (steps_update _ upcoming). apply ssp6_eq. Qed.

Lemma steps_send_ssp_command (r : device_ref) :
  (forall w,
      T w (exchanged w r
             (SEND (CommandData (sspC (device_of (metacash w) r)))))) ->
  steps total T (send_ssp_command r).
Proof.
  apply (steps_update _ (fun w => sent (upcoming w))).
  apply send_ssp_command_eq.
Qed.

Lemma steps_set_CommandData (r : device_ref) (data : list Z) :
  (forall w, T w (commanded w r data)) ->
  steps total T (set_CommandData r data).
Proof. apply (steps_update _ (fun _ => tt)). reflexivity. Qed.

Lemma steps_set_channelInhibits (r : device_ref) (v : Z) :
  (forall w, T w (inhibited w r v)) ->
  steps total T (set_channelInhibits r v).
Proof. apply (steps_update _ (fun _ => tt)). reflexivity. Qed.

Lemma steps_for_each {A} (l : list A) (f : A -> M unit) :
  (forall x, steps total T (f x)) -> steps total T (for_each l f).
Proof.
  intros H. induction l as [|x l IH]; cbn [for_each].
  - apply steps_ret.
  - apply steps_bind; [apply H | intros _; exact IH].
Qed.

Lemma steps_unless_loopexit {A} (a : A) (c : M A) :
  steps total T c ->
  steps total T (fun w => if loopexit w then Done a w else c w).
Proof.
  intros H w. destruct (loopexit w); [|apply H].
  split; [apply preorder_refl | reflexivity].
Qed.

Lemma steps_parseCmdLine (options : list getopt_return) :
  (forall w m o m', parse_option m o = inl m' -> metacash w = m ->
                    T w (with_metacash w m')) ->
  steps total T (parseCmdLine options).
Proof.
  intros H. induction options as [|o rest IH]; cbn [parseCmdLine].
  - apply steps_ret.
  - intros w. rewrite (bind_Done get_metacash _ w w (metacash w) eq_refl).
    destruct (parse_option (metacash w) o) as [m'|rc] eqn:E.
    + rewrite (bind_Done (put_metacash m') _ w (with_metacash w m') tt
                 eq_refl).
      destruct (IH (with_metacash w m')) as [HT Hr].
      split; [|assumption].
      eapply preorder_trans; [|exact HT].
      exact (H w (metacash w) o m' E eq_refl).
    + split; [apply preorder_refl | reflexivity].
Qed.

End StepsFacts.

Lemma steps_die {T : World -> World -> Prop} `{!preorder T} (reason : string)
  (rc : Z) : steps false T (die reason rc).
Proof. intros w. split; [apply preorder_refl | discriminate]. Qed.

Lemma steps_undefined {T : World -> World -> Prop} `{!preorder T} {A} :
  steps false T (@undefined A).
Proof. intros w. split; [apply preorder_refl | discriminate]. Qed.

(** Walks through a computation and leaves to [leaf] what each exchange,
    message and assignment on the way does to the world. *)
Ltac walk_step leaf :=
  lazymatch goal with
  | |- steps _ _ (ret _) => apply steps_ret
  | |- steps _ _ (bind get_metacash (fun m => put_metacash _)) =>
      eapply (steps_update _ (fun _ => tt)); [intros; reflexivity | leaf]
  | |- steps _ _ (bind _ _) => apply steps_bind; [ | intros ]
  | |- steps _ _ (get_device _) => apply steps_get_device
  | |- steps _ _ get_metacash => apply steps_get_metacash
  | |- steps _ _ get_receivedSignal => apply steps_get_receivedSignal
  | |- steps _ _ (publish _ _) => apply steps_publish; leaf
  | |- steps _ _ (ssp6 _ _) => apply steps_ssp6; leaf
  | |- steps _ _ (send_ssp_command _) => apply steps_send_ssp_command; leaf
  | |- steps _ _ (set_CommandData _ _) => apply steps_set_CommandData; leaf
  | |- steps _ _ (set_channelInhibits _ _) =>
      apply steps_set_channelInhibits; leaf
  | |- steps _ _ (set_receivedSignal _) =>
      eapply (steps_update _ (fun _ => tt)); [intros; reflexivity | leaf]
  | |- steps _ _ event_base_loopexit =>
      eapply (steps_update _ (fun _ => tt)); [intros; reflexivity | leaf]
  | |- steps _ _ (set_sspSetupReq _ _) =>
      eapply (steps_update _ (fun _ => tt)); [intros; reflexivity | leaf]
  | |- steps _ _ (set_sspDeviceAvailable _ _) =>
      eapply (steps_update _ (fun _ => tt)); [intros; reflexivity | leaf]
  | |- steps _ _ (set_EncryptionStatus _ _) =>
      eapply (steps_update _ (fun _ => tt)); [intros; reflexivity | leaf]
  | |- steps _ _ (mcSspSetupCommand _ _) =>
      eapply (steps_update _ (fun _ => tt)); [intros; reflexivity | leaf]
  | |- steps _ _ set_evCheckQuit =>
      eapply (steps_update _ (fun _ => tt)); [intros; reflexivity | leaf]
  | |- steps _ _ set_evPoll =>
      eapply (steps_update _ (fun _ => tt)); [intros; reflexivity | leaf]
  | |- steps _ _ (put_metacash _) =>
      eapply (steps_update _ (fun _ => tt)); [intros; reflexivity | leaf]
  | |- steps _ _ (die _ _) => apply steps_die
  | |- steps _ _ undefined => apply steps_undefined
  | |- steps _ _ (for_each _ _) => apply steps_for_each; intros
  | |- steps _ _ (parseCmdLine _) => apply steps_parseCmdLine; leaf
  | |- steps _ _ (if false then _ else _) => cbv iota
  | |- steps _ _ (if true then _ else _) => cbv iota
  | |- steps _ _ (if ?b then _ else _) => destruct b
  | |- steps _ _ (match ?x with _ => _ end) => destruct x
  | |- steps _ _ (let _ := _ in _) => cbv zeta
  | |- steps _ _ ?c => let h := head_of c in unfold h; cbv beta
  end.

Ltac walk leaf := repeat walk_step leaf.

(** ** Rules for single replies *)

Lemma once_publish (Q : string * message -> Prop) (topic : string)
  (m : message) : Q (topic, m) -> once Q (publish topic m).
Proof. intros H w. now exists tt, (told w topic m), (topic, m). Qed.

Lemma once_bind (Q : string * message -> Prop) {A B} (c : M A)
  (k : A -> M B) :
  steps true (keeps published) c -> (forall a, once Q (k a)) ->
  once Q (bind c k).
Proof.
  intros Hc Hk w. unfold bind. destruct (Hc w) as [HT Hr].
  specialize (Hr eq_refl).
  destruct (c w) as [a w'|rc w'|w']; try discriminate.
  destruct (Hk a w') as (b & w'' & tm & E & Hp & HQ).
  exists b, w'', tm. cbn [world_of] in HT. unfold keeps in HT.
  now rewrite <- HT.
Qed.

Ltac quiet_leaf := intros; reflexivity.

Ltac once_step leaf :=
  lazymatch goal with
  | |- once _ (publish _ _) => apply once_publish; leaf
  | |- once _ (bind _ _) =>
      apply once_bind; [walk quiet_leaf | intros]
  | |- once _ (if ?b then _ else _) => destruct b
  | |- once _ (match ?x with _ => _ end) => destruct x
  | |- once _ (let _ := _ in _) => cbv zeta
  | |- once _ ?c => let h := head_of c in unfold h; cbv beta
  end.

Ltac once_walk leaf := repeat once_step leaf.

(** ** The request router *)

Ltac grows_leaf :=
  first [ apply grows_same; reflexivity
        | eapply grows_one; [reflexivity | cbn; reflexivity] ].

Ltac keeps_leaf :=
  unfold keeps, commanded, inhibited, exchanged, told, with_metacash,
    with_device; cbn;
  repeat (match goal with
          | |- context [if ?b then _ else _] => destruct b
          | |- context [match ?x with the_hopper => _ | the_validator => _ end]
            => destruct x
          end; cbn);
  reflexivity.

Ltac isolated_leaf :=
  intros; cbv beta; unfold both; repeat split;
  first [grows_leaf | keeps_leaf].

Section RouterFacts.

Context `{hdr : ssp_commands_h}.

(** X1.  [cbOnRequestMessage] drops what is not a request: a NULL reply, a
    reply that is not an array of three elements, the confirmation of a
    subscription, a message on a topic other than [validator-request] and
    [hopper-request].  Nothing is published, nothing is sent to a device,
    no record changes. *)
Theorem other_messages_are_dropped (r : option redisReply) (uuid : string)
  (loaded : json_t + json_error_t) (w : World) :
  accepted r = false -> cbOnRequestMessage r uuid loaded w = Done tt w.
Proof.
  unfold accepted, request_topic, cbOnRequestMessage.
  destruct r as [[[] [|kind [|topic [|payload [|]]]]]|]; cbn [type element];
    try reflexivity.
  destruct (String.eqb kind "subscribe"); cbn [negb andb]; [reflexivity|].
  destruct (String.eqb topic "validator-request"); cbn [orb];
    [discriminate|].
  destruct (String.eqb topic "hopper-request"); [discriminate|].
  reflexivity.
Qed.

Lemma request_isolated (kind topic payload uuid rt : string)
  (loaded : json_t + json_error_t) (r : device_ref) :
  routed topic r rt ->
  steps true
    (both (grows wire (fun x => peer x = r))
       (both (grows published (fun tm => fst tm = rt))
          (keeps (fun w => device_of (metacash w) (other_device r)))))
    (cbOnRequestMessage (delivery kind topic payload) uuid loaded).
Proof.
  intros [(-> & -> & ->)|(-> & -> & ->)];
    unfold cbOnRequestMessage, delivery; cbn [type element];
    (destruct (String.eqb kind "subscribe"); [apply steps_ret|]);
    cbn [String.eqb Ascii.eqb Bool.eqb]; cbv zeta;
    walk isolated_leaf.
Qed.

(** X2.  A request on [validator-request] stays with the validator: the
    handler returns, every exchange it makes is with the validator, every
    message it publishes goes to [validator-response], and the record of
    the hopper is left as it was.  The same holds for [hopper-request],
    the hopper and [hopper-response]. *)
Theorem request_stays_with_its_device (kind topic payload uuid rt : string)
  (loaded : json_t + json_error_t) (r : device_ref) (w : World) :
  routed topic r rt ->
  exists w',
    cbOnRequestMessage (delivery kind topic payload) uuid loaded w
    = Done tt w' /\
    (exists l, wire w' = wire w ++ l /\ Forall (fun x => peer x = r) l) /\
    (exists l, published w' = published w ++ l
               /\ Forall (fun tm => fst tm = rt) l) /\
    device_of (metacash w') (other_device r)
    = device_of (metacash w) (other_device r).
Proof.
  intros H.
  destruct (request_isolated kind topic payload uuid rt loaded r H w)
    as [(Hw & Hp & Hk) Hr].
  specialize (Hr eq_refl).
  destruct (cbOnRequestMessage _ uuid loaded w) as [[] w'| |];
    try discriminate.
  exists w'. split; [reflexivity|]. cbn [world_of] in *. now repeat split.
Qed.

Ltac once_leaf := cbn; reflexivity.

(** The command is not the one that stays without a reply. *)
Ltac not_security :=
  repeat match goal with
         | E : (_ || _)%bool = true |- _ =>
             apply orb_prop in E; destruct E as [E|E]
         | E : String.eqb ?c _ = true |- _ =>
             apply String.eqb_eq in E; subst c
         end;
  reflexivity.

Lemma handlers_reply_once (cmd : m_command) :
  let Q := fun tm : string * message => fst tm = responseTopic cmd in
  once Q (handleQuit cmd) /\ once Q (handleTest cmd) /\
  once Q (handleConfigureBezel cmd) /\ once Q (handleEmpty cmd) /\
  once Q (handleSmartEmpty cmd) /\
  once Q (handleCashboxPayoutOperationData cmd) /\
  once Q (handleSetCashboxPayoutLimit cmd) /\ once Q (handleEnable cmd) /\
  once Q (handleDisable cmd) /\ once Q (handleEnableChannels cmd) /\
  once Q (handleDisableChannels cmd) /\ once Q (handleInhibitChannels cmd) /\
  once Q (handleFloat cmd) /\ once Q (handlePayout cmd) /\
  once Q (handleGetFirmwareVersion cmd) /\
  once Q (handleGetDatasetVersion cmd) /\ once Q (handleGetAllLevels cmd) /\
  once Q (handleSetDenominationLevels cmd) /\
  once Q (handleLastRejectNote cmd).
Proof. intros Q. subst Q. repeat split; once_walk once_leaf. Qed.

(** X3.  Every request is answered exactly once, on the response topic of
    the device it was sent to, whether it parses or not, whatever the
    command and whatever the device answers; the one exception is the
    request that is handed to [handleChannelSecurityData], for which
    nothing is published. *)
Theorem request_answered_once (kind topic payload uuid rt : string)
  (loaded : json_t + json_error_t) (r : device_ref) (w : World) :
  routed topic r rt -> kind <> "subscribe" ->
  exists w',
    cbOnRequestMessage (delivery kind topic payload) uuid loaded w
    = Done tt w' /\
    if unanswered loaded w then published w' = published w
    else exists m, published w' = published w ++ [(rt, m)].
Proof.
  intros Hroute Hkind. apply String.eqb_neq in Hkind.
  assert (Hone :
    forall c : M unit,
      once (fun tm => fst tm = rt) c ->
      unanswered loaded w = false ->
      exists w', c w = Done tt w' /\
        if unanswered loaded w then published w' = published w
        else exists m, published w' = published w ++ [(rt, m)]).
  { intros c Hc Hu. destruct (Hc w) as ([] & w' & [t m] & E & Hp & HQ).
    cbn in HQ. subst t. exists w'. split; [assumption|]. rewrite Hu.
    now exists m. }
  unfold cbOnRequestMessage, delivery; cbn [type element]. rewrite Hkind.
  destruct Hroute as [(-> & -> & ->)|(-> & -> & ->)];
    cbn [String.eqb Ascii.eqb Bool.eqb]; cbv zeta.
  all: destruct loaded as [json|error];
    [|apply Hone; [once_walk once_leaf | reflexivity]].
  all: unfold unanswered, member_string in *.
  all: destruct (json_object_get json "msgId") as [[]|];
    cbn [json_is_string json_string_value negb];
    try (apply Hone; [once_walk once_leaf | reflexivity]).
  all: destruct (json_object_get json "cmd") as [[]|];
    cbn [json_is_string json_string_value negb];
    try (apply Hone; [once_walk once_leaf | reflexivity]).
  all: unfold isCommand; cbn [command json_string_value] in *.
  all: match goal with
       | |- context [handleQuit ?cmd] =>
           pose proof (handlers_reply_once cmd) as Hh; cbn zeta in Hh;
           cbn [responseTopic] in Hh; decompose [and] Hh; clear Hh
       end.
  all: repeat lazymatch goal with
       | |- exists w', bind get_metacash _ ?w0 = _ /\ _ =>
           rewrite (bind_Done get_metacash _ w0 w0 (metacash w0) eq_refl);
           destruct (sspAvailable (metacash w0)) eqn:Hav; cbn [negb];
           [|apply Hone;
             [once_walk once_leaf | now rewrite andb_false_r]]
       | |- exists w', (if ?b then _ else _) _ = _ /\ _ =>
           destruct b eqn:?;
           [try (apply Hone; [assumption | not_security]) | ]
       end.
  all: cbn [andb] in Hone |- *.
  all: first
         [ apply Hone; [once_walk once_leaf | reflexivity]
         | unfold handleChannelSecurityData; exec; eexists;
           split; reflexivity ].
Qed.

(** Brings a request with the members [msgId] and [cmd] to the chain of
    tests on the command. *)
Ltac enter_router Hroute Hkind Hmsg Hcmd :=
  apply String.eqb_neq in Hkind;
  unfold cbOnRequestMessage, delivery; cbn [type element]; rewrite Hkind;
  destruct Hroute as [(-> & -> & ->)|(-> & -> & ->)];
  cbn [String.eqb Ascii.eqb Bool.eqb]; cbv zeta;
  rewrite Hmsg, Hcmd; cbn [json_is_string json_string_value negb];
  unfold isCommand; cbn [command].

Ltac pass_hardware_test Hav :=
  match goal with
  | |- context [bind get_metacash ?k ?w0] =>
      rewrite (bind_Done get_metacash k w0 w0 (metacash w0) eq_refl);
      rewrite Hav; cbn [negb]
  end.

(** X4.  [test] and [quit] are answered with [result: ok] whether there
    is hardware or not, [quit] after it has set [receivedSignal] to 1.
    Every other command, known or not, is rejected with
    [error: hardware unavailable] while the serial port is not open, and
    nothing is sent to a device. *)
Theorem requests_without_hardware (kind topic payload uuid rt m c : string)
  (json : json_t) (r : device_ref) (w : World) :
  routed topic r rt -> kind <> "subscribe" ->
  json_object_get json "msgId" = Some (json_string m) ->
  json_object_get json "cmd" = Some (json_string c) ->
  sspAvailable (metacash w) = false ->
  cbOnRequestMessage (delivery kind topic payload) uuid (inl json) w
  = Done tt
      (if String.eqb c "quit" then told (signalled w 1) rt (ok_reply uuid m)
       else if String.eqb c "test" then told w rt (ok_reply uuid m)
       else told w rt [("correlId", FStr m);
                       ("error", FStr "hardware unavailable")]).
Proof.
  intros Hroute Hkind Hmsg Hcmd Hav.
  enter_router Hroute Hkind Hmsg Hcmd.
  all: destruct (String.eqb c "quit"); [reflexivity|].
  all: destruct (String.eqb c "test"); [reflexivity|].
  all: now pass_hardware_test Hav.
Qed.

(** [quit] with or without hardware. *)
Lemma quit_request (kind topic payload uuid rt m : string) (json : json_t)
  (r : device_ref) (w : World) :
  routed topic r rt -> kind <> "subscribe" ->
  json_object_get json "msgId" = Some (json_string m) ->
  json_object_get json "cmd" = Some (json_string "quit") ->
  cbOnRequestMessage (delivery kind topic payload) uuid (inl json) w
  = Done tt (told (signalled w 1) rt (ok_reply uuid m)).
Proof.
  intros Hroute Hkind Hmsg Hcmd.
  enter_router Hroute Hkind Hmsg Hcmd; reflexivity.
Qed.

(** X5.  With the hardware available, a command that has no handler is
    answered with [error: unknown command] and the command's name; nothing
    is sent to a device. *)
Theorem unknown_command (kind topic payload uuid rt m c : string)
  (json : json_t) (r : device_ref) (w : World) :
  routed topic r rt -> kind <> "subscribe" ->
  json_object_get json "msgId" = Some (json_string m) ->
  json_object_get json "cmd" = Some (json_string c) ->
  sspAvailable (metacash w) = true ->
  ~ In c commands ->
  cbOnRequestMessage (delivery kind topic payload) uuid (inl json) w
  = Done tt (told w rt [("correlId", FStr m);
                        ("error", FStr "unknown command");
                        ("cmd", FStr c)]).
Proof.
  intros Hroute Hkind Hmsg Hcmd Hav Hnew.
  assert (Hne : forall n, In n commands -> String.eqb c n = false).
  { intros n Hn. apply String.eqb_neq. intros ->. now apply Hnew. }
  enter_router Hroute Hkind Hmsg Hcmd.
  all: repeat match goal with
       | |- context [String.eqb _ ?n] =>
           rewrite (Hne n)
             by (unfold commands;
                 repeat first [left; reflexivity | right])
       end.
  all: cbn [orb]; now pass_hardware_test Hav.
Qed.

(** X6.  A handler tests the properties it needs before it talks to the
    device.  When the request lacks one of them, or has it with the wrong
    type, the reply is the property error for the first such property in
    the order of the tests, and nothing is sent to the device. *)
Theorem missing_property (kind topic payload uuid rt m c p : string)
  (json : json_t) (r : device_ref) (w : World) :
  routed topic r rt -> kind <> "subscribe" ->
  json_object_get json "msgId" = Some (json_string m) ->
  json_object_get json "cmd" = Some (json_string c) ->
  sspAvailable (metacash w) = true ->
  first_missing json (required c) = Some p ->
  cbOnRequestMessage (delivery kind topic payload) uuid (inl json) w
  = Done tt (told w rt (property_error uuid m p)).
Proof.
  intros Hroute Hkind Hmsg Hcmd Hav Hmiss.
  enter_router Hroute Hkind Hmsg Hcmd.
  all: unfold required in Hmiss.
  all: repeat match type of Hmiss with
       | context [String.eqb ?x ?n] =>
           let E := fresh "E" in
           destruct (String.eqb x n) eqn:E;
           [apply String.eqb_eq in E; subst x|]
       end; cbn [orb] in Hmiss; try discriminate Hmiss.
  all: cbn [String.eqb Ascii.eqb Bool.eqb orb]; pass_hardware_test Hav.
  all: cbn [first_missing has_property fst snd] in Hmiss.
  all: unfold handleConfigureBezel, handleSetCashboxPayoutLimit,
         handleSetDenominationLevels, handleEnableChannels,
         handleDisableChannels, handleInhibitChannels, handleFloat,
         handlePayout; cbn [jsonMessage]; cbv zeta.
  all: repeat match type of Hmiss with
       | context [json_is_integer ?j] =>
           let E := fresh "E" in
           destruct (json_is_integer j) eqn:E; cbn [negb]
       | context [json_is_string ?j] =>
           let E := fresh "E" in
           destruct (json_is_string j) eqn:E; cbn [negb]
       end; try discriminate Hmiss.
  all: injection Hmiss as <-.
  all: try reflexivity.
  all: match goal with
       | E : json_is_string ?j = false |- _ =>
           destruct j as [[]|]; try discriminate E; reflexivity
       end.
Qed.

End RouterFacts.

(** ** From startup to shutdown *)

Ltac kept := intros; cbv beta; keeps_leaf.

Ltac offline_leaf :=
  intros; cbv beta; intros Hav; split; [exact Hav | reflexivity].

#[local] Instance preorder_keeps_check_quit : preorder keeps_check_quit.
Proof. split; unfold keeps_check_quit; auto. Qed.

Ltac check_quit_leaf :=
  intros; cbv beta; unfold keeps_check_quit, commanded, inhibited, exchanged,
    told, with_metacash, with_device; cbn;
  repeat (match goal with
          | |- context [if ?b then _ else _] => destruct b
          | |- context [match ?x with the_hopper => _ | the_validator => _ end]
            => destruct x
          end; cbn);
  auto.

Ltac running_leaf :=
  intros; cbv beta; intros Hs; split;
  [first [exact Hs | reflexivity] | reflexivity].

#[local] Instance preorder_stays_running : preorder stays_running.
Proof.
  split; unfold stays_running.
  - now intros w H.
  - intros w1 w2 w3 H12 H23 H. destruct (H12 H) as [H2 L2].
    destruct (H23 H2) as [H3 L3]. split; [assumption|]. now rewrite L3.
Qed.

#[local] Instance preorder_stays_offline : preorder stays_offline.
Proof.
  split; unfold stays_offline.
  - now intros w H.
  - intros w1 w2 w3 H12 H23 H. destruct (H12 H) as [H2 L2].
    destruct (H23 H2) as [H3 L3]. split; [assumption|]. now rewrite L3.
Qed.

Section Lifecycle.

Context `{hdr : ssp_commands_h}.

Lemma deliver_keeps_configuration (e : loop_event) :
  steps false (keeps configuration) (deliver e).
Proof.
  destruct e as [number| | |r uuid loaded]; cbn [deliver];
    unfold configuration, settled; walk kept.
Qed.

(** X7.  What startup has settled stays settled: no event that the loop
    delivers (a signal, a timer, a request) changes the options, the
    timers, or a device's id, name, availability, key, setup data (the
    channel table), event handler or the address, timeout, retry level and
    baud rate of its [sspC].  Left out is what does change after startup:
    [channelInhibits], the command and response buffers, and the
    encryption state that libitlssp keeps in [sspC], of which the model
    has [EncryptionStatus], set by the key negotiation of a poll. *)
Theorem events_keep_the_configuration (e : loop_event) (w : World) :
  configuration (world_of (deliver e w)) = configuration w.
Proof. apply (deliver_keeps_configuration e w). Qed.

Lemma deliver_stays_running (e : loop_event) :
  stops e = false -> steps false stays_running (deliver e).
Proof.
  intros H. destruct e as [number| | |r uuid loaded]; cbn [deliver].
  - cbn in H. apply negb_false_iff, Z.eqb_eq in H. subst number.
    walk running_leaf.
  - walk running_leaf.
  - intros w. split; [|discriminate]. intros Hs.
    unfold bind, get_metacash.
    destruct (evCheckQuit (metacash w)); [|now split].
    unfold cbOnCheckQuitEvent, bind, get_receivedSignal. rewrite Hs.
    now split.
  - unfold cbOnRequestMessage. destruct loaded as [json|error].
    + cbn [stops is_request_for] in H. cbv zeta. unfold isCommand.
      cbn [command]. rewrite H. walk running_leaf.
    + walk running_leaf.
Qed.

Lemma dispatch_stays_in_the_loop (es : list loop_event) (w : World) :
  Forall (fun e => stops e = false) es ->
  receivedSignal w = 0 -> loopexit w = false ->
  forall w', event_base_dispatch es w <> Done true w'.
Proof.
  intros Hes. revert w. induction Hes as [|e es He Hes IH];
    intros w Hs Hl w'; cbn [event_base_dispatch]; [discriminate|].
  unfold bind.
  destruct (deliver_stays_running e He w) as [HT _].
  destruct (deliver e w) as [[] w1| |]; try discriminate.
  cbn [world_of] in HT. destruct (HT Hs) as [Hs1 Hl1].
  rewrite Hl1, Hl. now apply IH; [|rewrite Hl1].
Qed.

Lemma startup_keeps_the_flags (env : environment) :
  steps false (keeps (fun w => (receivedSignal w, loopexit w)))
    (startup env).
Proof. unfold startup. walk quiet_leaf. Qed.

(** X8.  The daemon leaves its loop only when it is told to: as long as
    the loop delivers no signal and no [quit] request, [main] does not
    return, whatever else arrives and whatever the devices answer.  (It
    can still end with a fatal error.) *)
Theorem no_shutdown_without_signal_or_quit (env : environment) :
  Forall (fun e => stops e = false) (loop_events env) ->
  main env <> exit_code 0.
Proof.
  intros Hes. unfold main, main_body, bind.
  destruct (startup_keeps_the_flags env (initial_world env)) as [HT _].
  destruct (startup env (initial_world env)) as [[] w1|rc w1|w1] eqn:E.
  - cbn [world_of] in HT. unfold keeps in HT. cbn in HT.
    injection HT as Hs Hl.
    pose proof (dispatch_stays_in_the_loop _ w1 Hes Hs Hl) as Hd.
    destruct (event_base_dispatch (loop_events env) w1) as [[] w2|rc w2|w2]
      eqn:E2.
    + now elim (Hd w2).
    + discriminate.
    + pose proof (event_base_dispatch_exit_codes (loop_events env) w1)
        as (_ & _ & _ & Hrc).
      rewrite E2 in Hrc. cbn in Hrc. subst rc. discriminate.
    + discriminate.
  - pose proof (startup_exit_codes env (initial_world env))
      as (_ & _ & _ & Hrc).
    rewrite E in Hrc. subst rc. discriminate.
  - discriminate.
Qed.

Lemma setup_creates_check_quit (p s : redis_context) (w w' : World) :
  setup p s w = Done tt w' -> evCheckQuit (metacash w') = true.
Proof.
  unfold setup. intros H.
  destruct (negb (is_NULL p) && negb (is_NULL s)); [|discriminate H].
  rewrite (bind_Done (ret tt) _ w w tt eq_refl) in H.
  match type of H with
  | bind set_evCheckQuit ?k _ = _ =>
      assert (Hk : steps false keeps_check_quit (k tt))
        by walk check_quit_leaf;
      rewrite (bind_Done set_evCheckQuit k w _ tt eq_refl) in H
  end.
  match type of H with
  | _ ?w1 = _ => destruct (Hk w1) as [HT _]
  end.
  rewrite H in HT. now apply HT.
Qed.

Lemma startup_creates_check_quit (env : environment) (w w' : World) :
  startup env w = Done tt w' ->
  evCheckQuit (metacash w') = true /\
  receivedSignal w' = receivedSignal w /\ loopexit w' = loopexit w.
Proof.
  intros H. split.
  - unfold startup, bind in H.
    destruct (parseCmdLine (options env) w) as [rc w1| |]; try discriminate.
    destruct (negb (rc =? 0)); [discriminate|]. cbn in H.
    destruct (mcSspOpenSerialDevice (serial env) =? 0); cbn in H.
    + destruct (setup _ _ _) as [[] w3| |] eqn:E; try discriminate.
      injection H as <-. now apply setup_creates_check_quit in E.
    + destruct (setup _ _ _) as [[] w3| |] eqn:E; try discriminate.
      injection H as <-. now apply setup_creates_check_quit in E.
  - destruct (startup_keeps_the_flags env w) as [HT _].
    rewrite H in HT. unfold keeps in HT. cbn in HT. now injection HT.
Qed.

(** X9.  A signal stops the daemon in an orderly way: when the start has
    succeeded and the loop delivers a signal and then the tick of the
    check-quit timer, [main] returns 0. *)
Theorem signal_shuts_down (env : environment) (number : Z)
  (rest : list loop_event) (w : World) :
  startup env (initial_world env) = Done tt w ->
  loop_events env = signal number :: check_quit_timer :: rest ->
  number <> 0 ->
  main env = exit_code 0.
Proof.
  intros Hstart Hloop Hn. unfold main, main_body.
  rewrite (bind_Done _ _ _ _ _ Hstart), Hloop.
  destruct (startup_creates_check_quit env _ _ Hstart) as (Hq & Hs & Hl).
  cbn in Hs, Hl.
  assert (E : event_base_dispatch
                (signal number :: check_quit_timer :: rest) w
              = Done true
                  {| metacash := metacash w; receivedSignal := 0;
                     loopexit := true; wire := wire w;
                     published := published w; answers := answers w |}).
  { cbn [event_base_dispatch deliver]. unfold bind, signalHandler.
    cbn. rewrite Hl. cbn. rewrite Hq.
    unfold cbOnCheckQuitEvent, bind. cbn.
    apply Z.eqb_neq in Hn. now rewrite Hn. }
  now rewrite (bind_Done _ _ _ _ _ E).
Qed.

Lemma announces_bind (x : string * message) {A B} (c : M A) (k : A -> M B)
  (w : World) :
  steps false (keeps published) c ->
  (forall a w1, announces x w1 (k a w1)) ->
  announces x w (bind c k w).
Proof.
  intros Hc Hk. unfold bind. destruct (Hc w) as [HT _]. unfold keeps in HT.
  destruct (c w) as [a w1|rc w1|w1]; cbn [world_of] in HT.
  - specialize (Hk a w1). unfold announces in *. rewrite <- HT.
    exact Hk.
  - exact HT.
  - exact I.
Qed.

Lemma startup_publishes_started (env : environment) (w : World) :
  announces started_event w (startup env w).
Proof.
  unfold startup.
  do 4 (apply announces_bind; [walk quiet_leaf | clear w; intros ? w]).
  reflexivity.
Qed.

(** X10.  The two messages of the daemon itself frame everything else it
    publishes: when [main] returns, the first message published is
    [started] on [payout-event] and the last is [exiting] on
    [payout-event]; a start that fails with exit code 1 has published
    nothing. *)
Theorem started_first_exiting_last (env : environment) (w : World) :
  (main_body env (initial_world env) = Done (Some 0) w ->
   exists between,
     published w = started_event :: between ++ [exiting_event]) /\
  (main_body env (initial_world env) = Died 1 w -> published w = []).
Proof.
  pose proof (startup_publishes_started env (initial_world env)) as Hs.
  unfold main_body, bind.
  unfold announces in Hs.
  destruct (startup env (initial_world env)) as [[] w1|rc w1|w1];
    cbn [initial_world published app] in Hs.
  - pose proof (event_base_dispatch_exit_codes (loop_events env) w1)
      as (_ & (l & Hl & _) & _ & Hrc).
    destruct (event_base_dispatch (loop_events env) w1) as [[] w2|rc w2|w2];
      cbn [world_of] in Hl; split; try discriminate.
    + intros [= <-]. exists l. cbn. now rewrite Hl, Hs.
    + cbn in Hrc. subst rc. discriminate.
  - split; [discriminate|]. now intros [= _ <-].
  - split; discriminate.
Qed.

Lemma request_offline (r : option redisReply) (uuid : string)
  (loaded : json_t + json_error_t) :
  steps false stays_offline (cbOnRequestMessage r uuid loaded).
Proof.
  intros w. split; [intros Hav|discriminate].
  unfold cbOnRequestMessage.
  destruct r as [[[] [|kind [|topic [|payload [|]]]]]|]; cbn [type element];
    try now split.
  destruct (String.eqb kind "subscribe"); [now split|].
  destruct (String.eqb topic "validator-request");
    [|destruct (String.eqb topic "hopper-request"); [|now split]];
    cbv zeta.
  all: destruct loaded as [json|error]; [|now split].
  all: destruct (json_is_string (json_object_get json "msgId"));
    cbn [negb]; [|now split].
  all: destruct (json_is_string (json_object_get json "cmd"));
    cbn [negb]; [|now split].
  all: match goal with
       | |- context [if ?b then handleQuit _ else _] =>
           destruct b; [now split|]
       end.
  all: match goal with
       | |- context [if ?b then handleTest _ else _] =>
           destruct b; [now split|]
       end.
  all: rewrite (bind_Done get_metacash _ w w (metacash w) eq_refl), Hav.
  all: now split.
Qed.

Lemma deliver_stays_offline (e : loop_event) :
  steps false stays_offline (deliver e).
Proof.
  destruct e as [number| | |r uuid loaded]; cbn [deliver].
  - walk offline_leaf.
  - intros w. split; [intros Hav|discriminate].
    unfold bind, get_metacash. destruct (evPoll (metacash w)); [|now split].
    unfold cbOnPollEvent, bind, get_metacash. rewrite Hav. now split.
  - walk offline_leaf.
  - apply request_offline.
Qed.

Lemma dispatch_stays_offline (es : list loop_event) :
  steps false stays_offline (event_base_dispatch es).
Proof.
  induction es as [|e rest IH]; cbn [event_base_dispatch].
  - apply steps_ret.
  - apply steps_bind; [apply deliver_stays_offline|]. intros _.
    now apply steps_unless_loopexit.
Qed.

Lemma parse_option_sspAvailable (m m' : m_metacash) (o : getopt_return) :
  parse_option m o = inl m' -> sspAvailable m' = sspAvailable m.
Proof.
  unfold parse_option.
  destruct (optc o) as [[] [] [] [] [] [] [] []]; try discriminate;
    now intros [= <-].
Qed.

Lemma setup_stays_offline (p s : redis_context) :
  steps false stays_offline (setup p s).
Proof.
  intros w. split; [intros Hav|discriminate].
  unfold setup.
  destruct (negb (is_NULL p) && negb (is_NULL s)); [|now split].
  rewrite (bind_Done (ret tt) _ w w tt eq_refl).
  rewrite (bind_Done set_evCheckQuit _ w _ tt eq_refl).
  erewrite (bind_Done get_metacash) by reflexivity.
  cbn [metacash with_metacash sspAvailable]. rewrite Hav.
  erewrite (bind_Done (ret true)) by reflexivity.
  now split.
Qed.

Lemma startup_stays_offline (env : environment) :
  serial env <> port_opens -> steps false stays_offline (startup env).
Proof.
  intros Hport. unfold startup.
  assert (E : (mcSspOpenSerialDevice (serial env) =? 0) = false)
    by (destruct (serial env); try reflexivity; now elim Hport).
  rewrite E.
  apply steps_bind.
  - apply steps_parseCmdLine. intros w m o m' Ho <- Hav. cbn.
    split; [|reflexivity].
    now rewrite (parse_option_sspAvailable _ _ _ Ho).
  - intros rc. apply steps_bind; [walk offline_leaf|]. intros _.
    apply steps_bind; [walk offline_leaf|]. intros _.
    apply steps_bind; [apply setup_stays_offline|]. intros _.
    walk offline_leaf.
Qed.

Lemma main_stays_offline (env : environment) :
  serial env <> port_opens -> steps false stays_offline (main_body env).
Proof.
  intros Hport. unfold main_body.
  apply steps_bind; [now apply startup_stays_offline|]. intros _.
  apply steps_bind; [apply dispatch_stays_offline|]. intros exited.
  walk offline_leaf.
Qed.

(** X11.  When the serial port cannot be opened, the daemon runs without
    hardware for good: nothing is ever sent to a device, whatever the loop
    delivers. *)
Theorem no_port_no_traffic (env : environment) :
  serial env <> port_opens ->
  wire (world_of (main_body env (initial_world env))) = [].
Proof.
  intros Hport.
  destruct (main_stays_offline env Hport (initial_world env)) as [HT _].
  now destruct (HT eq_refl) as [_ ->].
Qed.

End Lifecycle.

(** ** The poll loop *)

Section Polls.

Context `{hdr : ssp_commands_h}.

(** X12.  A poll that brings no events is silent.  When the device does not
    answer the POLL, answers it with an error other than KEY_NOT_SET, or
    answers OK without events, [mcSspPollDevice] returns after that one
    exchange: nothing is published and nothing else is sent. *)
Theorem poll_without_events (dev : device_ref) (w : World) :
  lib_return (upcoming w) <> SSP_RESPONSE_KEY_NOT_SET ->
  (lib_return (upcoming w) = SSP_RESPONSE_OK -> events (upcoming w) = []) ->
  mcSspPollDevice dev w = Done tt (exchanged w dev POLL).
Proof.
  intros Hkey Hok. unfold mcSspPollDevice. exec.
  destruct (lib_return (upcoming w)); try reflexivity.
  - now rewrite Hok.
  - now elim Hkey.
Qed.

Lemma filter_none {A} (f : A -> bool) (l : list A) :
  Forall (fun x => f x = false) l -> filter f l = [].
Proof.
  induction 1 as [|x l Hx Hl IH]; [reflexivity|]. cbn. now rewrite Hx.
Qed.

(** One poll of [dev]: a POLL, then exchanges that are not polls. *)
Lemma mcSspPollDevice_polls_once (dev : device_ref) (w : World) :
  exists x l,
    wire (world_of (mcSspPollDevice dev w)) = wire w ++ x :: l /\
    peer x = dev /\ call x = POLL /\
    Forall (fun x => is_poll (call x) = false) l.
Proof.
  unfold mcSspPollDevice.
  rewrite (bind_Done (ssp6_poll dev) _ w (exchanged w dev POLL)
             (lib_return (upcoming w), events (upcoming w)))
    by (unfold ssp6_poll, bind; now rewrite ssp6_eq).
  cbv beta iota.
  set (w1 := exchanged w dev POLL).
  set (x := {| peer := dev;
               address := SSPAddress (sspC (device_of (metacash w) dev));
               call := POLL; returned := lib_return (upcoming w) |}).
  exists x.
  assert (Hw1 : wire w1 = wire w ++ [x]) by reflexivity.
  assert (Hrest : forall c : M unit,
             confined (fun c => is_poll c = false) anything
               (fun rc => rc = 3) any_change c ->
             exists l, wire (world_of (c w1)) = wire w ++ x :: l
                       /\ peer x = dev /\ call x = POLL
                       /\ Forall (fun x => is_poll (call x) = false) l).
  { intros c Hc. destruct (Hc w1) as ((l & Hl & Fl) & _).
    exists l. rewrite Hl, Hw1, <- app_assoc. now repeat split. }
  destruct (lib_return (upcoming w)); apply Hrest; confine trivial_leaf.
Qed.

Lemma poll_keeps_configuration (dev : device_ref) :
  steps false (keeps configuration) (mcSspPollDevice dev).
Proof. unfold configuration, settled. walk kept. Qed.

Lemma polled_if_available (dev : device_ref) (b : bool) (w : World) :
  exists l,
    wire (world_of ((if b then mcSspPollDevice dev else ret tt) w))
    = wire w ++ l /\
    map peer (filter (fun x => is_poll (call x)) l)
    = if b then [dev] else [].
Proof.
  destruct b.
  - destruct (mcSspPollDevice_polls_once dev w)
      as (x & l & Hw & Hp & Hc & Hl).
    exists (x :: l). split; [assumption|].
    cbn [filter]. rewrite Hc. cbn [is_poll map].
    now rewrite (filter_none _ _ Hl), Hp.
  - exists []. split; [|reflexivity]. cbn. now rewrite app_nil_r.
Qed.

(** X13.  A tick of the poll timer that returns has polled every device
    that is available exactly once, the hopper before the validator, and
    no device that is not available; without hardware it polls nothing. *)
Theorem tick_polls_available_devices_once (w w' : World) :
  cbOnPollEvent w = Done tt w' ->
  polled_between w w' = if sspAvailable (metacash w) then due w else [].
Proof.
  unfold cbOnPollEvent, polled_between, due.
  rewrite (bind_Done get_metacash _ w w (metacash w) eq_refl).
  destruct (sspAvailable (metacash w)); cbn [negb].
  - intros H.
    destruct (polled_if_available the_hopper
                (sspDeviceAvailable (hopper (metacash w))) w)
      as (l1 & Hw1 & Hp1).
    destruct (poll_keeps_configuration the_hopper w) as [Hk _].
    unfold bind in H.
    destruct ((if sspDeviceAvailable (hopper (metacash w))
               then mcSspPollDevice the_hopper else ret tt) w)
      as [[] w1| |] eqn:E1; try discriminate.
    cbn [world_of] in Hw1.
    assert (Hav : sspDeviceAvailable (validator (metacash w1))
                  = sspDeviceAvailable (validator (metacash w))).
    { destruct (sspDeviceAvailable (hopper (metacash w))).
      - rewrite E1 in Hk. unfold keeps, configuration, settled in Hk.
        cbn [world_of] in Hk. now injection Hk.
      - now injection E1 as <-. }
    cbn [get_metacash] in H. rewrite Hav in H.
    destruct (polled_if_available the_validator
                (sspDeviceAvailable (validator (metacash w))) w1)
      as (l2 & Hw2 & Hp2).
    rewrite H in Hw2. cbn [world_of] in Hw2.
    rewrite Hw2, Hw1, <- app_assoc, skipn_app, skipn_all, Nat.sub_diag.
    cbn [skipn app]. rewrite filter_app, map_app, Hp1, Hp2.
    cbn [filter device_of].
    now destruct (sspDeviceAvailable (hopper (metacash w))),
      (sspDeviceAvailable (validator (metacash w))).
  - intros [= <-]. now rewrite skipn_all.
Qed.

(** What one event adds to the bus: at most one message, on the topic of
    the handler. *)
Ltac one_event :=
  exec;
  repeat (match goal with
          | |- context [if ?b then _ else _] => destruct b
          | |- context [match ?x with Some _ => _ | None => _ end] =>
              destruct x
          | |- context [match ?x with SSP_RESPONSE_OK => _ | _ => _ end] =>
              destruct x
          end; exec);
  cbn [world_of published told exchanged];
  first
    [ exists []; split; [now rewrite app_nil_r|];
      split; [cbn; lia | constructor]
    | eexists [_]; split; [reflexivity|];
      split; [cbn; lia|];
      constructor; [|constructor];
      split; [reflexivity | eexists; eexists; reflexivity] ].

Lemma hopperEvent_message (dev : device_ref) (e : poll_event) (w : World) :
  exists l,
    published (world_of (hopperEvent dev e w)) = published w ++ l /\
    (List.length l <= 1)%nat /\ Forall (event_message "hopper-event") l.
Proof.
  unfold hopperEvent, calibration_fail. destruct (event e); one_event.
Qed.

Lemma validatorEvent_message (dev : device_ref) (e : poll_event)
  (w : World) :
  exists l,
    published (world_of (validatorEvent dev e w)) = published w ++ l /\
    (List.length l <= 1)%nat /\ Forall (event_message "validator-event") l.
Proof.
  unfold validatorEvent, calibration_fail, ChannelData_at.
  destruct (event e); one_event.
Qed.

Lemma events_messages (topic : string) (f : poll_event -> M unit)
  (poll : list poll_event) :
  (forall e w,
      exists l,
        published (world_of (f e w)) = published w ++ l /\
        (List.length l <= 1)%nat /\ Forall (event_message topic) l) ->
  forall w,
    exists l,
      published (world_of (for_each poll f w)) = published w ++ l /\
      (List.length l <= List.length poll)%nat /\
      Forall (event_message topic) l.
Proof.
  intros Hf. induction poll as [|e rest IH]; intros w; cbn [for_each].
  - exists []. cbn. rewrite app_nil_r. repeat split; constructor.
  - unfold bind. destruct (Hf e w) as (l1 & H1 & L1 & F1).
    destruct (f e w) as [[] w1| |]; cbn [world_of] in H1.
    + destruct (IH w1) as (l2 & H2 & L2 & F2).
      exists (l1 ++ l2). rewrite H2, H1, app_assoc.
      split; [reflexivity|]. split.
      * rewrite length_app. cbn [List.length]. lia.
      * apply Forall_app. now split.
    + exists l1. repeat split; try assumption. cbn [List.length]. lia.
    + exists l1. repeat split; try assumption. cbn [List.length]. lia.
Qed.

(** X14.  The events of a poll become messages on the bus and nothing
    else: an event handler publishes at most one message for each event,
    every one on the event topic of its device ([hopper-event],
    [validator-event]) and with [event] as its first member. *)
Theorem events_become_messages (dev : device_ref) (poll : list poll_event)
  (w : World) :
  (exists l,
      published (world_of (hopperEventHandler dev poll w))
      = published w ++ l /\
      (List.length l <= List.length poll)%nat /\
      Forall (event_message "hopper-event") l) /\
  (exists l,
      published (world_of (validatorEventHandler dev poll w))
      = published w ++ l /\
      (List.length l <= List.length poll)%nat /\
      Forall (event_message "validator-event") l).
Proof.
  split.
  - apply events_messages. apply hopperEvent_message.
  - apply events_messages. apply validatorEvent_message.
Qed.

End Polls.

(** ** The bytes of the commands *)

Lemma le_bytes_S (x : Z) (n : nat) :
  le_bytes x (S n) = CInt.to_uchar x :: le_bytes (Z.shiftr x 8) n.
Proof.
  unfold le_bytes. cbn [seq map]. f_equal.
  rewrite <- seq_shift, map_map. apply map_ext. intros i.
  rewrite Z.shiftr_shiftr by lia. f_equal. f_equal. lia.
Qed.

Lemma le_bytes_length (x : Z) (n : nat) : List.length (le_bytes x n) = n.
Proof. unfold le_bytes. now rewrite length_map, length_seq. Qed.

Lemma le_bytes_are_bytes (x : Z) (n : nat) : Forall is_byte (le_bytes x n).
Proof.
  unfold le_bytes. apply Forall_forall. intros b Hb.
  apply in_map_iff in Hb as (i & <- & _). apply CIntFacts.to_uchar_range.
Qed.

Lemma le_value_le_bytes (x : Z) (n : nat) :
  le_value (le_bytes x n) = x mod 2 ^ (8 * Z.of_nat n).
Proof.
  revert x. induction n as [|n IH]; intros x.
  - cbn. now rewrite Z.mod_1_r.
  - rewrite le_bytes_S. cbn [le_value fold_right]. fold (le_value (le_bytes (Z.shiftr x 8) n)).
    rewrite IH. unfold CInt.to_uchar.
    replace (8 * Z.of_nat (S n)) with (8 + 8 * Z.of_nat n) by lia.
    rewrite Z.pow_add_r by lia. change (2 ^ 8) with 256.
    rewrite Z.rem_mul_r by lia. rewrite Z.shiftr_div_pow2 by lia.
    reflexivity.
Qed.

(** X15.  The command of [SET DENOMINATION LEVEL] is ten bytes: 0x34, the
    level in two bytes and the amount in four bytes, least significant
    byte first, and the three letters of the currency.  A level is cut to
    its low 16 bits and an amount to its low 32 bits. *)
Theorem denomination_level_data_layout (amount level : Z) :
  exists l a,
    denomination_level_data amount level CURRENCY
    = 0x34 :: l ++ a ++ [69; 85; 82] /\
    List.length l = 2%nat /\ List.length a = 4%nat /\
    Forall is_byte (l ++ a) /\
    le_value l = level mod 2 ^ 16 /\ le_value a = amount mod 2 ^ 32.
Proof.
  exists (le_bytes level 2), (le_bytes amount 4).
  split; [reflexivity|].
  split; [apply le_bytes_length|]. split; [apply le_bytes_length|].
  split; [apply Forall_app; split; apply le_bytes_are_bytes|].
  split; apply le_value_le_bytes.
Qed.

(** ** The bytes of the responses *)

Lemma to_int_to_int (a b : Z) :
  CInt.to_int (CInt.to_int a + b) = CInt.to_int (a + b).
Proof.
  unfold CInt.to_int. f_equal.
  replace ((a + 2 ^ 31) mod 2 ^ 32 - 2 ^ 31 + b + 2 ^ 31)
    with ((a + 2 ^ 31) mod 2 ^ 32 + b) by lia.
  rewrite Zplus_mod_idemp_l. f_equal. lia.
Qed.

Lemma to_int_0 : CInt.to_int 0 = 0.
Proof. reflexivity. Qed.

Lemma fold_le (g : nat -> Z) (bs : list Z) (s : nat) (acc : Z) :
  (forall k, (k < List.length bs)%nat -> g (s + k)%nat = nth k bs 0) ->
  fold_left
    (fun acc k => CInt.to_int (acc + Z.shiftl (g k) (8 * Z.of_nat k)))
    (seq s (List.length bs)) (CInt.to_int acc)
  = CInt.to_int (acc + 2 ^ (8 * Z.of_nat s) * le_value bs).
Proof.
  revert s acc. induction bs as [|b bs IH]; intros s acc Hg.
  - cbn. f_equal. lia.
  - cbn [List.length seq fold_left].
    rewrite to_int_to_int.
    rewrite IH.
    + f_equal. cbn [le_value fold_right]. fold (le_value bs).
      rewrite Z.shiftl_mul_pow2 by lia.
      specialize (Hg 0%nat ltac:(cbn; lia)). rewrite Nat.add_0_r in Hg.
      rewrite Hg. cbn [nth].
      replace (8 * Z.of_nat (S s)) with (8 * Z.of_nat s + 8) by lia.
      rewrite Z.pow_add_r by lia. change (2 ^ 8) with 256. ring.
    + intros k Hk. specialize (Hg (S k) ltac:(cbn; lia)).
      now rewrite Nat.add_succ_r in Hg.
Qed.

(** [read_le] on bytes that lie in the response at the offset [i]. *)
Lemma read_le_value (rd : response_data) (pre bs rest : list Z) (i n : nat) :
  body rd = pre ++ bs ++ rest ->
  i = List.length pre -> n = List.length bs ->
  read_le rd i n = CInt.to_int (le_value bs).
Proof.
  intros Hb -> ->. unfold read_le. rewrite <- to_int_0 at 1.
  rewrite (fold_le
             (fun k => ResponseData_at rd (List.length pre + 1 + k)) bs 0 0).
  - f_equal. change (8 * Z.of_nat 0) with 0. rewrite Z.pow_0_r. lia.
  - intros k Hk. unfold ResponseData_at. rewrite Hb.
    replace (Nat.pred (List.length pre + 1 + (0 + k)))
      with (List.length pre + k)%nat by lia.
    rewrite app_nth2_plus. now apply app_nth1.
Qed.

Lemma three_letters_read_back (s : string) :
  three_letters s = true ->
  List.length (cc_bytes s) = 3%nat /\ c_string (cc_bytes s) = s.
Proof.
  destruct s as [|a [|b [|c [|]]]]; try discriminate. cbn [three_letters].
  intros H. apply andb_prop in H as [H Hc]. apply andb_prop in H as [Ha Hb].
  split; [reflexivity|].
  unfold cc_bytes. cbn [seq map c_bytes nth c_string].
  assert (Hnz : forall x, negb (Nat.eqb (nat_of_ascii x) 0) = true ->
                          (Z.of_nat (nat_of_ascii x) =? 0) = false).
  { intros x Hx. apply negb_true_iff, Nat.eqb_neq in Hx.
    apply Z.eqb_neq. lia. }
  rewrite !Hnz by assumption.
  now rewrite !Nat2Z.id, !ascii_nat_embedding.
Qed.

Lemma counter_bytes_length (c : counter) :
  three_letters (counter_cc c) = true ->
  List.length (counter_bytes c) = 9%nat.
Proof.
  intros H. unfold counter_bytes.
  rewrite !length_app, !le_bytes_length.
  now rewrite (proj1 (three_letters_read_back _ H)).
Qed.

Lemma to_int_fits (z : Z) : 0 <= z < 2 ^ 31 -> CInt.to_int z = z.
Proof. intros H. apply CIntFacts.to_int_small. unfold CInt.INT_MAX. lia. Qed.

(** The loop of [mc_ssp_get_all_levels] on counters in that layout. *)
Lemma counters_read_back (rd : response_data) (cs : list counter)
  (pre rest : list Z) :
  Forall counter_fits cs ->
  body rd = pre ++ List.concat (map counter_bytes cs) ++ rest ->
  counters rd (List.length pre) (List.length cs) = map counter_json cs.
Proof.
  intros Hcs. revert pre. induction Hcs as [|c cs Hc Hcs IH]; intros pre Hb;
    [reflexivity|].
  destruct Hc as (Hl & Hv & Hcc).
  destruct (three_letters_read_back _ Hcc) as [Hlen Hstr].
  cbn [List.length counters map List.concat] in *.
  set (L := le_bytes (counter_level c) 2) in *.
  set (V := le_bytes (counter_value c) 4) in *.
  set (C := cc_bytes (counter_cc c)) in *.
  set (more := List.concat (map counter_bytes cs) ++ rest) in *.
  assert (HL : List.length L = 2%nat) by apply le_bytes_length.
  assert (HV : List.length V = 4%nat) by apply le_bytes_length.
  assert (Hb' : body rd = pre ++ L ++ V ++ C ++ more).
  { rewrite Hb. unfold counter_bytes. fold L V C.
    now rewrite <- !app_assoc. }
  f_equal.
  - unfold counter_json. f_equal.
    assert (Hv' : read_le rd (List.length pre + 2) 4 = counter_value c).
    { rewrite (read_le_value rd (pre ++ L) V (C ++ more)).
      - subst V. rewrite le_value_le_bytes. change (8 * Z.of_nat 4) with 32.
        rewrite Z.mod_small by lia. now apply to_int_fits.
      - now rewrite <- app_assoc.
      - rewrite length_app. lia.
      - lia. }
    assert (Hl' : read_le rd (List.length pre) 2 = counter_level c).
    { rewrite (read_le_value rd pre L (V ++ C ++ more)); try easy.
      subst L. rewrite le_value_le_bytes. change (8 * Z.of_nat 2) with 16.
      rewrite Z.mod_small by lia. apply to_int_fits. lia. }
    assert (Hcc' : forall k, (k < 3)%nat ->
               ResponseData_at rd (List.length pre + 7 + k) = nth k C 0).
    { intros k Hk. unfold ResponseData_at. rewrite Hb'.
      replace (Nat.pred (List.length pre + 7 + k))
        with (List.length pre + (List.length L + (List.length V + k)))%nat
        by lia.
      rewrite !app_nth2_plus. apply app_nth1. lia. }
    rewrite Hv', Hl'.
    replace (List.length pre + 8)%nat with (List.length pre + 7 + 1)%nat
      by lia.
    replace (List.length pre + 9)%nat with (List.length pre + 7 + 2)%nat
      by lia.
    rewrite <- (Nat.add_0_r (List.length pre + 7)) at 1.
    rewrite !Hcc' by lia.
    replace [nth 0 C 0; nth 1 C 0; nth 2 C 0] with C; [now rewrite Hstr|].
    destruct C as [|x [|y [|z [|]]]]; try discriminate Hlen. reflexivity.
  - specialize (IH (pre ++ counter_bytes c)).
    rewrite length_app, counter_bytes_length in IH by assumption.
    apply IH. rewrite Hb. now rewrite <- !app_assoc.
Qed.

Lemma sent_command_response (w : World) (r : device_ref) (data : list Z) :
  sent (upcoming w) = true ->
  ResponseData (sspC (device_of (metacash (sent_command w r data)) r))
  = response (upcoming w).
Proof.
  intros H. unfold sent_command, exchanged. rewrite upcoming_commanded, H.
  cbn [metacash]. now rewrite device_of_with_device.
Qed.

(** A command of one byte whose response is read from the buffer. *)
Lemma send_and_read {A} (r : device_ref) (data : list Z)
  (k : bool -> M A) (w : World) :
  (set_CommandData r data ;;; ok <- send_ssp_command r ;; k ok) w
  = k (sent (upcoming w)) (sent_command w r data).
Proof.
  unfold bind. rewrite set_CommandData_eq, send_ssp_command_eq.
  rewrite upcoming_commanded. unfold sent_command.
  unfold commanded at 2. cbn [metacash with_metacash].
  now rewrite device_of_with_device.
Qed.

Section Levels.

Context `{hdr : ssp_commands_h}.

(** X16.  [get-all-levels] reads counters in the layout in which
    [set-denomination-level] writes them.  When the hopper answers OK with
    the number of its counters followed by each counter as level (2 bytes),
    value (4 bytes) and currency (3 letters), the reply lists the counters
    in that order, each with its value, level and currency. *)
Theorem levels_are_read_back (cmd : m_command) (cs : list counter)
  (rest : list Z) (w : World) :
  answers_with w SSP_RESPONSE_OK
    (Z.of_nat (List.length cs) :: List.concat (map counter_bytes cs) ++ rest)
  ->
  Forall counter_fits cs -> (List.length cs < 256)%nat ->
  handleGetAllLevels cmd w
  = Done tt
      (told (sent_command w (device cmd) [SSP_CMD_GET_ALL_LEVELS])
         (responseTopic cmd)
         [("correlId", FStr (str (correlId cmd)));
          ("levels",
           FRaw ("[" ++ String.concat "," (map counter_json cs) ++ "]"))]).
Proof.
  intros [Hsent Hresp] Hcs _.
  unfold handleGetAllLevels, mc_ssp_get_all_levels.
  rewrite (bind_Done _ _ w
             (sent_command w (device cmd) [SSP_CMD_GET_ALL_LEVELS])
             (SSP_RESPONSE_OK,
              Some (String.concat "," (map counter_json cs)))).
  - reflexivity.
  - rewrite send_and_read, Hsent. cbn [negb]. unfold bind, get_device, ret.
    rewrite (sent_command_response _ _ _ Hsent), Hresp. cbn [code].
    do 3 f_equal. unfold ResponseData_at at 1. cbn [Nat.pred body nth].
    rewrite Nat2Z.id. f_equal.
    now apply (counters_read_back _ cs [Z.of_nat (List.length cs)] rest).
Qed.

Lemma counters_length (cs : list counter) :
  Forall counter_fits cs ->
  List.length (List.concat (map counter_bytes cs)) = (9 * List.length cs)%nat.
Proof.
  induction 1 as [|c cs (_ & _ & Hc) _ IH]; [reflexivity|].
  cbn [map List.concat List.length].
  rewrite length_app, counter_bytes_length, IH by assumption. lia.
Qed.

(** X17.  [cashbox-payout-operation-data] lists the counters of the
    response like [get-all-levels] and appends, after a comma, an element
    for the coins that were not identified, whose quantity it reads from
    the three bytes that follow the counters.  With no counter in the
    response the list in the reply therefore begins with a comma. *)
Theorem payout_operation_data_is_read (cmd : m_command) (cs : list counter)
  (q0 q1 q2 : Z) (rest : list Z) (w : World) :
  answers_with w SSP_RESPONSE_OK
    (Z.of_nat (List.length cs)
     :: List.concat (map counter_bytes cs) ++ [q0; q1; q2] ++ rest) ->
  Forall counter_fits cs -> (List.length cs < 256)%nat ->
  is_byte q0 -> is_byte q1 -> is_byte q2 ->
  let unknown :=
    render [("value", FNum 0); ("level", FNum (q0 + 256 * q1 + 65536 * q2))]
  in
  let levels :=
    ("[" ++ (String.concat "," (map counter_json cs) ++ "," ++ unknown)
     ++ "]")%string in
  handleCashboxPayoutOperationData cmd w
  = Done tt
      (told (sent_command w (device cmd)
               [SSP_CMD_CASHBOX_PAYOUT_OPERATION_DATA])
         (responseTopic cmd)
         [("correlId", FStr (str (correlId cmd))); ("levels", FRaw levels)])
  /\ (cs = [] -> String.prefix "[," levels = true).
Proof.
  intros [Hsent Hresp] Hcs _ H0 H1 H2 unknown levels.
  split; [|now intros ->].
  unfold handleCashboxPayoutOperationData,
    mc_ssp_cashbox_payout_operation_data.
  rewrite (bind_Done _ _ w
             (sent_command w (device cmd)
                [SSP_CMD_CASHBOX_PAYOUT_OPERATION_DATA])
             (SSP_RESPONSE_OK,
              Some (String.concat "," (map counter_json cs)
                    ++ "," ++ unknown)%string)).
  - reflexivity.
  - rewrite send_and_read, Hsent. cbn [negb]. unfold bind, get_device, ret.
    rewrite (sent_command_response _ _ _ Hsent), Hresp.
    cbn [code is_OK negb].
    do 3 f_equal. unfold ResponseData_at at 1 2. cbn [Nat.pred body nth].
    rewrite Nat2Z.id. f_equal.
    + f_equal.
      apply (counters_read_back _ cs [Z.of_nat (List.length cs)]
               ([q0; q1; q2] ++ rest)); [assumption|reflexivity].
    + f_equal. subst unknown. do 3 f_equal.
      rewrite (read_le_value _
                 (Z.of_nat (List.length cs)
                  :: List.concat (map counter_bytes cs))
                 [q0; q1; q2] rest).
      * cbn [le_value fold_right]. unfold is_byte in *.
        rewrite to_int_fits by lia.
        now replace (q0 + 256 * (q1 + 256 * (q2 + 256 * 0)))
          with (q0 + 256 * q1 + 65536 * q2) by lia.
      * reflexivity.
      * cbn [List.length]. now rewrite counters_length.
      * reflexivity.
Qed.

Lemma c_string_c_bytes (v : string) (rest : list Z) :
  no_nul v = true ->
  c_string (firstn (String.length v) (c_bytes v ++ rest)) = v.
Proof.
  unfold no_nul. induction v as [|a v IH]; [reflexivity|].
  cbn [list_ascii_of_string forallb String.length c_bytes app firstn
         c_string].
  intros H. apply andb_prop in H as [Ha Hv].
  apply negb_true_iff, Nat.eqb_neq in Ha.
  replace (Z.of_nat (nat_of_ascii a) =? 0) with false
    by (symmetry; apply Z.eqb_neq; lia).
  now rewrite Nat2Z.id, ascii_nat_embedding, IH.
Qed.

Lemma response_string_firstn (rd : response_data) (n : nat) :
  (n <= List.length (body rd))%nat ->
  response_string rd n = c_string (firstn n (body rd)).
Proof.
  unfold response_string, ResponseData_at. cbn [Nat.add Nat.pred].
  generalize (body rd) as l. clear rd. intros l. revert l.
  induction n as [|n IH]; intros l Hn; [reflexivity|].
  destruct l as [|b l]; [cbn in Hn; lia|].
  cbn [firstn seq map nth c_string]. rewrite <- seq_shift, map_map.
  cbn [nth]. destruct (b =? 0); [reflexivity|].
  f_equal. apply IH. cbn in Hn. lia.
Qed.

Lemma version_read (v : string) (rest : list Z) (rd : response_data) :
  body rd = c_bytes v ++ rest -> no_nul v = true ->
  response_string rd (String.length v) = v.
Proof.
  intros Hb Hv. rewrite response_string_firstn.
  - rewrite Hb. now apply c_string_c_bytes.
  - rewrite Hb, length_app.
    assert (List.length (c_bytes v) = String.length v)
      by (clear; induction v; cbn; congruence).
    lia.
Qed.

(** X18.  The versions are read as text of a fixed length: when the device
    answers OK with 16 characters, [get-firmware-version] replies with
    these 16 characters as [version], whatever follows them in the
    response; [get-dataset-version] does the same with 8 characters. *)
Theorem versions_are_read (cmd : m_command) (v : string) (rest : list Z)
  (w : World) :
  answers_with w SSP_RESPONSE_OK (c_bytes v ++ rest) -> no_nul v = true ->
  (String.length v = 16%nat ->
   handleGetFirmwareVersion cmd w
   = Done tt
       (told (sent_command w (device cmd) [SSP_CMD_GET_FIRMWARE_VERSION])
          (responseTopic cmd)
          [("correlId", FStr (str (correlId cmd))); ("version", FStr v)]))
  /\
  (String.length v = 8%nat ->
   handleGetDatasetVersion cmd w
   = Done tt
       (told (sent_command w (device cmd) [SSP_CMD_GET_DATASET_VERSION])
          (responseTopic cmd)
          [("correlId", FStr (str (correlId cmd))); ("version", FStr v)])).
Proof.
  intros [Hsent Hresp] Hv.
  assert (Hret : lib_return (upcoming w) = SSP_RESPONSE_OK)
    by (unfold lib_return; now rewrite Hsent, Hresp).
  split; intros Hlen;
    unfold handleGetFirmwareVersion, handleGetDatasetVersion,
      mc_ssp_get_firmware_version, mc_ssp_get_dataset_version;
    unfold bind at 1 2; rewrite mc_ssp_command_eq, Hret;
    unfold bind, get_device, ret; cbn [is_OK]; cbv beta iota;
    fold (sent_command w (device cmd) [SSP_CMD_GET_FIRMWARE_VERSION]);
    fold (sent_command w (device cmd) [SSP_CMD_GET_DATASET_VERSION]);
    rewrite (sent_command_response _ _ _ Hsent), <- Hlen;
    rewrite (version_read v rest) by (rewrite ?Hresp; easy);
    reflexivity.
Qed.

End Levels.

(** ** Values in requests and replies *)

Lemma to_uint_to_int (z : Z) : CInt.to_uint (CInt.to_int z) = z mod 2 ^ 32.
Proof.
  unfold CInt.to_uint, CInt.to_int. rewrite Zminus_mod_idemp_l.
  f_equal. lia.
Qed.

Lemma mod_32_16 (z : Z) : (z mod 2 ^ 32) mod 2 ^ 16 = z mod 2 ^ 16.
Proof.
  apply Z.mod_mod_divide. exists (2 ^ 16). reflexivity.
Qed.

Lemma nth_reject_reasons :
  forallb
    (fun i =>
       negb (String.eqb (nth i reject_reasons "undefined in API")
               "undefined in API")
       && forallb
            (fun j =>
               implb (String.eqb (nth i reject_reasons "undefined in API")
                        (nth j reject_reasons "undefined in API"))
                 (Nat.eqb i j))
            (seq 0 29))
    (seq 0 29) = true.
Proof. vm_compute. reflexivity. Qed.

Lemma reject_reason_nth (c : Z) :
  0 <= c -> reject_reason c = nth (Z.to_nat c) reject_reasons "undefined in API".
Proof.
  intros H. unfold reject_reason.
  now replace (c <? 0) with false by (symmetry; apply Z.ltb_ge; lia).
Qed.

Section Values.

Context `{hdr : ssp_commands_h}.

(** X19.  [last-reject-note] reports the reason byte of the response as
    [code] together with its text as [reason].  The texts tell the codes
    apart: the 29 codes 0x00..0x1C have 29 different texts, and every
    other code, and no code of these, reads ["undefined in API"]. *)
Theorem reject_reasons_tell_codes_apart :
  (forall cmd c rest w,
      answers_with w SSP_RESPONSE_OK (c :: rest) ->
      handleLastRejectNote cmd w
      = Done tt
          (told (sent_command w (device cmd) [SSP_CMD_LAST_REJECT_NOTE])
             (responseTopic cmd)
             [("correlId", FStr (str (correlId cmd)));
              ("reason", FStr (reject_reason c)); ("code", FNum c)])) /\
  (forall c, reject_reason c = "undefined in API" <-> c < 0 \/ 0x1C < c) /\
  (forall c1 c2,
      0 <= c1 <= 0x1C -> 0 <= c2 <= 0x1C ->
      reject_reason c1 = reject_reason c2 -> c1 = c2).
Proof.
  pose proof nth_reject_reasons as Hall.
  rewrite forallb_forall in Hall.
  assert (Hin : forall c, 0 <= c <= 0x1C -> In (Z.to_nat c) (seq 0 29))
    by (intros c Hc; apply in_seq; lia).
  split; [|split].
  - intros cmd c rest w [Hsent Hresp].
    unfold handleLastRejectNote, mc_ssp_last_reject_note.
    rewrite (bind_Done _ _ w
               (sent_command w (device cmd) [SSP_CMD_LAST_REJECT_NOTE])
               (SSP_RESPONSE_OK, Some c)).
    + reflexivity.
    + rewrite send_and_read, Hsent. cbn [negb]. unfold bind, get_device, ret.
      now rewrite (sent_command_response _ _ _ Hsent), Hresp.
  - intros c. split.
    + intros H. destruct (Z.ltb_spec c 0) as [|H0]; [now left|].
      destruct (Z.ltb_spec 0x1C c) as [|H1]; [now right|]. exfalso.
      specialize (Hall _ (Hin c ltac:(lia))).
      apply andb_prop in Hall as [Hne _].
      rewrite <- reject_reason_nth, H in Hne by assumption.
      discriminate Hne.
    + intros [H|H]; unfold reject_reason.
      * now replace (c <? 0) with true by (symmetry; apply Z.ltb_lt; lia).
      * replace (c <? 0) with false by (symmetry; apply Z.ltb_ge; lia).
        apply nth_overflow. cbn. lia.
  - intros c1 c2 H1 H2 E.
    specialize (Hall _ (Hin c1 H1)). apply andb_prop in Hall as [_ Hall].
    rewrite forallb_forall in Hall. specialize (Hall _ (Hin c2 H2)).
    rewrite <- !reject_reason_nth, E, String.eqb_refl in Hall by lia.
    cbn in Hall. apply Nat.eqb_eq in Hall. lia.
Qed.


End Values.

(** ** Channel masks *)

Lemma present_app (d : ascii) (s1 s2 : string) :
  present d (s1 ++ s2) = present d s1 || present d s2.
Proof.
  unfold present. induction s1 as [|a s1 IH]; [reflexivity|].
  cbn [append list_ascii_of_string existsb]. now rewrite IH, orb_assoc.
Qed.

(** X21.  How the channel requests compose, on a stored mask [x] of one
    byte.  Repeating an enable-channels request changes nothing; two
    enable-channels requests amount to one that names the channels of
    both; of an enable and a disable of the same channels the later one
    wins; and the mask that inhibit-channels writes is the complement of
    the mask that enable-channels builds from zero. *)
Theorem channel_requests_compose (s s1 s2 : string) (x : Z) :
  0 <= x < 256 ->
  enable_bits s (enable_bits s x) = enable_bits s x /\
  enable_bits s2 (enable_bits s1 x) = enable_bits (s1 ++ s2) x /\
  disable_bits s (enable_bits s x) = disable_bits s x /\
  enable_bits s (disable_bits s x) = enable_bits s x /\
  Z.lxor (disable_bits s 0xFF) (enable_bits s 0) = 0xFF.
Proof.
  intros Hx.
  pose proof (enable_bits_range s x Hx) as He.
  pose proof (enable_bits_range s1 x Hx) as He1.
  pose proof (disable_bits_range s x Hx) as Hd.
  assert (H255 : 0 <= 255 < 256) by lia.
  assert (H0 : 0 <= 0 < 256) by lia.
  repeat split.
  - apply Z.bits_inj'. intros k Hk. rewrite !enable_bits_spec by assumption.
    now destruct (Z.testbit x k), (k <? 8), (present _ s).
  - apply Z.bits_inj'. intros k Hk.
    rewrite !enable_bits_spec, present_app by assumption.
    now destruct (Z.testbit x k), (k <? 8), (present _ s1), (present _ s2).
  - apply Z.bits_inj'. intros k Hk.
    rewrite !disable_bits_spec, enable_bits_spec by assumption.
    now destruct (Z.testbit x k), (k <? 8), (present _ s).
  - apply Z.bits_inj'. intros k Hk.
    rewrite !enable_bits_spec, disable_bits_spec by assumption.
    now destruct (Z.testbit x k), (k <? 8), (present _ s).
  - apply Z.bits_inj'. intros k Hk.
    rewrite Z.lxor_spec, disable_bits_spec, enable_bits_spec by assumption.
    change 255 with (Z.ones 8). rewrite Z.testbit_0_l.
    destruct (Z.ltb_spec k 8).
    + rewrite Z.ones_spec_low by lia. now destruct (present _ s).
    + rewrite Z.ones_spec_high by lia. reflexivity.
Qed.

(** ** The command line and the setup *)

Lemma last_option_found (c : ascii) (options : list getopt_return)
  (found : option string) :
  last_option c options found
  = match last_option c options None with
    | Some a => Some a
    | None => found
    end.
Proof.
  revert found. induction options as [|o rest IH]; intros found; cbn.
  - reflexivity.
  - destruct (Ascii.eqb (optc o) c).
    + rewrite (IH (Some (optarg o))). now destruct (last_option c rest None).
    + apply IH.
Qed.

(** X22.  [parseCmdLine] applies the options from left to right and stops
    at the first one it does not accept.  It returns 0 when it has accepted
    all of them and 1 otherwise.  Of the options it got to, the last [-h],
    [-p] and [-d] set the host, the port ([atoi] of the argument) and the
    serial device, [-c] and [-e] set their flags; nothing else changes, in
    particular not the records of the devices. *)
Theorem options_are_applied_in_order (options : list getopt_return)
  (w : World) :
  exists m',
    parseCmdLine options w
    = Done (if forallb known_option options then 0 else 1)
        (with_metacash w m') /\
    let seen := accepted_options options in
    let m := metacash w in
    redisHost m'
    = match last_option "h" seen None with
      | Some a => a
      | None => redisHost m
      end /\
    redisPort m'
    = match last_option "p" seen None with
      | Some a => atoi a
      | None => redisPort m
      end /\
    serialDevice m'
    = match last_option "d" seen None with
      | Some a => a
      | None => serialDevice m
      end /\
    acceptCoins m' = acceptCoins m || given "c" seen /\
    logSyslogStderr m' = logSyslogStderr m || given "e" seen /\
    (sspAvailable m', evPoll m', evCheckQuit m', hopper m', validator m')
    = (sspAvailable m, evPoll m, evCheckQuit m, hopper m, validator m).
Proof.
  revert w. induction options as [|o rest IH]; intros w.
  - exists (metacash w). split; [now destruct w|].
    cbn. now rewrite !orb_false_r.
  - cbn [parseCmdLine forallb accepted_options].
    rewrite (bind_Done get_metacash _ w w (metacash w) eq_refl).
    pose proof (parse_option_known (metacash w) o) as Hk.
    destruct (known_option o) eqn:Eo.
    + destruct Hk as [m1 E1]. rewrite E1.
      rewrite (bind_Done (put_metacash m1) _ w (with_metacash w m1) tt
                 eq_refl).
      destruct (IH (with_metacash w m1)) as (m' & E & H).
      exists m'. split; [exact E|].
      cbv zeta in *. cbn [metacash with_metacash] in H.
      destruct H as (Hh & Hp & Hd & Hc & He & Hrest).
      unfold parse_option, known_option in E1, Eo.
      cbn [last_option given existsb].
      destruct (optc o) as [[] [] [] [] [] [] [] []]; try discriminate Eo;
        injection E1 as <-; cbn [Ascii.eqb Bool.eqb andb orb] in *;
        cbn [redisHost redisPort serialDevice acceptCoins logSyslogStderr
               sspAvailable evPoll evCheckQuit hopper validator] in *;
        rewrite Hh, Hp, Hd, Hc, He, Hrest;
        rewrite ?(last_option_found _ _ (Some _));
        repeat split;
        rewrite ?orb_true_r, ?orb_true_l, ?orb_false_r; try reflexivity;
        match goal with
        | |- context [last_option ?c ?l None] =>
            now destruct (last_option c l None)
        end.
    + rewrite Hk. exists (metacash w). split; [now destruct w|].
      cbn. now rewrite !orb_false_r.
Qed.

(** *** The handshake *)

Lemma ssp6_call_eq (r : device_ref) (c : ssp_call) (w : World) :
  (a <- ssp6 r c ;; ret (lib_return a)) w
  = Done (lib_return (upcoming w)) (exchanged w r c).
Proof. unfold bind. now rewrite ssp6_eq. Qed.

Lemma ssp6_setup_encryption_eq (r : device_ref) (k : Z) (w : World) :
  ssp6_setup_encryption r k w
  = Done (lib_return (upcoming w)) (negotiated w r k).
Proof.
  unfold ssp6_setup_encryption, negotiated, bind. rewrite ssp6_eq.
  now destruct (is_OK (lib_return (upcoming w))).
Qed.

Lemma ssp6_setup_request_eq (r : device_ref) (w : World) :
  ssp6_setup_request r w
  = Done (lib_return (upcoming w))
      (if is_OK (lib_return (upcoming w))
       then informed (exchanged w r SETUP_REQUEST) r (setup_data (upcoming w))
       else exchanged w r SETUP_REQUEST).
Proof.
  unfold ssp6_setup_request, bind. rewrite ssp6_eq.
  now destruct (is_OK (lib_return (upcoming w))).
Qed.

Lemma ChannelData_at_cases (dev : device_ref) (i : Z) (w : World) :
  (exists c, ChannelData_at dev i w = Done c w)
  \/ ChannelData_at dev i w = Undefined w.
Proof.
  unfold ChannelData_at, bind, get_device.
  destruct (i <? 0); [now right|].
  destruct (nth_error _ _) as [c|]; [left; now exists c | now right].
Qed.

(** The loop that writes the channels to the log. *)
Lemma channels_logged (dev : device_ref) (l : list nat) (w : World) :
  let c :=
    for_each l (fun i => _ <- ChannelData_at dev (Z.of_nat i) ;; ret tt) in
  c w = Done tt w \/ c w = Undefined w.
Proof.
  cbv zeta. induction l as [|i l IH]; cbn [for_each]; [now left|].
  destruct (ChannelData_at_cases dev (Z.of_nat i) w) as [[c E]|E].
  - rewrite (bind_Done _ _ w w tt); [exact IH|].
    now rewrite (bind_Done _ _ _ _ _ E).
  - right. apply bind_Undefined. now apply bind_Undefined.
Qed.

Lemma version_command_eq (r : device_ref) (w : World) :
  (exists v, mc_ssp_get_firmware_version r w
             = Done v (sent_command w r [SSP_CMD_GET_FIRMWARE_VERSION])) /\
  (exists v, mc_ssp_get_dataset_version r w
             = Done v (sent_command w r [SSP_CMD_GET_DATASET_VERSION])).
Proof.
  unfold mc_ssp_get_firmware_version, mc_ssp_get_dataset_version, bind.
  rewrite !mc_ssp_command_eq. unfold get_device, sent_command.
  split; destruct (is_OK _); eexists; reflexivity.
Qed.

Lemma exchanged_available (w : World) (r r' : device_ref) (c : ssp_call) :
  sspDeviceAvailable (device_of (metacash (exchanged w r c)) r')
  = sspDeviceAvailable (device_of (metacash w) r').
Proof. unfold exchanged. cbn. now destruct (sent _), r, r'. Qed.

Lemma commanded_available (w : World) (r r' : device_ref) (data : list Z) :
  sspDeviceAvailable (device_of (metacash (commanded w r data)) r')
  = sspDeviceAvailable (device_of (metacash w) r').
Proof. now destruct r, r'. Qed.

Lemma informed_available (w : World) (r r' : device_ref)
  (s : SSP6_SETUP_REQUEST_DATA) :
  sspDeviceAvailable (device_of (metacash (informed w r s)) r')
  = sspDeviceAvailable (device_of (metacash w) r').
Proof. now destruct r, r'. Qed.

Lemma encrypted_available (w : World) (r r' : device_ref) :
  sspDeviceAvailable (device_of (metacash (encrypted w r)) r')
  = sspDeviceAvailable (device_of (metacash w) r').
Proof. now destruct r, r'. Qed.

Lemma is_OK_eq (r : SSP_RESPONSE_ENUM) :
  is_OK r = true -> r = SSP_RESPONSE_OK.
Proof. now destruct r. Qed.

Ltac unavailable H0 H1 :=
  exfalso; cbn [world_of ret] in H1; unfold sent_command in H1;
  repeat first [ rewrite exchanged_available in H1
               | rewrite commanded_available in H1
               | rewrite informed_available in H1
               | rewrite encrypted_available in H1 ];
  congruence.

Ltac stopped n :=
  eexists; split;
  [ cbn [world_of ret wire exchanged commanded informed encrypted
           with_metacash sent_command];
    rewrite <- ?app_assoc; cbn [app]; reflexivity
  | split;
    [ exists n; reflexivity
    | let H0 := fresh in let H1 := fresh in
      intros H0 H1; unavailable H0 H1 ] ].

(** X23.  [mcSspInitializeDevice] finds a device by a fixed sequence of
    exchanges: SYNC, the key negotiation, protocol version 6, the setup
    request, the two version commands, ENABLE.  It gives up at the first of
    these, other than the version commands, that the device does not
    answer with OK, so what it sends is always a prefix of the sequence.
    It marks the device available only at the very end: a device that has
    become available has seen the whole sequence, and has answered all of
    it, but possibly the version commands, with OK. *)
Theorem available_after_the_handshake (dev : device_ref) (key' : Z)
  (w : World) :
  let w' := world_of (mcSspInitializeDevice dev key' w) in
  exists l,
    wire w' = wire w ++ l /\
    (exists n, map call l = firstn n (handshake key')) /\
    (sspDeviceAvailable (device_of (metacash w) dev) = false ->
     sspDeviceAvailable (device_of (metacash w') dev) = true ->
     map call l = handshake key' /\
     Forall (fun x => is_send (call x) = false ->
                      returned x = SSP_RESPONSE_OK) l).
Proof.
  cbv zeta.
  unfold mcSspInitializeDevice, ssp6_sync, ssp6_host_protocol, ssp6_enable.
  rewrite (bind_Done _ _ _ _ _ (ssp6_call_eq dev SYNC w)).
  destruct (is_OK (lib_return (upcoming w))) eqn:E1; cbn [negb];
    [|stopped 1%nat].
  rewrite (bind_Done _ _ _ _ _ (ssp6_setup_encryption_eq dev key' _)).
  unfold negotiated.
  match goal with
  | |- context [is_OK (lib_return (upcoming ?w1))] =>
      destruct (is_OK (lib_return (upcoming w1))) eqn:E2; cbn [negb];
        [|stopped 2%nat]
  end.
  rewrite (bind_Done _ _ _ _ _
             (ssp6_call_eq dev (HOST_PROTOCOL_VERSION 6) _)).
  match goal with
  | |- context [negb (is_OK (lib_return (upcoming ?w1)))] =>
      destruct (is_OK (lib_return (upcoming w1))) eqn:E3; cbn [negb];
        [|stopped 3%nat]
  end.
  rewrite (bind_Done _ _ _ _ _ (ssp6_setup_request_eq dev _)).
  match goal with
  | |- context [negb (is_OK (lib_return (upcoming ?w1)))] =>
      destruct (is_OK (lib_return (upcoming w1))) eqn:E4; cbn [negb];
        [|stopped 4%nat]
  end.
  erewrite (bind_Done (get_device dev)) by reflexivity.
  match goal with
  | |- context [bind (for_each ?l ?f) ?k ?w4] =>
      destruct (channels_logged dev l w4) as [E|E];
        [rewrite (bind_Done _ _ _ _ _ E)
        |rewrite (bind_Undefined _ _ _ _ E); stopped 4%nat]
  end.
  match goal with
  | |- context [bind (mc_ssp_get_firmware_version dev) ?k ?w4] =>
      destruct (proj1 (version_command_eq dev w4)) as [v E5];
        rewrite (bind_Done _ _ _ _ _ E5)
  end.
  match goal with
  | |- context [bind (mc_ssp_get_dataset_version dev) ?k ?w5] =>
      destruct (proj2 (version_command_eq dev w5)) as [v' E6];
        rewrite (bind_Done _ _ _ _ _ E6)
  end.
  rewrite (bind_Done _ _ _ _ _ (ssp6_call_eq dev ENABLE _)).
  match goal with
  | |- context [negb (is_OK (lib_return (upcoming ?w1)))] =>
      destruct (is_OK (lib_return (upcoming w1))) eqn:E7; cbn [negb];
        [|stopped 7%nat]
  end.
  apply is_OK_eq in E1, E2, E3, E4, E7.
  eexists. split.
  - cbn [world_of set_sspDeviceAvailable bind get_device put_device wire
           exchanged commanded informed encrypted with_metacash
           sent_command].
    rewrite <- ?app_assoc. cbn [app]. reflexivity.
  - split; [exists 7%nat; reflexivity|]. intros _ _.
    split; [reflexivity|].
    repeat (apply Forall_cons;
            [cbn [call returned is_send]; intros Hs;
             first [assumption | discriminate Hs]|]).
    apply Forall_nil.
Qed.

(** ** Quit, and what setup leaves behind *)

Section Shutdown.

Context `{hdr : ssp_commands_h}.

(** X24.  A [quit] request stops the daemon in an orderly way, with or
    without hardware: when the start has succeeded and the loop delivers
    the request and then the tick of the check-quit timer, the request is
    answered with [result: ok], [exiting] is published after the answer,
    nothing is sent to a device, and [main] returns 0. *)
Theorem quit_shuts_down (env : environment)
  (kind topic payload uuid rt m : string) (json : json_t) (r : device_ref)
  (rest : list loop_event) (w : World) :
  startup env (initial_world env) = Done tt w ->
  loop_events env
  = request_message (delivery kind topic payload) uuid (inl json)
      :: check_quit_timer :: rest ->
  routed topic r rt -> kind <> "subscribe" ->
  json_object_get json "msgId" = Some (json_string m) ->
  json_object_get json "cmd" = Some (json_string "quit") ->
  main env = exit_code 0 /\
  exists w',
    main_body env (initial_world env) = Done (Some 0) w' /\
    published w' = [started_event; (rt, ok_reply uuid m); exiting_event] /\
    wire w' = wire w.
Proof.
  intros Hstart Hloop Hroute Hkind Hmsg Hcmd.
  destruct (startup_creates_check_quit env _ _ Hstart) as (Hq & Hs & Hl).
  cbn in Hs, Hl.
  pose proof (startup_publishes_started env (initial_world env)) as Hp.
  rewrite Hstart in Hp. cbn in Hp.
  assert (E : main_body env (initial_world env)
              = Done (Some 0)
                  {| metacash := metacash w; receivedSignal := 0;
                     loopexit := true; wire := wire w;
                     published := published w
                                  ++ [(rt, ok_reply uuid m); exiting_event];
                     answers := answers w |}).
  { unfold main_body. rewrite (bind_Done _ _ _ _ _ Hstart), Hloop.
    cbn [event_base_dispatch deliver].
    unfold bind.
    rewrite (quit_request kind topic payload uuid rt m json r w
               Hroute Hkind Hmsg Hcmd).
    cbn [told signalled loopexit]. rewrite Hl.
    unfold cbOnCheckQuitEvent, bind. cbn. rewrite Hq. cbn.
    now rewrite <- app_assoc. }
  split.
  - unfold main. now rewrite E.
  - eexists. split; [exact E|]. cbn. now rewrite Hp.
Qed.

End Shutdown.

(** ** The poll timer *)

Ltac going_on_leaf :=
  intros; cbv beta; unfold both; split; first [grows_leaf | keeps_leaf].

Lemma exchanged_evPoll (w : World) (r : device_ref) (c : ssp_call) :
  evPoll (metacash (exchanged w r c)) = evPoll (metacash w).
Proof. unfold exchanged. cbn. now destruct (sent _), r. Qed.

Lemma commanded_evPoll (w : World) (r : device_ref) (data : list Z) :
  evPoll (metacash (commanded w r data)) = evPoll (metacash w).
Proof. now destruct r. Qed.

Lemma inhibited_evPoll (w : World) (r : device_ref) (v : Z) :
  evPoll (metacash (inhibited w r v)) = evPoll (metacash w).
Proof. now destruct r. Qed.

Lemma finishes_bind {A} (c : M A) (k : A -> M bool) :
  steps false
    (both (grows wire (fun x => gives_up x = false))
       (keeps (fun w => evPoll (metacash w)))) c ->
  (forall a, finishes (k a)) -> finishes (bind c k).
Proof.
  intros Hc Hk w. unfold bind. destruct (Hc w) as [[(l1 & E1 & F1) Hp] _].
  destruct (c w) as [a w1|rc w1|w1]; [|exact I|exact I].
  cbn [world_of] in E1, Hp. unfold keeps in Hp.
  specialize (Hk a w1). destruct (k a w1) as [b w2| |]; [|exact I|exact I].
  destruct Hk as (l2 & E2 & F2 & Hp2).
  exists (l1 ++ l2). rewrite E2, E1, app_assoc, existsb_app, Hp2, Hp, F2.
  repeat split.
  replace (existsb gives_up l1) with false; [reflexivity|].
  symmetry. clear E1. induction F1 as [|x l Hx F1 IH]; cbn; [reflexivity|].
  now rewrite Hx.
Qed.

Lemma finishes_ret_true : finishes (ret true).
Proof. intros w. exists []. now rewrite app_nil_r. Qed.

Section PollTimer.

Context `{hdr : ssp_commands_h}.

Lemma setup_validator_finishes : finishes setup_validator.
Proof.
  intros w.
  unfold setup_validator, mc_ssp_set_refill_mode, ssp6_set_route,
    ssp6_set_inhibits, ssp6_enable_payout.
  rewrite (bind_Done _ _ _ _ _ (mc_ssp_command_eq _ _ w)).
  do 7 rewrite (bind_Done _ _ _ _ _ (ssp6_call_eq the_validator _ _)).
  rewrite (bind_Done _ _ _ _ _ (set_channelInhibits_eq the_validator 0 _)).
  erewrite (bind_Done (get_device the_validator)) by reflexivity.
  rewrite (bind_Done _ _ _ _ _ (ssp6_call_eq the_validator _ _)).
  match goal with
  | |- context [negb (is_OK (lib_return (upcoming ?w1)))] =>
      destruct (is_OK (lib_return (upcoming w1))) eqn:E1; cbn [negb]
  end.
  - erewrite (bind_Done (get_device the_validator)) by reflexivity.
    rewrite (bind_Done _ _ _ _ _ (ssp6_call_eq the_validator _ _)).
    match goal with
    | |- context [negb (is_OK (lib_return (upcoming ?w1)))] =>
        destruct (is_OK (lib_return (upcoming w1))) eqn:E2; cbn [negb]
    end.
    all: eexists; split;
      [ cbn [ret wire exchanged commanded inhibited with_metacash];
        rewrite <- ?app_assoc; cbn [app]; reflexivity |].
    all: split;
      [ cbn [existsb gives_up last_step call returned andb orb negb];
        rewrite ?E1, ?E2; reflexivity
      | repeat first [ rewrite exchanged_evPoll | rewrite inhibited_evPoll
                     | rewrite commanded_evPoll ];
        reflexivity ].
  - eexists; split;
      [ cbn [ret wire exchanged commanded inhibited with_metacash];
        rewrite <- ?app_assoc; cbn [app]; reflexivity |].
    split;
      [ cbn [existsb gives_up last_step call returned andb orb negb];
        rewrite ?E1; reflexivity
      | repeat first [ rewrite exchanged_evPoll | rewrite inhibited_evPoll
                     | rewrite commanded_evPoll ];
        reflexivity ].
Qed.

(** X25.  [setup] creates the timer of [cbOnPollEvent] unless it has given
    up: it returns without the timer exactly when the validator did not
    answer SET_INHIBITS or ENABLE_PAYOUT with OK.  The daemon then runs, and
    answers requests, but a tick of the poll timer never comes: the devices
    are not polled. *)
Theorem setup_gives_up_without_poll_timer (p s : redis_context)
  (w w' : World) :
  evPoll (metacash w) = false ->
  setup p s w = Done tt w' ->
  exists l,
    wire w' = wire w ++ l /\
    evPoll (metacash w') = negb (existsb gives_up l) /\
    (existsb gives_up l = true -> deliver poll_timer w' = Done tt w').
Proof.
  intros Hp H. unfold setup in H.
  destruct (negb (is_NULL p) && negb (is_NULL s)); [|discriminate H].
  rewrite (bind_Done (ret tt) _ w w tt eq_refl) in H.
  rewrite (bind_Done set_evCheckQuit _ w _ tt eq_refl) in H.
  erewrite (bind_Done get_metacash) in H by reflexivity.
  match type of H with
  | bind ?c _ ?w1 = _ =>
      assert (Hc : finishes c);
      [|specialize (Hc w1); destruct (c w1) as [b w2|rc w2|w2] eqn:Ec;
        [ rewrite (bind_Done _ _ _ _ _ Ec) in H
        | rewrite (bind_Died _ _ _ _ _ Ec) in H; discriminate H
        | rewrite (bind_Undefined _ _ _ _ Ec) in H; discriminate H ]]
  end.
  { cbn [metacash with_metacash sspAvailable].
    destruct (sspAvailable (metacash w)); [|apply finishes_ret_true].
    do 5 (apply finishes_bind; [walk going_on_leaf | intros]).
    apply finishes_bind; [walk going_on_leaf | intros m2].
    apply finishes_bind; [walk going_on_leaf | intros m3].
    destruct (sspDeviceAvailable (validator m3));
      [apply setup_validator_finishes | apply finishes_ret_true]. }
  destruct Hc as (l & Hw & Hg & Hp2). cbn in Hw, Hp2.
  exists l. destruct b; cbn [negb] in Hg; rewrite Hg; cbn [negb].
  - injection H as <-. cbn. now rewrite Hw.
  - injection H as <-. rewrite Hw, Hp2, Hp. repeat split.
    intros _. cbn [deliver]. unfold bind, get_metacash. now rewrite Hp2, Hp.
Qed.

End PollTimer.

(** ** The coins of the hopper *)

Lemma skipn_nth_error {A} (l : list A) (i : nat) (x : A) :
  nth_error l i = Some x -> skipn i l = x :: skipn (S i) l.
Proof.
  revert i. induction l as [|y l IH]; intros [|i]; cbn; try discriminate.
  - now intros [= ->].
  - intros H. now rewrite (IH i H).
Qed.

Lemma coin_inhibits_loop (accept : bool) (n : nat) :
  forall (start : nat) (w : World),
    let chans := ChannelData (sspSetupReq (hopper (metacash w))) in
    (start + n <= List.length chans)%nat ->
    exists w' l,
      for_each (seq start n)
        (fun i =>
           ch <- ChannelData_at the_hopper (Z.of_nat i) ;;
           _ <- ssp6_set_coinmech_inhibits the_hopper (value ch)
                  (channel_cc ch) (if accept then ENABLED else DISABLED) ;;
           ret tt) w
      = Done tt w' /\
      wire w' = wire w ++ l /\
      map call l = map (coin_inhibit accept) (firstn n (skipn start chans)) /\
      Forall (fun x => peer x = the_hopper) l.
Proof.
  induction n as [|n IH]; intros start w chans Hlen.
  - exists w, []. cbn. now rewrite app_nil_r.
  - cbn [seq for_each]. cbv beta.
    destruct (nth_error chans start) as [ch|] eqn:Ech;
      [|apply nth_error_None in Ech; lia].
    assert (E : ChannelData_at the_hopper (Z.of_nat start) w = Done ch w).
    { unfold ChannelData_at, bind, get_device. cbn [device_of].
      destruct (Z.of_nat start <? 0) eqn:Eneg; [lia|].
      rewrite Nat2Z.id. fold chans. now rewrite Ech. }
    assert (E2 :
      (ch <- ChannelData_at the_hopper (Z.of_nat start) ;;
       _ <- ssp6_set_coinmech_inhibits the_hopper (value ch)
              (channel_cc ch) (if accept then ENABLED else DISABLED) ;;
       ret tt) w
      = Done tt (exchanged w the_hopper (coin_inhibit accept ch))).
    { rewrite (bind_Done _ _ _ _ _ E). unfold ssp6_set_coinmech_inhibits.
      now rewrite (bind_Done _ _ _ _ _ (ssp6_call_eq the_hopper _ w)). }
    rewrite (bind_Done _ _ _ _ _ E2).
    match goal with
    | |- context [for_each _ _ ?w1] =>
        destruct (IH (S start) w1) as (w' & l & Hrun & Hw & Hc & Hp)
    end.
    { change (hopper (metacash ?x)) with (device_of (metacash x) the_hopper).
      rewrite exchanged_sspSetupReq. cbn [device_of]. fold chans. lia. }
    exists w'. eexists. split; [exact Hrun|].
    rewrite Hw. split; [|split].
    + unfold exchanged at 1. cbn [wire]. rewrite <- app_assoc. reflexivity.
    + cbn [app map call]. rewrite Hc.
      change (hopper (metacash ?x)) with (device_of (metacash x) the_hopper).
      rewrite exchanged_sspSetupReq. cbn [device_of]. fold chans.
      rewrite (skipn_nth_error _ _ _ Ech). reflexivity.
    + constructor; [reflexivity | exact Hp].
Qed.

Section Coins.

Context `{hdr : ssp_commands_h}.

(** X26.  The option [-c] decides about all the coins: [setup] sends the
    hopper one SET_COINMECH_INHIBITS for each channel that its setup data
    lists, in the order of the channels, with the channel's value and
    currency, and with ENABLED when [acceptCoins] is set and DISABLED when it
    is not.  The responses are not looked at. *)
Theorem coins_follow_the_option (w : World) :
  let s := sspSetupReq (hopper (metacash w)) in
  (Z.to_nat (NumberOfChannels s) <= List.length (ChannelData s))%nat ->
  exists w' l,
    setup_hopper w = Done tt w' /\
    wire w' = wire w ++ l /\
    map call l
    = map (coin_inhibit (acceptCoins (metacash w)))
        (firstn (Z.to_nat (NumberOfChannels s)) (ChannelData s)) /\
    Forall (fun x => peer x = the_hopper) l.
Proof.
  intros s Hlen. unfold setup_hopper.
  rewrite (bind_Done get_metacash _ w w (metacash w) eq_refl). cbv zeta.
  apply (coin_inhibits_loop (acceptCoins (metacash w))
           (Z.to_nat (NumberOfChannels s)) 0 w Hlen).
Qed.

End Coins.

(** ** Addresses *)

#[local] Instance preorder_stays_pinned : preorder stays_pinned.
Proof. split; unfold stays_pinned; auto. Qed.

#[local] Instance preorder_stays_unused : preorder stays_unused.
Proof. split; unfold stays_unused; auto. Qed.

Lemma pinned_exchanged (w : World) (r : device_ref) (c : ssp_call) :
  pinned w -> pinned (exchanged w r c).
Proof.
  intros [Ha Hw]. split.
  - intros r'. rewrite exchanged_SSPAddress. apply Ha.
  - unfold exchanged. cbn [wire]. apply Forall_app. split; [exact Hw|].
    constructor; [|constructor]. exact (Ha r).
Qed.

Lemma pinned_commanded (w : World) (r : device_ref) (data : list Z) :
  pinned w -> pinned (commanded w r data).
Proof.
  intros [Ha Hw]. split; [|exact Hw].
  intros r'. rewrite commanded_SSPAddress. apply Ha.
Qed.

Lemma pinned_inhibited (w : World) (r : device_ref) (v : Z) :
  pinned w -> pinned (inhibited w r v).
Proof.
  intros [Ha Hw]. split; [|exact Hw].
  intros r'. specialize (Ha r'). now destruct r, r'.
Qed.

Ltac pinned_leaf :=
  intros; cbv beta; unfold stays_pinned;
  first
    [ apply pinned_exchanged
    | apply pinned_commanded
    | apply pinned_inhibited
    | let H := fresh "H" in
      let r := fresh "r" in
      intros [H ?]; split; [intros r; specialize (H r); destruct r|];
      cbn in *;
      repeat (match goal with
              | |- context [match ?x with
                            | the_hopper => _ | the_validator => _ end]
                => destruct x
              end; cbn in * );
      assumption ].

Ltac unused_leaf :=
  intros; cbv beta; unfold stays_unused;
  let H := fresh "H" in
  let r := fresh "r" in
  intros [H ?]; split; [intros r; specialize (H r); destruct r|];
  cbn in *; assumption.

Lemma ends_bind (Pre Mid Post Stop : World -> Prop) {A B} (c : M A)
  (k : A -> M B) :
  ends Pre c Mid Stop -> (forall a, ends Mid (k a) Post Stop) ->
  ends Pre (bind c k) Post Stop.
Proof.
  intros Hc Hk w HP. unfold bind. specialize (Hc w HP).
  destruct (c w) as [a w1|rc w1|w1]; [|exact Hc|exact Hc].
  exact (Hk a w1 Hc).
Qed.

(** What [c] keeps when it goes on, it has also kept when it stops. *)
Lemma ends_steps (I Stop : World -> Prop) {A} (c : M A) :
  steps false (fun w w' => I w -> I w') c -> (forall w, I w -> Stop w) ->
  ends I c I Stop.
Proof.
  intros Hc HS w HI. destruct (Hc w) as [HT _]. specialize (HT HI).
  destruct (c w); cbn [world_of] in HT; auto.
Qed.

Lemma parse_option_devices (m m' : m_metacash) (o : getopt_return) :
  parse_option m o = inl m' ->
  forall r, device_of m' r = device_of m r.
Proof.
  unfold parse_option.
  destruct (optc o) as [[] [] [] [] [] [] [] []]; try discriminate;
    intros [= <-] []; reflexivity.
Qed.

Lemma bind_assoc {A B C} (c : M A) (k : A -> M B) (k' : B -> M C)
  (w : World) :
  bind (bind c k) k' w = bind c (fun a => bind (k a) k') w.
Proof. unfold bind. now destruct (c w). Qed.

Section Addresses.

Context `{hdr : ssp_commands_h}.

Lemma deliver_stays_pinned (e : loop_event) :
  steps false stays_pinned (deliver e).
Proof.
  destruct e as [number| | |r uuid loaded]; cbn [deliver];
    walk pinned_leaf.
Qed.

Lemma dispatch_stays_pinned (es : list loop_event) :
  steps false stays_pinned (event_base_dispatch es).
Proof.
  induction es as [|e rest IH]; cbn [event_base_dispatch].
  - apply steps_ret.
  - apply steps_bind; [apply deliver_stays_pinned|]. intros _.
    now apply steps_unless_loopexit.
Qed.

Lemma pinned_addressed (w : World) : pinned w -> Forall addressed (wire w).
Proof. now intros [_ H]. Qed.

Lemma unused_addressed (w : World) : unused w -> Forall addressed (wire w).
Proof. intros [_ H]. rewrite H. constructor. Qed.

(** With the serial port open, [setup] copies the ids of the devices into
    their [sspC] before it talks to them. *)
Lemma setup_pins (p s : redis_context) :
  ends (fun w => unused w /\ sspAvailable (metacash w) = true) (setup p s)
    pinned (fun w => Forall addressed (wire w)).
Proof.
  intros w [[Hid Hw] Hav]. unfold setup.
  destruct (negb (is_NULL p) && negb (is_NULL s));
    [|cbn; rewrite Hw; constructor].
  rewrite (bind_Done (ret tt) _ w w tt eq_refl).
  rewrite (bind_Done set_evCheckQuit _ w _ tt eq_refl).
  erewrite (bind_Done get_metacash) by reflexivity.
  cbn [metacash with_metacash sspAvailable]. rewrite Hav.
  rewrite bind_assoc.
  erewrite (bind_Done (mcSspSetupCommand the_validator _)) by reflexivity.
  rewrite bind_assoc.
  erewrite (bind_Done (mcSspSetupCommand the_hopper _)) by reflexivity.
  match goal with
  | |- match ?c ?w1 with _ => _ end =>
      assert (Hc : steps false stays_pinned c) by walk pinned_leaf;
      assert (Hp : pinned w1)
  end.
  { split; [|cbn; rewrite Hw; constructor].
    intros []; cbn; [exact (Hid the_hopper) | exact (Hid the_validator)]. }
  match goal with
  | |- match ?c ?w1 with _ => _ end =>
      destruct (Hc w1) as [HT _]; specialize (HT Hp);
      destruct (c w1); cbn [world_of] in HT;
      first [exact HT | exact (pinned_addressed _ HT)]
  end.
Qed.

Lemma startup_pins (env : environment) :
  serial env = port_opens ->
  ends unused (startup env) pinned (fun w => Forall addressed (wire w)).
Proof.
  intros Hport. unfold startup. rewrite Hport. cbn [mcSspOpenSerialDevice Z.eqb].
  apply (ends_bind _ unused).
  { apply ends_steps; [|apply unused_addressed].
    apply steps_parseCmdLine. intros w m o m' Ho <- [Hid Hw].
    split; [|exact Hw]. intros r. cbn [metacash with_metacash].
    rewrite (parse_option_devices _ _ _ Ho). apply Hid. }
  intros rc. apply (ends_bind _ unused).
  { apply ends_steps; [|apply unused_addressed]. walk unused_leaf. }
  intros _.
  apply (ends_bind _ (fun w => unused w /\ sspAvailable (metacash w) = true)).
  { intros w [Hid Hw]. cbn. split; [|reflexivity]. split; [|exact Hw].
    intros []; [exact (Hid the_hopper) | exact (Hid the_validator)]. }
  intros _. apply (ends_bind _ pinned); [apply setup_pins|]. intros _.
  apply ends_steps; [|apply pinned_addressed].
  change (steps false stays_pinned
            (publishPayoutEvent [("event", FStr "started")])).
  walk pinned_leaf.
Qed.

(** X27.  Each device is always spoken to at its own address: in every run
    of [main], whatever the options, the events and the answers of the
    devices, every exchange with the hopper is made with the address 0x10
    in its [sspC] and every exchange with the validator with the address
    0x00. *)
Theorem devices_keep_their_addresses (env : environment) :
  Forall addressed (wire (world_of (main_body env (initial_world env)))).
Proof.
  destruct (serial env) eqn:Hport.
  1-3: assert (Hno : serial env <> port_opens)
         by (rewrite Hport; discriminate);
    destruct (main_stays_offline env Hno (initial_world env)) as [HT _];
    destruct (HT eq_refl) as [_ ->]; constructor.
  assert (Hu : unused (initial_world env)).
  { split; [intros []|]; reflexivity. }
  pose proof (startup_pins env Hport (initial_world env) Hu) as Hs.
  unfold main_body.
  destruct (startup env (initial_world env)) as [[] w1|rc w1|w1] eqn:E.
  - rewrite (bind_Done _ _ _ _ _ E).
    match goal with
    | |- context [world_of (?c w1)] =>
        assert (Hc : steps false stays_pinned c)
    end.
    { apply steps_bind; [apply dispatch_stays_pinned|]. intros exited.
      walk pinned_leaf. }
    apply pinned_addressed. now apply (Hc w1).
  - now rewrite (bind_Died _ _ _ _ _ E).
  - now rewrite (bind_Undefined _ _ _ _ E).
Qed.

End Addresses.

(** * Denomination levels, note amounts and KEY_NOT_SET *)

(** ** Denomination levels *)

Lemma to_int_mod_32 (z : Z) : CInt.to_int z mod 2 ^ 32 = z mod 2 ^ 32.
Proof. exact (to_uint_to_int z). Qed.

Lemma to_int_mod_16 (z : Z) : CInt.to_int z mod 2 ^ 16 = z mod 2 ^ 16.
Proof.
  rewrite <- (mod_32_16 (CInt.to_int z)), to_int_mod_32. apply mod_32_16.
Qed.

Section Levels.

Context `{hdr : ssp_commands_h}.

(** C3, amended.  The handler converts the integers [level] and [amount]
    of the request to [int].  It issues two SET_DENOMINATION_LEVEL commands
    exactly when the converted level is greater than 0, and one command
    exactly when it is not.  Each command is ten bytes: 0x34, a level in
    two bytes, the amount in four bytes (its low 32 bits), least
    significant byte first, and the letters EUR.  Of two commands the
    first carries the level 0 and the second the low 16 bits of the
    requested level; a single command carries the low 16 bits of the
    requested level.  For a level from 0 to [INT_MAX] this makes two
    commands if and only if [level > 0] and one if and only if
    [level = 0]; below 2^16 the level on the wire is the requested one. *)
Theorem set_denomination_level_commands (cmd : m_command) (jl ja : Z)
  (w : World) :
  json_object_get (jsonMessage cmd) "level" = Some (json_integer jl) ->
  json_object_get (jsonMessage cmd) "amount" = Some (json_integer ja) ->
  exists w' exchanges l a,
    handleSetDenominationLevels cmd w = Done tt w' /\
    wire w' = wire w ++ exchanges /\
    Forall (fun x => peer x = device cmd) exchanges /\
    List.length l = 2%nat /\ List.length a = 4%nat /\
    Forall is_byte (l ++ a) /\
    le_value l = jl mod 2 ^ 16 /\ le_value a = ja mod 2 ^ 32 /\
    List.map call exchanges
    = (if 0 <? CInt.to_int jl
       then [SEND (0x34 :: [0; 0] ++ a ++ [69; 85; 82]);
             SEND (0x34 :: l ++ a ++ [69; 85; 82])]
       else [SEND (0x34 :: l ++ a ++ [69; 85; 82])]) /\
    (List.length exchanges = 2%nat <-> 0 < CInt.to_int jl) /\
    (List.length exchanges = 1%nat <-> CInt.to_int jl <= 0) /\
    (0 <= jl <= CInt.INT_MAX ->
     (List.length exchanges = 2%nat <-> jl > 0) /\
     (List.length exchanges = 1%nat <-> jl = 0) /\
     (jl < 2 ^ 16 -> le_value l = jl)).
Proof.
  intros Hl Ha.
  set (level := CInt.to_int jl). set (amount := CInt.to_int ja).
  assert (Hfacts :
    List.length (le_bytes level 2) = 2%nat /\
    List.length (le_bytes amount 4) = 4%nat /\
    Forall is_byte (le_bytes level 2 ++ le_bytes amount 4) /\
    le_value (le_bytes level 2) = jl mod 2 ^ 16 /\
    le_value (le_bytes amount 4) = ja mod 2 ^ 32).
  { split; [apply le_bytes_length|]. split; [apply le_bytes_length|].
    split; [apply Forall_app; split; apply le_bytes_are_bytes|].
    rewrite !le_value_le_bytes.
    change (8 * Z.of_nat 2) with 16. change (8 * Z.of_nat 4) with 32.
    split; [apply to_int_mod_16 | apply to_int_mod_32]. }
  destruct Hfacts as (F1 & F2 & F3 & F4 & F5).
  assert (Hsmall : 0 <= jl <= CInt.INT_MAX -> level = jl).
  { intros H. apply CIntFacts.to_int_small. lia. }
  unfold handleSetDenominationLevels. rewrite Hl, Ha.
  cbn [json_is_integer negb json_integer_value]. fold level amount.
  rewrite Z.gtb_ltb.
  destruct (Z.ltb_spec 0 level) as [Hpos|Hnot]; exec.
  - match goal with
    | |- context [lib_return ?a] => destruct (lib_return a)
    end; exec;
      eexists; eexists;
      exists (le_bytes level 2), (le_bytes amount 4);
      (split; [reflexivity|]);
      cbn [wire told exchanged commanded with_metacash];
      rewrite <- app_assoc;
      (split; [reflexivity|]);
      (split; [repeat constructor|]);
      (split; [exact F1|]); (split; [exact F2|]); (split; [exact F3|]);
      (split; [exact F4|]); (split; [exact F5|]);
      (split; [reflexivity|]);
      cbn [List.length app];
      (split; [split; [intros _; exact Hpos | reflexivity]|]);
      (split; [split; [discriminate | lia]|]);
      intros Hjl; rewrite (Hsmall Hjl) in Hpos;
      (split; [split; [lia | reflexivity]|]);
      (split; [split; [discriminate | lia]|]);
      intros H16; rewrite F4; apply Z.mod_small; lia.
  - match goal with
    | |- context [lib_return ?a] => destruct (lib_return a)
    end; exec;
      eexists; eexists;
      exists (le_bytes level 2), (le_bytes amount 4);
      (split; [reflexivity|]);
      cbn [wire told exchanged commanded with_metacash];
      (split; [reflexivity|]);
      (split; [repeat constructor|]);
      (split; [exact F1|]); (split; [exact F2|]); (split; [exact F3|]);
      (split; [exact F4|]); (split; [exact F5|]);
      (split; [reflexivity|]);
      cbn [List.length app];
      (split; [split; [discriminate | lia]|]);
      (split; [split; [intros _; exact Hnot | reflexivity]|]);
      intros Hjl; rewrite (Hsmall Hjl) in Hnot;
      (split; [split; [discriminate | lia]|]);
      (split; [split; [lia | reflexivity]|]);
      intros H16; rewrite F4; apply Z.mod_small; lia.
Qed.

End Levels.

(** ** Note amounts *)




Section Notes.

Context `{hdr : ssp_commands_h}.






End Notes.

(** ** KEY_NOT_SET *)

Lemma key_not_set_sent (w : World) :
  lib_return (upcoming w) = SSP_RESPONSE_KEY_NOT_SET ->
  sent (upcoming w) = true /\
  code (response (upcoming w)) = SSP_RESPONSE_KEY_NOT_SET.
Proof.
  unfold lib_return. destruct (sent (upcoming w)); [now split|discriminate].
Qed.

Section KeyNotSet.

Context `{hdr : ssp_commands_h}.

(** The response code that an [mc_ssp_*] function reads from the buffer. *)
Lemma read_key_not_set (w : World) (r : device_ref) (data : list Z) :
  lib_return (upcoming w) = SSP_RESPONSE_KEY_NOT_SET ->
  code (ResponseData (sspC (device_of (metacash (sent_command w r data)) r)))
  = SSP_RESPONSE_KEY_NOT_SET.
Proof.
  intros H. destruct (key_not_set_sent w H) as [Hs Hc].
  now rewrite sent_command_response.
Qed.

Ltac refuse H :=
  unfold refused; exec; rewrite ?H; cbn [is_OK negb]; exec;
  eexists; eexists; (split; [reflexivity|]);
  cbn [wire told exchanged commanded inhibited with_metacash published
         sent_command];
  repeat split; exact H.

Ltac read_and_refuse H :=
  unfold refused;
  erewrite (bind_Done _ _ _ (sent_command _ _ _)
              (SSP_RESPONSE_KEY_NOT_SET, _));
  [ | rewrite send_and_read, (proj1 (key_not_set_sent _ H)); cbn [negb];
      unfold bind, get_device, ret; rewrite (read_key_not_set _ _ _ H);
      cbn [is_OK negb]; reflexivity ];
  cbv beta iota; refuse H.

Lemma handlers_refused (cmd : m_command) (w : World) :
  lib_return (upcoming w) = SSP_RESPONSE_KEY_NOT_SET ->
  refused cmd w (handleEmpty cmd) /\
  refused cmd w (handleSmartEmpty cmd) /\
  refused cmd w (handleEnable cmd) /\
  refused cmd w (handleDisable cmd) /\
  refused cmd w (handleGetAllLevels cmd) /\
  refused cmd w (handleCashboxPayoutOperationData cmd) /\
  refused cmd w (handleGetFirmwareVersion cmd) /\
  refused cmd w (handleGetDatasetVersion cmd) /\
  refused cmd w (handleLastRejectNote cmd).
Proof.
  intros H. repeat split.
  - unfold handleEmpty. refuse H.
  - unfold handleSmartEmpty, mc_ssp_smart_empty. refuse H.
  - unfold handleEnable. refuse H.
  - unfold handleDisable. refuse H.
  - unfold handleGetAllLevels, mc_ssp_get_all_levels. read_and_refuse H.
  - unfold handleCashboxPayoutOperationData,
      mc_ssp_cashbox_payout_operation_data. read_and_refuse H.
  - unfold handleGetFirmwareVersion, mc_ssp_get_firmware_version.
    refuse H.
  - unfold handleGetDatasetVersion, mc_ssp_get_dataset_version.
    refuse H.
  - unfold handleLastRejectNote, mc_ssp_last_reject_note.
    read_and_refuse H.
Qed.

Lemma channel_handlers_refused (cmd : m_command) (w : World) :
  lib_return (upcoming w) = SSP_RESPONSE_KEY_NOT_SET ->
  json_is_string (json_object_get (jsonMessage cmd) "channels") = true ->
  refused cmd w (handleEnableChannels cmd) /\
  refused cmd w (handleDisableChannels cmd) /\
  refused cmd w (handleInhibitChannels cmd).
Proof.
  intros H Hs.
  unfold handleEnableChannels, handleDisableChannels, handleInhibitChannels.
  destruct (json_object_get (jsonMessage cmd) "channels") as [[]|];
    try discriminate Hs.
  cbn [json_string_value]. repeat split; refuse H.
Qed.

Lemma amount_handlers_refused (cmd : m_command) (w : World) :
  lib_return (upcoming w) = SSP_RESPONSE_KEY_NOT_SET ->
  json_is_integer (json_object_get (jsonMessage cmd) "amount") = true ->
  refused cmd w (handleFloat cmd) /\
  refused cmd w (handlePayout cmd) /\
  (json_is_integer (json_object_get (jsonMessage cmd) "level") = true ->
   refused cmd w (handleSetCashboxPayoutLimit cmd) /\
   (CInt.to_int
      (json_integer_value (json_object_get (jsonMessage cmd) "level")) <= 0 ->
    refused cmd w (handleSetDenominationLevels cmd))).
Proof.
  intros H Ha.
  split; [|split; [|intros Hl; split; [|intros Hle]]].
  - unfold handleFloat, mc_ssp_float. rewrite Ha. cbn [negb]. refuse H.
  - unfold handlePayout. rewrite Ha. cbn [negb]. refuse H.
  - unfold handleSetCashboxPayoutLimit, mc_ssp_set_cashbox_payout_limit.
    rewrite Hl, Ha. cbn [negb]. refuse H.
  - unfold handleSetDenominationLevels. rewrite Hl, Ha. cbn [negb].
    rewrite Z.gtb_ltb.
    destruct (Z.ltb_spec 0
                (CInt.to_int
                   (json_integer_value
                      (json_object_get (jsonMessage cmd) "level"))));
      [lia|].
    refuse H.
Qed.

Lemma handleConfigureBezel_refused (cmd : m_command) (w : World) :
  lib_return (upcoming w) = SSP_RESPONSE_KEY_NOT_SET ->
  json_is_integer (json_object_get (jsonMessage cmd) "r") = true ->
  json_is_integer (json_object_get (jsonMessage cmd) "g") = true ->
  json_is_integer (json_object_get (jsonMessage cmd) "b") = true ->
  json_is_integer (json_object_get (jsonMessage cmd) "type") = true ->
  refused cmd w (handleConfigureBezel cmd).
Proof.
  intros H Hr Hg Hb Ht.
  unfold handleConfigureBezel, mc_ssp_configure_bezel.
  rewrite Hr, Hg, Hb, Ht. cbn [negb]. refuse H.
Qed.

(** What [first_missing] has tested. *)
Ltac tested Hmiss :=
  unfold required in Hmiss;
  cbn [String.eqb Ascii.eqb Bool.eqb orb first_missing has_property fst snd]
    in Hmiss;
  repeat match type of Hmiss with
         | context [json_is_integer ?j] =>
             let E := fresh "E" in
             destruct (json_is_integer j) eqn:E; try discriminate Hmiss
         | context [json_is_string ?j] =>
             let E := fresh "E" in
             destruct (json_is_string j) eqn:E; try discriminate Hmiss
         end.

Lemma request_refused (kind topic payload uuid rt m c : string)
  (json : json_t) (r : device_ref) (w : World) :
  routed topic r rt -> kind <> "subscribe" ->
  json_object_get json "msgId" = Some (json_string m) ->
  json_object_get json "cmd" = Some (json_string c) ->
  sspAvailable (metacash w) = true ->
  In c reporting_commands ->
  first_missing json (required c) = None ->
  (c = "set-denomination-level" ->
   CInt.to_int (json_integer_value (json_object_get json "level")) <= 0) ->
  lib_return (upcoming w) = SSP_RESPONSE_KEY_NOT_SET ->
  exists w' x,
    cbOnRequestMessage (delivery kind topic payload) uuid (inl json) w
    = Done tt w' /\
    wire w' = wire w ++ [x] /\
    peer x = r /\
    returned x = SSP_RESPONSE_KEY_NOT_SET /\
    is_setup_encryption (call x) = false /\
    published w' = published w ++ [(rt, key_not_set_reply uuid m)].
Proof.
  intros Hroute Hkind Hmsg Hcmd Hav Hin Hmiss Hlevel H.
  apply String.eqb_neq in Hkind.
  unfold cbOnRequestMessage, delivery; cbn [type element]; rewrite Hkind.
  destruct Hroute as [(-> & -> & ->)|(-> & -> & ->)];
    cbn [String.eqb Ascii.eqb Bool.eqb]; cbv zeta;
    rewrite Hmsg, Hcmd; cbn [json_is_string json_string_value negb];
    unfold isCommand; cbn [command].
  all: unfold reporting_commands in Hin; cbn [In] in Hin.
  all: repeat (destruct Hin as [<-|Hin]); [..|destruct Hin].
  all: cbn [String.eqb Ascii.eqb Bool.eqb orb].
  all: rewrite (bind_Done get_metacash _ w w (metacash w) eq_refl), Hav;
    cbn [negb].
  all: tested Hmiss.
  all: match goal with
       | |- exists w' x, ?h ?cmd _ = _ /\ _ =>
           pose proof (handlers_refused cmd w H) as Ha;
           pose proof (channel_handlers_refused cmd w H) as Hb;
           pose proof (amount_handlers_refused cmd w H) as Hc;
           pose proof (handleConfigureBezel_refused cmd w H) as Hd
       end.
  all: cbn [jsonMessage] in Hb, Hc, Hd.
  all: first
         [ exact (proj1 Ha)
         | exact (proj1 (proj2 Ha))
         | exact (proj1 (proj2 (proj2 Ha)))
         | exact (proj1 (proj2 (proj2 (proj2 Ha))))
         | exact (proj1 (proj2 (proj2 (proj2 (proj2 Ha)))))
         | exact (proj1 (proj2 (proj2 (proj2 (proj2 (proj2 Ha))))))
         | exact (proj1 (proj2 (proj2 (proj2 (proj2 (proj2 (proj2 Ha)))))))
         | exact (proj1 (proj2 (proj2 (proj2 (proj2 (proj2 (proj2
                    (proj2 Ha))))))))
         | exact (proj2 (proj2 (proj2 (proj2 (proj2 (proj2 (proj2
                    (proj2 Ha))))))))
         | exact (proj1 (Hb ltac:(assumption)))
         | exact (proj1 (proj2 (Hb ltac:(assumption))))
         | exact (proj2 (proj2 (Hb ltac:(assumption))))
         | exact (proj1 (Hc ltac:(assumption)))
         | exact (proj1 (proj2 (Hc ltac:(assumption))))
         | exact (proj1 (proj2 (proj2 (Hc ltac:(assumption)))
                           ltac:(assumption)))
         | exact (proj2 (proj2 (proj2 (Hc ltac:(assumption)))
                           ltac:(assumption)) (Hlevel eq_refl))
         | exact (Hd ltac:(assumption) ltac:(assumption) ltac:(assumption)
                    ltac:(assumption)) ].
Qed.

(** [set-denomination-level] with a level above 0 does not look at the
    response to its first command. *)
Lemma levels_ignore_first_response (kind topic payload uuid rt m : string)
  (json : json_t) (jl ja : Z) (r : device_ref) (w : World) :
  routed topic r rt -> kind <> "subscribe" ->
  json_object_get json "msgId" = Some (json_string m) ->
  json_object_get json "cmd" = Some (json_string "set-denomination-level") ->
  sspAvailable (metacash w) = true ->
  json_object_get json "level" = Some (json_integer jl) ->
  json_object_get json "amount" = Some (json_integer ja) ->
  0 < CInt.to_int jl ->
  exists w' x0 x1,
    cbOnRequestMessage (delivery kind topic payload) uuid (inl json) w
    = Done tt w' /\
    wire w' = wire w ++ [x0; x1] /\
    returned x0 = lib_return (upcoming w) /\
    is_setup_encryption (call x0) = false /\
    is_setup_encryption (call x1) = false /\
    (returned x1 = SSP_RESPONSE_OK ->
     published w' = published w ++ [(rt, ok_reply uuid m)]) /\
    (returned x1 = SSP_RESPONSE_KEY_NOT_SET ->
     published w' = published w ++ [(rt, key_not_set_reply uuid m)]).
Proof.
  intros Hroute Hkind Hmsg Hcmd Hav Hl Ha Hpos.
  apply String.eqb_neq in Hkind.
  unfold cbOnRequestMessage, delivery; cbn [type element]; rewrite Hkind.
  destruct Hroute as [(-> & -> & ->)|(-> & -> & ->)];
    cbn [String.eqb Ascii.eqb Bool.eqb]; cbv zeta;
    rewrite Hmsg, Hcmd; cbn [json_is_string json_string_value negb];
    unfold isCommand; cbn [command].
  all: cbn [String.eqb Ascii.eqb Bool.eqb orb].
  all: rewrite (bind_Done get_metacash _ w w (metacash w) eq_refl), Hav;
    cbn [negb].
  all: unfold handleSetDenominationLevels; cbn [jsonMessage];
    rewrite Hl, Ha; cbn [json_is_integer negb json_integer_value].
  all: rewrite Z.gtb_ltb; destruct (Z.ltb_spec 0 (CInt.to_int jl)); [|lia].
  all: exec.
  all: match goal with
       | |- context [replyWithSspResponse _ (lib_return ?a)] =>
           destruct (lib_return a) eqn:E2
       | |- context [match lib_return ?a with _ => _ end] =>
           destruct (lib_return a) eqn:E2
       end; exec.
  all: eexists; eexists; eexists; (split; [reflexivity|]).
  all: cbn [wire told exchanged commanded with_metacash published].
  all: rewrite <- app_assoc; cbn [app].
  all: repeat split; try reflexivity.
  all: cbn [returned]; intros E; try reflexivity;
    exfalso; generalize (eq_trans (eq_sym E2) E); discriminate.
Qed.

(** C5, amended.  A poll that is answered with KEY_NOT_SET is followed by
    one key negotiation and is not replayed; nothing is published in that
    tick.  The handling of a request never negotiates a key, whatever the
    devices answer.  A request whose command is answered with KEY_NOT_SET
    makes that one exchange and is answered with
    [{msgId, correlId, sspError: "key not set"}]: so it is for every
    command that reports the response of the device, with one exception.
    [set-denomination-level] with a level above 0 ignores the response to
    its first command: it sends the second command whatever the first
    response, and reports the response to the second. *)
Theorem key_not_set_handling :
  (forall dev w,
      lib_return (upcoming w) = SSP_RESPONSE_KEY_NOT_SET ->
      exists w',
        mcSspPollDevice dev w = Done tt w' /\
        List.map call (skipn (List.length (wire w)) (wire w'))
        = [POLL; SETUP_ENCRYPTION (key (device_of (metacash w) dev))] /\
        published w' = published w)
  /\
  (forall r uuid loaded w,
      exists l,
        wire (world_of (cbOnRequestMessage r uuid loaded w)) = wire w ++ l /\
        Forall (fun x => is_setup_encryption (call x) = false) l)
  /\
  (forall kind topic payload uuid rt m c json r w,
      routed topic r rt -> kind <> "subscribe" ->
      json_object_get json "msgId" = Some (json_string m) ->
      json_object_get json "cmd" = Some (json_string c) ->
      sspAvailable (metacash w) = true ->
      In c reporting_commands ->
      first_missing json (required c) = None ->
      (c = "set-denomination-level" ->
       CInt.to_int (json_integer_value (json_object_get json "level"))
       <= 0) ->
      lib_return (upcoming w) = SSP_RESPONSE_KEY_NOT_SET ->
      exists w' x,
        cbOnRequestMessage (delivery kind topic payload) uuid (inl json) w
        = Done tt w' /\
        wire w' = wire w ++ [x] /\
        peer x = r /\
        returned x = SSP_RESPONSE_KEY_NOT_SET /\
        is_setup_encryption (call x) = false /\
        published w' = published w ++ [(rt, key_not_set_reply uuid m)])
  /\
  (forall kind topic payload uuid rt m json jl ja r w,
      routed topic r rt -> kind <> "subscribe" ->
      json_object_get json "msgId" = Some (json_string m) ->
      json_object_get json "cmd"
      = Some (json_string "set-denomination-level") ->
      sspAvailable (metacash w) = true ->
      json_object_get json "level" = Some (json_integer jl) ->
      json_object_get json "amount" = Some (json_integer ja) ->
      0 < CInt.to_int jl ->
      lib_return (upcoming w) = SSP_RESPONSE_KEY_NOT_SET ->
      exists w' x0 x1,
        cbOnRequestMessage (delivery kind topic payload) uuid (inl json) w
        = Done tt w' /\
        wire w' = wire w ++ [x0; x1] /\
        returned x0 = SSP_RESPONSE_KEY_NOT_SET /\
        is_setup_encryption (call x0) = false /\
        is_setup_encryption (call x1) = false /\
        (returned x1 = SSP_RESPONSE_OK ->
         published w' = published w ++ [(rt, ok_reply uuid m)]) /\
        (returned x1 = SSP_RESPONSE_KEY_NOT_SET ->
         published w' = published w ++ [(rt, key_not_set_reply uuid m)])).
Proof.
  split; [|split; [|split]].
  - intros dev w H. eexists. split; [now apply mcSspPollDevice_key_not_set|].
    split.
    + unfold negotiated.
      destruct (is_OK (lib_return (upcoming (exchanged w dev POLL))));
        cbn [wire exchanged encrypted with_metacash];
        rewrite <- app_assoc;
        now rewrite skipn_app, skipn_all, Nat.sub_diag.
    + unfold negotiated.
      now destruct (is_OK (lib_return (upcoming (exchanged w dev POLL)))).
  - intros r uuid loaded w.
    destruct (request_without_negotiation r uuid loaded w)
      as ((l & Hl & Fl) & _).
    exists l. now split.
  - intros. now apply (request_refused kind topic payload uuid rt m c).
  - intros kind topic payload uuid rt m json jl ja r w Hroute Hkind Hmsg Hcmd
      Hav Hl Ha Hpos H.
    destruct (levels_ignore_first_response kind topic payload uuid rt m json
                jl ja r w Hroute Hkind Hmsg Hcmd Hav Hl Ha Hpos)
      as (w' & x0 & x1 & E & Hw & H0 & Hrest).
    exists w', x0, x1. split; [exact E|]. split; [exact Hw|].
    split; [now rewrite H0|]. exact Hrest.
Qed.

End KeyNotSet.

(** * The theorems at concrete inputs *)

Ltac by_computation :=
  vm_compute; repeat split; try reflexivity; try (intro; discriminate).

Ltac run := vm_compute; reflexivity.

(** The validator's pair of topics. *)
Lemma routed_validator :
  routed "validator-request" the_validator "validator-response".
Proof. left. repeat split. Defined.

(** enable-channels("12") on the validator of the laboratory. *)
Lemma channels_mask_written_and_kept_witness :
  let cmd := lab_command "enable-channels" [("channels", json_string "12")] in
  let w := lab_world [ok] in
  json_object_get (jsonMessage cmd) "channels" = Some (json_string "12") /\
  0 <= channelInhibits (device_of (metacash w) (device cmd)) < 256 /\
  exists newLow w',
    handleEnableChannels cmd w = Done tt w' /\
    channelInhibits (device_of (metacash w') (device cmd)) = newLow.
Proof.
  intros cmd w.
  assert (H1 : json_object_get (jsonMessage cmd) "channels"
               = Some (json_string "12")) by run.
  assert (H2 : 0 <= channelInhibits (device_of (metacash w) (device cmd))
               < 256) by by_computation.
  split; [exact H1|]. split; [exact H2|].
  destruct (channels_mask_written_and_kept cmd "12" w H1 H2)
    as [(newLow & w' & E & _ & _ & Hok & _) _].
  exists newLow, w'. split; [exact E|]. apply Hok. run.
Defined.

(** The two requests on [validator-request], both acknowledged. *)
Lemma enable_135_then_disable_3_witness :
  exists w1 w2,
    cbOnRequestMessage (hdr := manual_header)
      (incoming "validator-request" "") "uuid-1"
      (inl (request "a" "enable-channels" [("channels", json_string "135")]))
      (lab_world [ok; ok]) = Done tt w1 /\
    cbOnRequestMessage (hdr := manual_header)
      (incoming "validator-request" "") "uuid-2"
      (inl (request "b" "disable-channels" [("channels", json_string "3")]))
      w1 = Done tt w2 /\
    channelInhibits (device_of (metacash w2) the_validator) = 0x11.
Proof.
  apply (enable_135_then_disable_3 (hdr := manual_header)
           "validator-request" "validator-response" "" "" "uuid-1" "uuid-2"
           "a" "b" the_validator (lab_world [ok; ok]) ok ok []).
  - exact routed_validator.
  - run.
  - run.
  - run.
  - run.
  - run.
Defined.

(** set-denomination-level with amount 200 and level 15: two commands. *)
Lemma set_denomination_level_commands_witness :
  let cmd :=
    lab_command "set-denomination-level"
      [("amount", json_integer 200); ("level", json_integer 15)] in
  exists w' exchanges,
    handleSetDenominationLevels cmd (lab_world []) = Done tt w' /\
    wire w' = wire (lab_world []) ++ exchanges /\
    List.length exchanges = 2%nat.
Proof.
  intros cmd.
  destruct (set_denomination_level_commands cmd 15 200 (lab_world [])
              eq_refl eq_refl)
    as (w' & exchanges & l & a & E & Hw & _ & _ & _ & _ & _ & _ & _ & H2 & _).
  exists w', exchanges. split; [exact E|]. split; [exact Hw|].
  apply H2. reflexivity.
Defined.


(** A request whose [msgId] is a number. *)
Lemma missing_msgId_reply_witness :
  let json := json_object [("cmd", json_string "test"); ("msgId", json_integer 7)] in
  "message" <> "subscribe" /\
  json_is_string (json_object_get json "msgId") = false /\
  cbOnRequestMessage (hdr := manual_header)
    (incoming "validator-request" "") "uuid-1" (inl json) (lab_world [])
  = Done tt
      (told (lab_world []) "validator-response"
         [("msgId", FStr "uuid-1"); ("correlId", FStr "unknown");
          ("error", FStr "Property 'msgId' missing or of wrong type")]).
Proof.
  intros json.
  assert (H1 : "message" <> "subscribe") by discriminate.
  assert (H2 : json_is_string (json_object_get json "msgId") = false)
    by run.
  split; [exact H1|]. split; [exact H2|].
  exact (missing_msgId_reply (hdr := manual_header) "message"
           "validator-request" "" "uuid-1" "validator-response" json
           the_validator (lab_world []) routed_validator H1 H2).
Defined.

(** channel-security-data on [validator-request]: the bus stays silent. *)
Lemma channel_security_data_unanswered_witness :
  sspAvailable (metacash (lab_world [ok])) = true /\
  exists w',
    cbOnRequestMessage (hdr := manual_header)
      (incoming "validator-request" "") "uuid-1"
      (inl (request "req-1" "channel-security-data" [])) (lab_world [ok])
    = Done tt w' /\
    published w' = published (lab_world [ok]).
Proof.
  assert (H : sspAvailable (metacash (lab_world [ok])) = true)
    by run.
  split; [exact H|].
  destruct (channel_security_data_unanswered (hdr := manual_header)
              "validator-request" "" "uuid-1" "req-1" "validator-response"
              the_validator (lab_world [ok]) routed_validator H)
    as (w' & E & _ & Hp).
  exists w'. split; [exact E | exact Hp].
Defined.

(** ** Where the specification and the code part *)



(** C3, counterexample.  A level of 2^32 is greater than 0, but the [int]
    of the handler holds 0: one command is sent, with the level 0.  A
    level of 65536 makes two commands, and both carry the level 0.  A
    level of 15 is sent as the claim has it. *)
Lemma level_beyond_int_sends_one_command :
  let levels l :=
    inl (request "req-1" "set-denomination-level"
           [("amount", json_integer 200); ("level", json_integer l)]) in
  2 ^ 32 > 0 /\
  new_calls (lab_after (levels (2 ^ 32)) [ok; ok])
  = [SEND [0x34; 0; 0; 200; 0; 0; 0; 69; 85; 82]] /\
  new_calls (lab_after (levels 65536) [ok; ok])
  = [SEND [0x34; 0; 0; 200; 0; 0; 0; 69; 85; 82];
     SEND [0x34; 0; 0; 200; 0; 0; 0; 69; 85; 82]] /\
  new_calls (lab_after (levels 15) [ok; ok])
  = [SEND [0x34; 0; 0; 200; 0; 0; 0; 69; 85; 82];
     SEND [0x34; 15; 0; 200; 0; 0; 0; 69; 85; 82]].
Proof. intros levels. split; [reflexivity|]. repeat split; run. Qed.


(** C5, counterexample.  The validator answers [empty] with KEY_NOT_SET and
    would answer a negotiation and a replay with OK: the only call is the
    command itself, and the caller reads [sspError: key not set] where a
    first-try success reads [result: ok]. *)
Lemma key_not_set_reaches_the_caller :
  let empty := inl (request "req-1" "empty" []) in
  new_calls (lab_after empty [key_not_set; ok; ok]) = [SEND [0x3F]] /\
  new_messages (lab_after empty [key_not_set; ok; ok])
  = [("validator-response",
      [("msgId", FStr "uuid-1"); ("correlId", FStr "req-1");
       ("sspError", FStr "key not set")])] /\
  new_messages (lab_after empty [ok])
  = [("validator-response",
      [("msgId", FStr "uuid-1"); ("correlId", FStr "req-1");
       ("result", FStr "ok")])] /\
  new_messages (lab_after empty [key_not_set; ok; ok])
  <> new_messages (lab_after empty [ok]).
Proof.
  intros empty. split; [run|]. split; [run|].
  split; [run|]. vm_compute. discriminate.
Qed.

(** [enable] on [validator-request], answered with KEY_NOT_SET. *)
Lemma key_not_set_handling_witness :
  let w := lab_world [key_not_set; ok; ok] in
  let json := request "req-1" "enable" [] in
  "message" <> "subscribe" /\
  sspAvailable (metacash w) = true /\
  In "enable" reporting_commands /\
  first_missing json (required "enable") = None /\
  lib_return (upcoming w) = SSP_RESPONSE_KEY_NOT_SET /\
  exists w' x,
    cbOnRequestMessage (hdr := manual_header)
      (delivery "message" "validator-request" "") "uuid-1" (inl json) w
    = Done tt w' /\
    wire w' = wire w ++ [x] /\
    published w'
    = published w
      ++ [("validator-response", key_not_set_reply "uuid-1" "req-1")].
Proof.
  intros w json.
  assert (H1 : "message" <> "subscribe") by discriminate.
  assert (H2 : sspAvailable (metacash w) = true) by run.
  assert (H3 : In "enable" reporting_commands)
    by (do 5 right; left; reflexivity).
  assert (H4 : first_missing json (required "enable") = None) by run.
  assert (H5 : lib_return (upcoming w) = SSP_RESPONSE_KEY_NOT_SET) by run.
  assert (H6 : "enable" = "set-denomination-level" ->
               CInt.to_int
                 (json_integer_value (json_object_get json "level")) <= 0)
    by discriminate.
  split; [exact H1|]. split; [exact H2|]. split; [exact H3|].
  split; [exact H4|]. split; [exact H5|].
  destruct (proj1 (proj2 (proj2 (key_not_set_handling
                                   (hdr := manual_header))))
              "message" "validator-request" "" "uuid-1"
              "validator-response" "req-1" "enable" json the_validator w
              routed_validator H1 eq_refl eq_refl H2 H3 H4 H6 H5)
    as (w' & x & E & Hw & _ & _ & _ & Hp).
  exists w', x. split; [exact E|]. split; [exact Hw | exact Hp].
Defined.



(** C8, counterexample.  After the two successful requests the mask is
    0b00010001, not 0b00010101. *)
Lemma enable_135_then_disable_3_is_not_0x15 :
  let w1 :=
    lab_after
      (inl (request "a" "enable-channels" [("channels", json_string "135")]))
      [ok; ok] in
  let w2 :=
    world_of (cbOnRequestMessage (hdr := manual_header)
                (incoming "validator-request" EmptyString) "uuid-2"
                (inl (request "b" "disable-channels"
                        [("channels", json_string "3")])) w1) in
  List.map returned (skipn (List.length (wire (lab_world []))) (wire w2))
  = [SSP_RESPONSE_OK; SSP_RESPONSE_OK] /\
  channelInhibits (device_of (metacash w1) the_validator) = 0x15 /\
  channelInhibits (device_of (metacash w2) the_validator) = 0x11 /\
  channelInhibits (device_of (metacash w2) the_validator) <> 0x15.
Proof.
  intros w1 w2. split; [run|]. split; [run|].
  split; [run|]. vm_compute. discriminate.
Qed.

(** C9, counterexample.  The validator reports a reset and does not answer
    the protocol version command: the process exits with code 3, not 1. *)
Lemma reset_failure_exits_with_3 :
  main (hdr := manual_header) reset_then_silence = exit_code 3 /\
  main (hdr := manual_header) reset_then_silence <> exit_code 1.
Proof. split; [run|]. vm_compute. discriminate. Qed.

(** An option that [getopt] rejects: exit code 1. *)
Lemma exit_codes_witness :
  forallb known_option (options unknown_option) = false /\
  main (hdr := manual_header) unknown_option = exit_code 1.
Proof.
  assert (H : forallb known_option (options unknown_option) = false)
    by run.
  split; [exact H|].
  exact (proj1 (exit_codes (hdr := manual_header)) unknown_option H).
Defined.

(** ** Scenarios of the specification *)

(** Validator credit: a poll returns READ and CREDIT on channel 2, whose
    value is 10; the two events are published in that order with amount
    1000. *)
Example scenario_validator_credit :
  let reported :=
    polled [note_event SSP_POLL_READ 2; note_event SSP_POLL_CREDIT 2] in
  let w := world_of (deliver (hdr := manual_header) poll_timer
                       (lab_world [reported])) in
  new_messages w
  = [("validator-event",
      [("event", FStr "read"); ("amount", FNum 1000); ("channel", FNum 2)]);
     ("validator-event",
      [("event", FStr "credit"); ("amount", FNum 1000);
       ("channel", FNum 2)])] /\
  List.map (fun tm => render (snd tm)) (new_messages w)
  = ["{" ++ dq ++ "event" ++ dq ++ ":" ++ dq ++ "read" ++ dq ++ ","
     ++ dq ++ "amount" ++ dq ++ ":1000," ++ dq ++ "channel" ++ dq ++ ":2}";
     "{" ++ dq ++ "event" ++ dq ++ ":" ++ dq ++ "credit" ++ dq ++ ","
     ++ dq ++ "amount" ++ dq ++ ":1000," ++ dq ++ "channel" ++ dq
     ++ ":2}"]%string.
Proof. split; run. Qed.

(** Enable/disable channels persistence: after enable-channels("12") and
    disable-channels("2"), both acknowledged, enable-channels("3") writes
    the low byte 0b00000101. *)
Example scenario_channels_persistence :
  let channels c s :=
    inl (request "req" c [("channels", json_string s)]) in
  let step json w :=
    world_of (cbOnRequestMessage (hdr := manual_header)
                (incoming "validator-request" EmptyString) "uuid" json w) in
  let w := step (channels "enable-channels" "3")
             (step (channels "disable-channels" "2")
                (step (channels "enable-channels" "12")
                   (lab_world [ok; ok; ok]))) in
  new_calls w
  = [SET_INHIBITS 0x03 0xFF; SET_INHIBITS 0x01 0xFF; SET_INHIBITS 0x05 0xFF].
Proof. run. Qed.

(** Startup with absent hardware: the daemon publishes the started event,
    answers [test], rejects [empty] with "hardware unavailable", sends
    nothing to the devices and shuts down with exit code 0 on SIGTERM. *)
Example scenario_absent_hardware :
  let ask c :=
    request_message (incoming "validator-request" EmptyString) "uuid"
      (inl (request "req" c [])) in
  let env :=
    {| stack := blank_stack; options := []; serial := cannot_open;
       redisPublishCtx := context_connected;
       redisSubscribeCtx := context_connected;
       loop_events := [ask "test"; ask "empty"; poll_timer; signal 15;
                       check_quit_timer];
       peers := [] |} in
  main (hdr := manual_header) env = exit_code 0 /\
  let w := world_of (main_body (hdr := manual_header) env
                       (initial_world env)) in
  wire w = [] /\
  published w
  = [("payout-event", [("event", FStr "started")]);
     ("validator-response",
      [("msgId", FStr "uuid"); ("correlId", FStr "req");
       ("result", FStr "ok")]);
     ("validator-response",
      [("correlId", FStr "req"); ("error", FStr "hardware unavailable")]);
     ("payout-event", [("event", FStr "exiting")])].
Proof. repeat split; run. Qed.

(** Hopper calibration: a calibration-fail event with code COMMAND_RECAL is
    published as "recalibrating" and followed by RUN_CALIBRATION. *)
Example scenario_recalibrate :
  let e := {| event := SSP_POLL_CALIBRATION_FAIL; data1 := 7; data2 := 0;
              cc := EmptyString |} in
  let w := world_of (hopperEventHandler (hdr := manual_header) the_hopper [e]
                       (lab_world [ok])) in
  new_messages w = [("hopper-event", [("event", FStr "recalibrating")])] /\
  new_calls w = [RUN_CALIBRATION].
Proof. split; run. Qed.

(** * The further properties at concrete inputs *)

(** The confirmation of a subscription is dropped. *)
Lemma other_messages_are_dropped_witness :
  let r := delivery "subscribe" "validator-request" "1" in
  accepted r = false /\
  cbOnRequestMessage (hdr := manual_header) r "uuid-1"
    (inl (request "req-1" "test" [])) (lab_world [])
  = Done tt (lab_world []).
Proof.
  intros r.
  assert (H : accepted r = false) by run.
  split; [exact H|].
  exact (other_messages_are_dropped (hdr := manual_header) r "uuid-1" _ _ H).
Defined.

(** [enable] on [validator-request], acknowledged by the validator. *)
Lemma request_stays_with_its_device_witness :
  let w := lab_world [ok] in
  exists w',
    cbOnRequestMessage (hdr := manual_header)
      (delivery "message" "validator-request" "") "uuid-1"
      (inl (request "req-1" "enable" [])) w
    = Done tt w' /\
    (exists l, wire w' = wire w ++ l
               /\ Forall (fun x => peer x = the_validator) l) /\
    (exists l, published w' = published w ++ l
               /\ Forall (fun tm => fst tm = "validator-response") l) /\
    device_of (metacash w') the_hopper = device_of (metacash w) the_hopper.
Proof.
  intros w.
  exact (request_stays_with_its_device (hdr := manual_header) "message"
           "validator-request" "" "uuid-1" "validator-response"
           (inl (request "req-1" "enable" [])) the_validator w
           routed_validator).
Defined.

(** [enable] on [validator-request] gets its one reply. *)
Lemma request_answered_once_witness :
  let w := lab_world [ok] in
  let loaded := inl (request "req-1" "enable" []) in
  "message" <> "subscribe" /\
  unanswered loaded w = false /\
  exists w',
    cbOnRequestMessage (hdr := manual_header)
      (delivery "message" "validator-request" "") "uuid-1" loaded w
    = Done tt w' /\
    exists m, published w' = published w ++ [("validator-response", m)].
Proof.
  intros w loaded.
  assert (H1 : "message" <> "subscribe") by discriminate.
  assert (H2 : unanswered loaded w = false) by run.
  split; [exact H1|]. split; [exact H2|].
  destruct (request_answered_once (hdr := manual_header) "message"
              "validator-request" "" "uuid-1" "validator-response" loaded
              the_validator w routed_validator H1) as (w' & E & H).
  exists w'. split; [exact E|]. rewrite H2 in H. exact H.
Defined.

(** [enable] before the serial port has been opened. *)
Lemma requests_without_hardware_witness :
  let w := initial_world (lab [] []) in
  let json := request "req-1" "enable" [] in
  "message" <> "subscribe" /\
  sspAvailable (metacash w) = false /\
  cbOnRequestMessage (hdr := manual_header)
    (delivery "message" "validator-request" "") "uuid-1" (inl json) w
  = Done tt
      (told w "validator-response"
         [("correlId", FStr "req-1");
          ("error", FStr "hardware unavailable")]).
Proof.
  intros w json.
  assert (H1 : "message" <> "subscribe") by discriminate.
  assert (H2 : sspAvailable (metacash w) = false) by run.
  split; [exact H1|]. split; [exact H2|].
  exact (requests_without_hardware (hdr := manual_header) "message"
           "validator-request" "" "uuid-1" "validator-response" "req-1"
           "enable" json the_validator w routed_validator H1 eq_refl eq_refl
           H2).
Defined.

(** A command that the daemon does not know. *)
Lemma unknown_command_witness :
  let w := lab_world [] in
  let json := request "req-1" "dance" [] in
  "message" <> "subscribe" /\
  sspAvailable (metacash w) = true /\
  ~ In "dance" commands /\
  cbOnRequestMessage (hdr := manual_header)
    (delivery "message" "validator-request" "") "uuid-1" (inl json) w
  = Done tt
      (told w "validator-response"
         [("correlId", FStr "req-1"); ("error", FStr "unknown command");
          ("cmd", FStr "dance")]).
Proof.
  intros w json.
  assert (H1 : "message" <> "subscribe") by discriminate.
  assert (H2 : sspAvailable (metacash w) = true) by run.
  assert (H3 : ~ In "dance" commands).
  { intros H. repeat (destruct H as [H|H]; [discriminate H|]). exact H. }
  split; [exact H1|]. split; [exact H2|]. split; [exact H3|].
  exact (unknown_command (hdr := manual_header) "message"
           "validator-request" "" "uuid-1" "validator-response" "req-1"
           "dance" json the_validator w routed_validator H1 eq_refl eq_refl
           H2 H3).
Defined.

(** [set-denomination-level] with a level and without an amount. *)
Lemma missing_property_witness :
  let w := lab_world [] in
  let json :=
    request "req-1" "set-denomination-level" [("level", json_integer 3)] in
  "message" <> "subscribe" /\
  sspAvailable (metacash w) = true /\
  first_missing json (required "set-denomination-level") = Some "amount" /\
  cbOnRequestMessage (hdr := manual_header)
    (delivery "message" "validator-request" "") "uuid-1" (inl json) w
  = Done tt
      (told w "validator-response" (property_error "uuid-1" "req-1" "amount")).
Proof.
  intros w json.
  assert (H1 : "message" <> "subscribe") by discriminate.
  assert (H2 : sspAvailable (metacash w) = true) by run.
  assert (H3 : first_missing json (required "set-denomination-level")
               = Some "amount") by run.
  split; [exact H1|]. split; [exact H2|]. split; [exact H3|].
  exact (missing_property (hdr := manual_header) "message"
           "validator-request" "" "uuid-1" "validator-response" "req-1"
           "set-denomination-level" "amount" json the_validator w
           routed_validator H1 eq_refl eq_refl H2 H3).
Defined.

(** Two ticks of the timers and no signal: the daemon stays. *)
Lemma no_shutdown_without_signal_or_quit_witness :
  let env := lab [poll_timer; check_quit_timer] [ok] in
  Forall (fun e => stops e = false) (loop_events env) /\
  main (hdr := manual_header) env <> exit_code 0.
Proof.
  intros env.
  assert (H : Forall (fun e => stops e = false) (loop_events env))
    by (repeat constructor).
  split; [exact H|].
  exact (no_shutdown_without_signal_or_quit (hdr := manual_header) env H).
Defined.

(** SIGTERM, then the tick of the check-quit timer. *)
Lemma signal_shuts_down_witness :
  let env := lab [signal 15; check_quit_timer] [] in
  startup env (initial_world env)
  = Done tt (lab_world []) /\
  15 <> 0 /\
  main (hdr := manual_header) env = exit_code 0.
Proof.
  intros env.
  assert (H1 : startup env (initial_world env)
               = Done tt (lab_world [])) by run.
  assert (H2 : 15 <> 0) by discriminate.
  split; [exact H1|]. split; [exact H2|].
  exact (signal_shuts_down (hdr := manual_header) env 15 [] (lab_world [])
           H1 eq_refl H2).
Defined.

(** The serial port does not open; requests and ticks follow. *)
Lemma no_port_no_traffic_witness :
  let env :=
    {| stack := blank_stack; options := []; serial := port_does_not_open;
       redisPublishCtx := context_connected;
       redisSubscribeCtx := context_connected;
       loop_events :=
         [poll_timer;
          request_message (delivery "message" "validator-request" "")
            "uuid-1" (inl (request "req-1" "enable" []))];
       peers := [ok; ok] |} in
  serial env <> port_opens /\
  wire (world_of (main_body (hdr := manual_header) env (initial_world env)))
  = [].
Proof.
  intros env.
  assert (H : serial env <> port_opens) by discriminate.
  split; [exact H|].
  exact (no_port_no_traffic (hdr := manual_header) env H).
Defined.

(** The validator answers a POLL with OK and no events. *)
Lemma poll_without_events_witness :
  let w := lab_world [ok] in
  lib_return (upcoming w) <> SSP_RESPONSE_KEY_NOT_SET /\
  events (upcoming w) = [] /\
  mcSspPollDevice (hdr := manual_header) the_validator w
  = Done tt (exchanged w the_validator POLL).
Proof.
  intros w.
  assert (H1 : lib_return (upcoming w) <> SSP_RESPONSE_KEY_NOT_SET)
    by by_computation.
  assert (H2 : events (upcoming w) = []) by run.
  split; [exact H1|]. split; [exact H2|].
  exact (poll_without_events (hdr := manual_header) the_validator w H1
           (fun _ => H2)).
Defined.

(** A tick in the laboratory, where only the validator is available. *)
Lemma tick_polls_available_devices_once_witness :
  let w := lab_world [ok] in
  let w' := world_of (cbOnPollEvent (hdr := manual_header) w) in
  cbOnPollEvent (hdr := manual_header) w = Done tt w' /\
  polled_between w w' = [the_validator].
Proof.
  intros w w'.
  assert (H : cbOnPollEvent (hdr := manual_header) w = Done tt w') by run.
  split; [exact H|].
  rewrite (tick_polls_available_devices_once (hdr := manual_header) w w' H).
  run.
Defined.

(** Channels 1, 3 and 5 on the mask 0x02. *)
Lemma channel_requests_compose_witness :
  0 <= 0x02 < 256 /\
  enable_bits "135" (enable_bits "135" 0x02) = enable_bits "135" 0x02 /\
  enable_bits "5" (enable_bits "13" 0x02) = enable_bits "135" 0x02 /\
  disable_bits "135" (enable_bits "135" 0x02) = disable_bits "135" 0x02 /\
  enable_bits "135" (disable_bits "135" 0x02) = enable_bits "135" 0x02 /\
  Z.lxor (disable_bits "135" 0xFF) (enable_bits "135" 0) = 0xFF.
Proof.
  assert (H : 0 <= 0x02 < 256) by lia.
  split; [exact H|].
  destruct (channel_requests_compose "135" "13" "5" 0x02 H)
    as (H1 & H2 & H3 & H4 & H5).
  repeat split; assumption.
Defined.

(** A hopper that holds three coins of 2 euro and twelve of 50 cent. *)
Lemma levels_are_read_back_witness :
  let cs := [{| counter_level := 3; counter_value := 200;
                counter_cc := "EUR" |};
             {| counter_level := 12; counter_value := 50;
                counter_cc := "EUR" |}] in
  let data := 2 :: List.concat (map counter_bytes cs) in
  let w :=
    lab_world [{| sent := true;
                  response := {| code := SSP_RESPONSE_OK; body := data |};
                  events := []; setup_data := no_setup |}] in
  let cmd := lab_command "get-all-levels" [] in
  answers_with w SSP_RESPONSE_OK data /\
  Forall counter_fits cs /\
  handleGetAllLevels cmd w
  = Done tt
      (told (sent_command w the_validator [SSP_CMD_GET_ALL_LEVELS])
         "validator-response"
         [("correlId", FStr "req-1");
          ("levels",
           FRaw ("[" ++ String.concat "," (map counter_json cs) ++ "]"))]).
Proof.
  intros cs data w cmd.
  assert (H1 : answers_with w SSP_RESPONSE_OK
                 (Z.of_nat (List.length cs)
                  :: List.concat (map counter_bytes cs) ++ []))
    by by_computation.
  assert (H2 : Forall counter_fits cs)
    by (repeat constructor; by_computation).
  assert (H3 : (List.length cs < 256)%nat) by (cbn; lia).
  split; [by_computation|]. split; [exact H2|].
  exact (levels_are_read_back cmd cs [] w H1 H2 H3).
Defined.

(** No counter and 5 coins that were not identified. *)
Lemma payout_operation_data_is_read_witness :
  let data := [0; 5; 0; 0] in
  let w :=
    lab_world [{| sent := true;
                  response := {| code := SSP_RESPONSE_OK; body := data |};
                  events := []; setup_data := no_setup |}] in
  let cmd := lab_command "cashbox-payout-operation-data" [] in
  answers_with w SSP_RESPONSE_OK data /\
  handleCashboxPayoutOperationData cmd w
  = Done tt
      (told (sent_command w the_validator
               [SSP_CMD_CASHBOX_PAYOUT_OPERATION_DATA])
         "validator-response"
         [("correlId", FStr "req-1");
          ("levels",
           FRaw ("[" ++ ("" ++ "," ++ render [("value", FNum 0);
                                              ("level", FNum 5)])
                 ++ "]"))]).
Proof.
  intros data w cmd.
  assert (H1 : answers_with w SSP_RESPONSE_OK
                 (Z.of_nat (List.length (@nil counter))
                  :: List.concat (map counter_bytes [])
                     ++ [5; 0; 0] ++ []))
    by by_computation.
  assert (Hb : forall b, 0 <= b < 256 -> is_byte b) by (intros b H; exact H).
  split; [by_computation|].
  exact (proj1 (payout_operation_data_is_read cmd []
                  5 0 0 [] w H1 (Forall_nil _) (Nat.lt_0_succ 255)
                  (Hb 5 ltac:(lia)) (Hb 0 ltac:(lia)) (Hb 0 ltac:(lia)))).
Defined.

(** A firmware version of 16 characters. *)
Lemma versions_are_read_witness :
  let v := "NV02004141498000" in
  let w :=
    lab_world [{| sent := true;
                  response := {| code := SSP_RESPONSE_OK;
                                 body := c_bytes v |};
                  events := []; setup_data := no_setup |}] in
  let cmd := lab_command "get-firmware-version" [] in
  answers_with w SSP_RESPONSE_OK (c_bytes v) /\
  no_nul v = true /\
  String.length v = 16%nat /\
  handleGetFirmwareVersion cmd w
  = Done tt
      (told (sent_command w the_validator [SSP_CMD_GET_FIRMWARE_VERSION])
         "validator-response"
         [("correlId", FStr "req-1"); ("version", FStr v)]).
Proof.
  intros v w cmd.
  assert (H1 : answers_with w SSP_RESPONSE_OK (c_bytes v ++ []))
    by by_computation.
  assert (H2 : no_nul v = true) by run.
  assert (H3 : String.length v = 16%nat) by run.
  split; [by_computation|]. split; [exact H2|]. split; [exact H3|].
  exact (proj1 (versions_are_read cmd v [] w H1 H2)
           H3).
Defined.


(** [quit] on [validator-request], then the tick of the check-quit timer. *)
Lemma quit_shuts_down_witness :
  let env :=
    lab [request_message (delivery "message" "validator-request" "")
           "uuid-1" (inl (request "req-1" "quit" []));
         check_quit_timer] [] in
  startup env (initial_world env) = Done tt (lab_world []) /\
  "message" <> "subscribe" /\
  main (hdr := manual_header) env = exit_code 0 /\
  exists w',
    main_body (hdr := manual_header) env (initial_world env)
    = Done (Some 0) w' /\
    published w'
    = [started_event; ("validator-response", ok_reply "uuid-1" "req-1");
       exiting_event].
Proof.
  intros env.
  assert (H1 : startup env (initial_world env) = Done tt (lab_world []))
    by run.
  assert (H2 : "message" <> "subscribe") by discriminate.
  split; [exact H1|]. split; [exact H2|].
  destruct (quit_shuts_down (hdr := manual_header) env "message"
              "validator-request" "" "uuid-1" "validator-response" "req-1"
              (request "req-1" "quit" []) the_validator [] (lab_world [])
              H1 eq_refl routed_validator H2 eq_refl eq_refl)
    as (Hmain & w' & E & Hp & _).
  split; [exact Hmain|]. exists w'. split; [exact E | exact Hp].
Defined.

(** The validator is found and configured, but it rejects SET_INHIBITS:
    the poll timer is not created. *)
Lemma setup_gives_up_without_poll_timer_witness :
  let answers' :=
    [ok; ok; ok; setup_ok; ok; ok; ok] ++ [silence] ++ repeat ok 8
    ++ [reply_code SSP_RESPONSE_COMMAND_NOT_PROCESSED] in
  let w0 := initial_world (lab [] []) in
  let w :=
    {| metacash := with_sspAvailable (metacash w0) true;
       receivedSignal := 0; loopexit := false; wire := []; published := [];
       answers := answers' |} in
  let w' := world_of (setup context_connected context_connected w) in
  evPoll (metacash w) = false /\
  setup context_connected context_connected w = Done tt w' /\
  evPoll (metacash w') = false /\
  deliver (hdr := manual_header) poll_timer w' = Done tt w'.
Proof.
  intros answers' w0 w w'.
  assert (H1 : evPoll (metacash w) = false) by run.
  assert (H2 : setup context_connected context_connected w = Done tt w')
    by run.
  split; [exact H1|]. split; [exact H2|].
  destruct (setup_gives_up_without_poll_timer (hdr := manual_header)
              context_connected context_connected w w' H1 H2)
    as (l & Hw & Hp & Hd).
  assert (Hl : l = skipn (List.length (wire w)) (wire w'))
    by (rewrite Hw, skipn_app, Nat.sub_diag, skipn_all; reflexivity).
  assert (Hg : existsb gives_up l = true) by (rewrite Hl; run).
  split; [rewrite Hp, Hg; reflexivity | exact (Hd Hg)].
Defined.

(** A hopper with coins of 1 and 2 euro, and no [-c] on the command
    line: both are inhibited. *)
Lemma coins_follow_the_option_witness :
  let coins :=
    {| UnitType := 3; NumberOfChannels := 2;
       ChannelData := [{| value := 100; channel_cc := "EUR" |};
                       {| value := 200; channel_cc := "EUR" |}] |} in
  let w := informed (lab_world [ok; ok]) the_hopper coins in
  (Z.to_nat (NumberOfChannels (sspSetupReq (hopper (metacash w))))
   <= List.length (ChannelData (sspSetupReq (hopper (metacash w)))))%nat /\
  exists w' l,
    setup_hopper w = Done tt w' /\
    wire w' = wire w ++ l /\
    map call l
    = [SET_COINMECH_INHIBITS 100 "EUR" DISABLED;
       SET_COINMECH_INHIBITS 200 "EUR" DISABLED].
Proof.
  intros coins w.
  assert (H : (Z.to_nat (NumberOfChannels
                           (sspSetupReq (hopper (metacash w))))
               <= List.length
                    (ChannelData (sspSetupReq (hopper (metacash w)))))%nat)
    by (vm_compute; lia).
  split; [exact H|].
  destruct (coins_follow_the_option w H) as (w' & l & E & Hw & Hc & _).
  exists w', l. split; [exact E|]. split; [exact Hw|].
  rewrite Hc. run.
Defined.

(** A run of the laboratory that is ended by SIGTERM. *)
Lemma started_first_exiting_last_witness :
  let env := lab [poll_timer; signal 15; check_quit_timer] [ok] in
  let w := world_of (main_body (hdr := manual_header) env
                       (initial_world env)) in
  main_body (hdr := manual_header) env (initial_world env)
  = Done (Some 0) w /\
  exists between,
    published w = started_event :: between ++ [exiting_event].
Proof.
  intros env w.
  assert (H : main_body (hdr := manual_header) env (initial_world env)
              = Done (Some 0) w) by run.
  split; [exact H|].
  exact (proj1 (started_first_exiting_last (hdr := manual_header) env w) H).
Defined.

(** The last note was rejected because its channel was inhibited. *)
Lemma reject_reasons_tell_codes_apart_witness :
  let w :=
    lab_world [{| sent := true;
                  response := {| code := SSP_RESPONSE_OK; body := [6] |};
                  events := []; setup_data := no_setup |}] in
  let cmd := lab_command "last-reject-note" [] in
  answers_with w SSP_RESPONSE_OK [6] /\
  handleLastRejectNote cmd w
  = Done tt
      (told (sent_command w the_validator [SSP_CMD_LAST_REJECT_NOTE])
         "validator-response"
         [("correlId", FStr "req-1"); ("reason", FStr (reject_reason 6));
          ("code", FNum 6)]).
Proof.
  intros w cmd.
  assert (H : answers_with w SSP_RESPONSE_OK [6]) by by_computation.
  split; [exact H|].
  exact (proj1 reject_reasons_tell_codes_apart cmd 6 [] w H).
Defined.

(** The validator of the laboratory answers the whole handshake. *)
Lemma available_after_the_handshake_witness :
  let w0 := initial_world (lab [] []) in
  let w :=
    {| metacash := metacash w0; receivedSignal := 0; loopexit := false;
       wire := []; published := [];
       answers := [ok; ok; ok; setup_ok; ok; ok; ok] |} in
  let w' := world_of (mcSspInitializeDevice the_validator DEFAULT_KEY w) in
  sspDeviceAvailable (device_of (metacash w) the_validator) = false /\
  sspDeviceAvailable (device_of (metacash w') the_validator) = true /\
  map call (wire w') = handshake DEFAULT_KEY.
Proof.
  intros w0 w w'.
  assert (H1 : sspDeviceAvailable (device_of (metacash w) the_validator)
               = false) by run.
  assert (H2 : sspDeviceAvailable (device_of (metacash w') the_validator)
               = true) by run.
  split; [exact H1|]. split; [exact H2|].
  destruct (available_after_the_handshake the_validator DEFAULT_KEY w)
    as (l & Hw & _ & H).
  destruct (H H1 H2) as [Hc _].
  change (wire w' = [] ++ l) in Hw. cbn [app] in Hw.
  rewrite Hw. exact Hc.
Defined.

(** A port that does not fit a [long] is stored as -1; an ordinary one is
    stored as it is written. *)
Lemma options_are_applied_in_order_witness :
  let port p := [{| optc := "p"%char; optarg := p |}] in
  let w := initial_world (lab [] []) in
  (exists m',
      parseCmdLine (port "99999999999999999999") w
      = Done 0 (with_metacash w m') /\
      redisPort m' = -1) /\
  (exists m',
      parseCmdLine (port "6380") w = Done 0 (with_metacash w m') /\
      redisPort m' = 6380).
Proof.
  intros port w. split.
  - destruct (options_are_applied_in_order (port "99999999999999999999") w)
      as (m' & E & _ & Hp & _).
    exists m'. split; [exact E | exact Hp].
  - destruct (options_are_applied_in_order (port "6380") w)
      as (m' & E & _ & Hp & _).
    exists m'. split; [exact E | exact Hp].
Defined.
